(** * MarketCycleSignal: timeframe conversion and multi-timeframe merge

    A shallow embedding of [libs/TimeframeData.py] (class [TimeframeData]:
    [convert], [convertMany]) and of [libs/__TimeFrameData.py] (class
    [TimeFrameData]: [toTimeframe], [mergeTimeframes], [_rename_cols],
    [_to_higher_tf_accurate]).

    Python exceptions are an error monad.  A pandas frame is a list of
    column labels and a list of rows, each row a timestamp with one cell
    per column; a cell is [option Z], [None] standing for NaN.  A column of
    numbers is an [int64] column whose sums wrap around; a column that holds
    a NaN is a [float64] column in pandas, where the integers below [2 ^ 53]
    in absolute value, and their sums below that bound, are exact: the
    statements that compute with the numbers assume that bound ([exact]).
    The pandas primitives the code calls ([resample], [agg], [dropna],
    [reindex], [join], [to_period], [MultiIndex.from_tuples]) are written out
    below; the calendar arithmetic behind a frequency alias is a record of
    functions, [Calendar]. *)

From Stdlib Require Import ZArith List String Ascii Bool Lia.
From Stdlib Require Import DecimalString Sorted Permutation.
Import ListNotations.

Open Scope Z_scope.

(* ================================================================== *)
(** * Python values and exceptions *)

Inductive exn : Type :=
| ValueError (msg : string)
| KeyError (key : string)
| AttributeError (msg : string)
| TypeError (msg : string)
| ZeroDivisionError.

Inductive result (A : Type) : Type :=
| Ok (a : A)
| Raise (e : exn).

Arguments Ok {A} a.
Arguments Raise {A} e.

Definition bind {A B : Type} (m : result A) (k : A -> result B) : result B :=
  match m with
  | Ok a => k a
  | Raise e => Raise e
  end.

Notation "x <- m ;; k" := (bind m (fun x => k))
  (at level 61, m at next level, right associativity).

Definition rmap {A B : Type} (f : A -> B) (m : result A) : result B :=
  x <- m ;; Ok (f x).

Definition succeeds {A : Type} (m : result A) : Prop :=
  exists a, m = Ok a.

(** The messages of the [ValueError]s the two classes raise, under the names
    the specification gives to the error kinds. *)
Definition InvalidConversion : exn :=
  ValueError "Target timeframe must be a multiple of the source timeframe.".
Definition UnsupportedTimeframe : exn :=
  ValueError "Unsupported higher timeframe. Use 'd', 'w', or 'm' suffix.".
Definition InvalidTargetType : exn :=
  ValueError "Invalid target timeframe type. Use int for intraday or str for higher timeframes.".
Definition NoTimeframes : exn :=
  ValueError "No valid timeframes provided for merging.".
Definition MissingBaseSeries : exn :=
  ValueError "Base (smallest timeframe) DataFrame cannot be None.".

(** [a // b] on Python integers: floor division ([Z.div]); it raises on
    [b = 0].  [a % b] has the sign of the divisor ([Z.modulo]). *)
Definition py_floordiv (a b : Z) : result Z :=
  if b =? 0 then Raise ZeroDivisionError else Ok (a / b).

(** [f"{n}"] for an integer. *)
Definition py_str_int (n : Z) : string :=
  NilZero.string_of_int (Z.to_int n).

(* ------------------------------------------------------------------ *)
(** ** Strings *)

(** [c.lower()], on ASCII letters. *)
Definition lower_ascii (c : ascii) : ascii :=
  let n := nat_of_ascii c in
  if (Nat.leb 65 n && Nat.leb n 90)%bool then ascii_of_nat (n + 32) else c.

Fixpoint lower (s : string) : string :=
  match s with
  | EmptyString => EmptyString
  | String c s' => String (lower_ascii c) (lower s')
  end.

(** [needle in hay] on strings. *)
Fixpoint contains (needle hay : string) : bool :=
  String.prefix needle hay ||
  match hay with
  | EmptyString => false
  | String _ hay' => contains needle hay'
  end.

(** [s.endswith(c)] for a one-character suffix, and [s[:-1]]. *)
Fixpoint endswith (s : string) (c : ascii) : bool :=
  match s with
  | EmptyString => false
  | String a EmptyString => Ascii.eqb a c
  | String _ s' => endswith s' c
  end.

Fixpoint drop_last (s : string) : string :=
  match s with
  | EmptyString => EmptyString
  | String _ EmptyString => EmptyString
  | String a s' => String a (drop_last s')
  end.

(* ================================================================== *)
(** * Frames *)

(** A cell; [None] is NaN. *)
Definition cell : Type := option Z.

Definition notna (c : cell) : bool :=
  match c with Some _ => true | None => false end.

(** A column label: a plain name, or a pair [(group, field)] of a two-level
    column index. *)
Inductive label : Type :=
| Flat (c : string)
| Multi (g f : string).

Definition label_eqb (a b : label) : bool :=
  match a, b with
  | Flat x, Flat y => String.eqb x y
  | Multi g f, Multi g' f' => String.eqb g g' && String.eqb f f'
  | _, _ => false
  end.

Definition row : Type := (Z * list cell)%type.

Record DataFrame : Type := mkDF {
  columns : list label;
  rows : list row
}.

Definition index (df : DataFrame) : list Z := map fst (rows df).

(** Position of a label among the columns (the first one of that name). *)
Fixpoint col_pos (c : label) (cols : list label) : option nat :=
  match cols with
  | [] => None
  | c' :: cols' =>
      if label_eqb c c' then Some 0%nat
      else option_map S (col_pos c cols')
  end.

Definition has_col (c : label) (cols : list label) : bool :=
  match col_pos c cols with Some _ => true | None => false end.

(** The cell of a row under column [c]. *)
Definition cell_at (cols : list label) (c : label) (cells : list cell) : cell :=
  match col_pos c cols with
  | Some j => nth j cells None
  | None => None
  end.

(** [df[c]] restricted to some rows: the cells of one column, in row order. *)
Definition column_of (cols : list label) (c : label) (rs : list row) : list cell :=
  map (fun r => cell_at cols c (snd r)) rs.

(** The row labelled [t] (the first one). *)
Fixpoint row_at (t : Z) (rs : list row) : option (list cell) :=
  match rs with
  | [] => None
  | (t', cells) :: rs' => if t' =? t then Some cells else row_at t rs'
  end.

(* ------------------------------------------------------------------ *)
(** ** Aggregation functions of [agg]

    As pandas computes them on a group: [first] and [last] are the first and
    the last value that is not NaN, [max], [min] and [sum] skip NaN, and the
    sum of no value is 0.  The sum of an [int64] column wraps around at 64
    bits. *)

Inductive aggfun : Type := First | Last | Max | Min | Sum.

Fixpoint agg_first (l : list cell) : cell :=
  match l with
  | [] => None
  | Some v :: _ => Some v
  | None :: l' => agg_first l'
  end.

Definition agg_last (l : list cell) : cell := agg_first (rev l).

Definition cell_max (acc c : cell) : cell :=
  match acc, c with
  | Some a, Some v => Some (Z.max a v)
  | None, c => c
  | acc, None => acc
  end.

Definition cell_min (acc c : cell) : cell :=
  match acc, c with
  | Some a, Some v => Some (Z.min a v)
  | None, c => c
  | acc, None => acc
  end.

Definition agg_max (l : list cell) : cell := fold_left cell_max l None.
Definition agg_min (l : list cell) : cell := fold_left cell_min l None.

(** The two's complement value of an integer on 64 bits. *)
Definition int64 (z : Z) : Z := (z + 2 ^ 63) mod 2 ^ 64 - 2 ^ 63.

Definition agg_sum (l : list cell) : cell :=
  Some (int64 (fold_left (fun acc c => match c with Some v => acc + v | None => acc end)
                 l 0)).

Definition apply_agg (f : aggfun) (l : list cell) : cell :=
  match f with
  | First => agg_first l
  | Last => agg_last l
  | Max => agg_max l
  | Min => agg_min l
  | Sum => agg_sum l
  end.

(** One aggregated row: one cell per entry of the aggregation dictionary. *)
Definition agg_row (cols : list label) (agg_dict : list (label * aggfun))
    (group : list row) : list cell :=
  map (fun '(c, f) => apply_agg f (column_of cols c group)) agg_dict.

(* ------------------------------------------------------------------ *)
(** ** [resample(freq).agg(agg_dict)] and [dropna] *)

(** Which edges [resample] was asked for: its defaults, or
    [label="left", closed="left"]. *)
Inductive edges : Type := DefaultEdges | LeftEdges.

(** pandas' calendar arithmetic.  [valid_freq freq] tells whether [resample]
    accepts the alias, and [freq_error freq] is the exception it raises for
    an alias it does not accept.  [bin_of freq e origin t] is the ordinal of
    the resampling bin of timestamp [t] when the first timestamp of the frame
    is [origin]; consecutive bins have consecutive ordinals.
    [bin_label freq e origin b] is the timestamp that labels bin [b].
    [to_period freq t] is the ordinal of the period of [t]. *)
Record Calendar : Type := mkCalendar {
  valid_freq : string -> bool;
  freq_error : string -> exn;
  bin_of : string -> edges -> Z -> Z -> Z;
  bin_label : string -> edges -> Z -> Z -> Z;
  to_period : string -> Z -> Z
}.

Definition list_min (d : Z) (l : list Z) : Z := fold_left Z.min l d.
Definition list_max (d : Z) (l : list Z) : Z := fold_left Z.max l d.

(** The integers [lo, lo+1, ..., hi]. *)
Definition zrange (lo hi : Z) : list Z :=
  map (fun k => lo + Z.of_nat k) (seq 0 (Z.to_nat (hi - lo + 1))).

(** The first key of the dictionary that is not a column. *)
Fixpoint missing_key (cols : list label) (agg_dict : list (label * aggfun))
  : option label :=
  match agg_dict with
  | [] => None
  | (c, _) :: d => if has_col c cols then missing_key cols d else Some c
  end.

Definition label_name (c : label) : string :=
  match c with
  | Flat s => s
  | Multi _ f => f
  end.

(** The rows of bin [b]. *)
Definition bin_rows (cal : Calendar) (freq : string) (e : edges) (origin b : Z)
    (rs : list row) : list row :=
  filter (fun r => bin_of cal freq e origin (fst r) =? b) rs.

(** The rows in the order of their timestamps, as [resample] groups them: a
    stable sort, rows with the same timestamp keep their order. *)
Fixpoint insert_row (r : row) (rs : list row) : list row :=
  match rs with
  | [] => [r]
  | r' :: rs' =>
      if fst r <=? fst r' then r :: r' :: rs' else r' :: insert_row r rs'
  end.

Definition by_time (rs : list row) : list row := fold_right insert_row [] rs.

(** [df.resample(freq, ...).agg(agg_dict)]: one row per bin from the bin of the
    earliest timestamp to the bin of the latest one, empty bins included; the
    rows of a bin are aggregated in timestamp order.  An empty dictionary
    leaves [agg] nothing to concatenate. *)
Definition resample_agg (cal : Calendar) (freq : string) (e : edges)
    (agg_dict : list (label * aggfun)) (df : DataFrame) : result DataFrame :=
  if negb (valid_freq cal freq) then Raise (freq_error cal freq)
  else
    match missing_key (columns df) agg_dict with
    | Some c => Raise (KeyError (label_name c))
    | None =>
        match agg_dict with
        | [] => Raise (ValueError "No objects to concatenate")
        | _ :: _ =>
            match index df with
            | [] => Ok (mkDF (map fst agg_dict) [])
            | t0 :: ts =>
                let origin := list_min t0 ts in
                let ords := map (bin_of cal freq e origin) (t0 :: ts) in
                let lo := list_min (bin_of cal freq e origin t0) ords in
                let hi := list_max (bin_of cal freq e origin t0) ords in
                Ok (mkDF (map fst agg_dict)
                      (map (fun b =>
                              (bin_label cal freq e origin b,
                               agg_row (columns df) agg_dict
                                 (bin_rows cal freq e origin b (by_time (rows df)))))
                           (zrange lo hi)))
            end
        end
    end.

(** What [resample] is called on: a frame, or a series, that is one column
    of cells under its timestamps ([data[symbol]] on a table with one-level
    columns). *)
Inductive pdobj : Type :=
| Frame (df : DataFrame)
| Series (s : list (Z * cell)).

Coercion Frame : DataFrame >-> pdobj.

(** [agg] with a dictionary on a resampled series applies every function of
    the dictionary to the series itself and names the columns of the result
    by the keys. *)
Definition series_frame (agg_dict : list (label * aggfun)) (s : list (Z * cell))
  : DataFrame :=
  mkDF (map fst agg_dict) (map (fun r => (fst r, map (fun _ => snd r) agg_dict)) s).

Definition resample_agg_obj (cal : Calendar) (freq : string) (e : edges)
    (agg_dict : list (label * aggfun)) (data : pdobj) : result DataFrame :=
  match data with
  | Frame df => resample_agg cal freq e agg_dict df
  | Series s => resample_agg cal freq e agg_dict (series_frame agg_dict s)
  end.

(** [isinstance(columns, pd.MultiIndex)]: every label is a tuple. *)
Definition is_multi (c : label) : bool :=
  match c with Multi _ _ => true | Flat _ => false end.

Definition is_multiindex (cols : list label) : bool :=
  match cols with
  | [] => false
  | _ => forallb is_multi cols
  end.

(** [pd.MultiIndex.from_tuples(tuples)]; it cannot tell the number of levels
    of an empty list. *)
Definition from_tuples (tuples : list label) : result (list label) :=
  match tuples with
  | [] => Raise (TypeError "Cannot infer number of levels from empty list")
  | _ :: _ => Ok tuples
  end.

(** [df.dropna()]: keep the rows without any NaN. *)
Definition dropna_any (df : DataFrame) : DataFrame :=
  mkDF (columns df) (filter (fun r => forallb notna (snd r)) (rows df)).

(** [df.dropna(how="all")]: drop the rows whose cells are all NaN. *)
Definition dropna_all (df : DataFrame) : DataFrame :=
  mkDF (columns df) (filter (fun r => existsb notna (snd r)) (rows df)).

(* ================================================================== *)
(** * libs/TimeframeData.py *)

Module TimeframeData.

(** The second component of [conversion]: an [int], a [str], or any other
    object. *)
Inductive target : Type :=
| TInt (n : Z)
| TStr (s : string)
| TOther.

(** The aggregation dictionary of both branches of [convert]. *)
Definition ohlcv_agg : list (label * aggfun) :=
  [ (Flat "Open", First); (Flat "High", Max); (Flat "Low", Min);
    (Flat "Close", Last); (Flat "Volume", Sum) ].

Definition convert (cal : Calendar) (data : pdobj) (conversion : Z * target)
  : result DataFrame :=
  let '(from_tf, to_tf) := conversion in
  match to_tf with
  | TInt n =>
      factor <- py_floordiv n from_tf ;;
      (* [from_tf] is not 0 here, so [n % from_tf] does not raise *)
      if (factor <? 1) || negb (n mod from_tf =? 0) then Raise InvalidConversion
      else
        out <- resample_agg_obj cal (py_str_int n ++ "min") DefaultEdges ohlcv_agg data ;;
        Ok (dropna_any out)
  | TStr s =>
      if endswith s "d" then
        out <- resample_agg_obj cal (drop_last s ++ "D") DefaultEdges ohlcv_agg data ;;
        Ok (dropna_any out)
      else if endswith s "w" then
        out <- resample_agg_obj cal (drop_last s ++ "W") DefaultEdges ohlcv_agg data ;;
        Ok (dropna_any out)
      else if endswith s "m" then
        out <- resample_agg_obj cal (drop_last s ++ "M") DefaultEdges ohlcv_agg data ;;
        Ok (dropna_any out)
      else Raise UnsupportedTimeframe
  | TOther => Raise InvalidTargetType
  end.

(** [data.columns.get_level_values(0).unique()]: the first-level values in
    order of first appearance. *)
Definition level0 (c : label) : string :=
  match c with
  | Flat s => s
  | Multi g _ => g
  end.

Fixpoint unique (l : list string) : list string :=
  match l with
  | [] => []
  | x :: l' => x :: filter (fun y => negb (String.eqb x y)) (unique l')
  end.

Definition symbols (data : DataFrame) : list string :=
  unique (map level0 (columns data)).

(** [data[symbol]].  On two-level columns: the frame of the columns of group
    [symbol], under their field names.  On one-level columns: the column
    named [symbol], a series (a frame when several columns carry the name). *)
Fixpoint select (sym : string) (cols : list label) (cells : list cell) : list cell :=
  match cols, cells with
  | c :: cols', x :: cells' =>
      if String.eqb (level0 c) sym then x :: select sym cols' cells'
      else select sym cols' cells'
  | _, _ => []
  end.

Definition getitem (data : DataFrame) (sym : string) : pdobj :=
  let selected := filter (fun c => String.eqb (level0 c) sym) (columns data) in
  let frame :=
    mkDF (map (fun c => Flat (label_name c)) selected)
         (map (fun r => (fst r, select sym (columns data) (snd r))) (rows data)) in
  if is_multiindex (columns data) then Frame frame
  else
    match selected with
    | [Flat _] =>
        Series (map (fun r => (fst r, hd None (select sym (columns data) (snd r))))
                    (rows data))
    | _ => Frame frame
    end.

(** The dictionary comprehension of [convertMany]: the symbols are converted
    in order, and an exception raised by one conversion leaves the
    comprehension. *)
Fixpoint dict_comp (f : string -> result DataFrame) (syms : list string)
  : result (list (string * DataFrame)) :=
  match syms with
  | [] => Ok []
  | s :: syms' =>
      v <- f s ;;
      d <- dict_comp f syms' ;;
      Ok ((s, v) :: d)
  end.

Definition convertMany (cal : Calendar) (data : DataFrame) (conversion : Z * target)
  : result (list (string * DataFrame)) :=
  dict_comp (fun symbol => convert cal (getitem data symbol) conversion)
            (symbols data).

End TimeframeData.

(* ================================================================== *)
(** * The other pandas primitives of libs/__TimeFrameData.py *)

(** Insertion into a strictly increasing list, and the sorted list of the
    distinct elements of a list. *)
Fixpoint insert_uniq (x : Z) (l : list Z) : list Z :=
  match l with
  | [] => [x]
  | y :: l' =>
      if x <? y then x :: y :: l'
      else if x =? y then y :: l'
      else y :: insert_uniq x l'
  end.

Definition sort_uniq (l : list Z) : list Z := fold_right insert_uniq [] l.

Fixpoint strictly_increasing (l : list Z) : bool :=
  match l with
  | [] => true
  | x :: l' =>
      match l' with
      | [] => true
      | y :: _ => (x <? y) && strictly_increasing l'
      end
  end.

Definition nan_row (cols : list label) : list cell := map (fun _ => None) cols.

(** The cells of the last row labelled at or before [t], NaN if there is none. *)
Fixpoint ffill_at (cols : list label) (t : Z) (rs : list row) : list cell :=
  match rs with
  | [] => nan_row cols
  | (t', cells) :: rs' =>
      if t' <=? t then
        match rs' with
        | (t'', _) :: _ => if t'' <=? t then ffill_at cols t rs' else cells
        | [] => cells
        end
      else nan_row cols
  end.

Fixpoint strictly_decreasing (l : list Z) : bool :=
  match l with
  | [] => true
  | x :: l' =>
      match l' with
      | [] => true
      | y :: _ => (y <? x) && strictly_decreasing l'
      end
  end.

Fixpoint index_eqb (a b : list Z) : bool :=
  match a, b with
  | [], [] => true
  | x :: a', y :: b' => (x =? y) && index_eqb a' b'
  | _, _ => false
  end.

Fixpoint is_unique (l : list Z) : bool :=
  match l with
  | [] => true
  | x :: l' => negb (existsb (Z.eqb x) l') && is_unique l'
  end.

(** Padding on a decreasing index: the row labelled [t], else the row before
    the place where [t] would be inserted, which is the last of the rows
    labelled above [t]. *)
Definition pad_decreasing_at (cols : list label) (t : Z) (rs : list row) : list cell :=
  match row_at t rs with
  | Some cells => cells
  | None =>
      match rev (filter (fun r => t <? fst r) rs) with
      | r :: _ => snd r
      | [] => nan_row cols
      end
  end.

(** [df.reindex(idx, method="ffill")].  The frame is returned as it is when
    [idx] is its own index; otherwise pandas refuses an index with duplicate
    labels and an index that is neither increasing nor decreasing. *)
Definition reindex_ffill (df : DataFrame) (idx : list Z) : result DataFrame :=
  if index_eqb (index df) idx then Ok df
  else if negb (is_unique (index df)) then
    Raise (ValueError "cannot reindex on an axis with duplicate labels")
  else if strictly_increasing (index df) then
    Ok (mkDF (columns df) (map (fun t => (t, ffill_at (columns df) t (rows df))) idx))
  else if strictly_decreasing (index df) then
    Ok (mkDF (columns df)
          (map (fun t => (t, pad_decreasing_at (columns df) t (rows df))) idx))
  else Raise (ValueError "index must be monotonic increasing or decreasing").

(** [left.join(right, how="outer")]: the union of the two indexes, in
    increasing order; a side without a row at a timestamp contributes NaN.
    Column names present on both sides are refused. *)
Definition cells_or_nan (df : DataFrame) (t : Z) : list cell :=
  match row_at t (rows df) with
  | Some cells => cells
  | None => nan_row (columns df)
  end.

Definition join_outer (left right : DataFrame) : result DataFrame :=
  if existsb (fun c => has_col c (columns left)) (columns right) then
    Raise (ValueError "columns overlap but no suffix specified")
  else
    Ok (mkDF (columns left ++ columns right)
          (map (fun t => (t, cells_or_nan left t ++ cells_or_nan right t))
               (sort_uniq (index left ++ index right)))).

(** A Python [dict] with insertion order: [d[k] = v] and [d.get(k)]. *)
Fixpoint dict_set {V : Type} (k : label) (v : V) (d : list (label * V))
  : list (label * V) :=
  match d with
  | [] => [(k, v)]
  | (k', v') :: d' =>
      if label_eqb k k' then (k, v) :: d' else (k', v') :: dict_set k v d'
  end.

Fixpoint dict_get {V : Type} (k : label) (d : list (label * V)) : option V :=
  match d with
  | [] => None
  | (k', v) :: d' => if label_eqb k k' then Some v else dict_get k d'
  end.

Fixpoint str_get {V : Type} (k : string) (d : list (string * V)) : option V :=
  match d with
  | [] => None
  | (k', v) :: d' => if String.eqb k k' then Some v else str_get k d'
  end.

(** [result.loc[idx] = rows]: the rows labelled in the update take its cells. *)
Definition loc_assign (res : list row) (upd : list row) : list row :=
  map (fun r => match row_at (fst r) upd with
                | Some cells => (fst r, cells)
                | None => r
                end) res.

(* ================================================================== *)
(** * libs/__TimeFrameData.py *)

Module TimeFrameData.

(** [self.freq_map] and [self.tf_priority]. *)
Definition freq_map : list (string * string) :=
  [ ("day", "D"); ("week", "W-MON"); ("month", "M"); ("year", "Y") ]%string.

Definition tf_priority : list (string * Z) :=
  [ ("day", 1); ("week", 2); ("month", 3); ("year", 4) ]%string.

(** A timeframe label as the callers pass it: a string or [None]. *)
Definition tf : Type := option string.

Definition py_str (x : tf) : string :=
  match x with Some s => s | None => "None" end.

(** [self.freq_map.get(timeframe, "D")]. *)
Definition freq_of (timeframe : tf) : string :=
  match timeframe with
  | Some s => match str_get s freq_map with Some f => f | None => "D" end
  | None => "D"
  end.

(** [self.tf_priority[x]]. *)
Definition priority (x : tf) : result Z :=
  match x with
  | Some s => match str_get s tf_priority with
              | Some p => Ok p
              | None => Raise (KeyError s)
              end
  | None => Raise (KeyError "None")
  end.

Definition default_ohlc : list string := ["Open"; "High"; "Low"; "Close"]%string.

(** The aggregation chosen for one column name by the loop of [toTimeframe];
    [None] when the column gets no entry in [agg_dict]. *)
Definition agg_for (ohlc : list string) (col : string) : option aggfun :=
  let col_lower := lower col in
  if existsb (String.eqb col_lower) (map lower ohlc) then
    if contains "open" col_lower then Some First
    else if contains "high" col_lower then Some Max
    else if contains "low" col_lower then Some Min
    else if contains "close" col_lower then Some Last
    else None
  else if contains "volume" col_lower then Some Sum
  else Some Last.

(** The loop that builds [agg_dict]; [col.lower()] fails on a tuple label. *)
Fixpoint build_agg_dict (ohlc : list string) (cols : list label)
    (agg_dict : list (label * aggfun)) : result (list (label * aggfun)) :=
  match cols with
  | [] => Ok agg_dict
  | Flat col :: cols' =>
      build_agg_dict ohlc cols'
        (match agg_for ohlc col with
         | Some f => dict_set (Flat col) f agg_dict
         | None => agg_dict
         end)
  | Multi _ _ :: _ => Raise (AttributeError "'tuple' object has no attribute 'lower'")
  end.

Definition toTimeframe (cal : Calendar) (data : DataFrame) (timeframe : tf)
    (ohlc : option (list string)) : result DataFrame :=
  let ohlc := match ohlc with Some l => l | None => default_ohlc end in
  agg_dict <- build_agg_dict ohlc (columns data) [] ;;
  let freq := freq_of timeframe in
  out <- resample_agg cal freq LeftEdges agg_dict data ;;
  let out := dropna_all out in
  cols <- from_tuples (map (fun c => Multi "Price" (label_name c)) (columns out)) ;;
  Ok (mkDF cols (rows out)).

(** The new label of one column: [(Price, Open)] becomes
    [(Price, Open_suffix)], the suffix formatted by the f-string; a plain
    label [c] becomes [(c, suffix)].  (The label type has no missing level:
    under the suffix [None], which pandas stores as a missing second level of
    [(c, None)], the plain label is written [(c, "None")].) *)
Definition rename_label (suffix : tf) (col : label) : label :=
  match col with
  | Multi g f => Multi g (f ++ "_" ++ py_str suffix)
  | Flat c => Multi c (py_str suffix)
  end.

Definition _rename_cols (df : DataFrame) (suffix : tf) : result DataFrame :=
  let new_cols := map (rename_label suffix) (columns df) in
  cols <- from_tuples new_cols ;;
  Ok (mkDF cols (rows df)).

(** The dictionary [ohlc_cols]. *)
Record OhlcCols : Type := mkOhlc {
  oc_open : option string;
  oc_high : option string;
  oc_low : option string;
  oc_close : option string;
  oc_volume : option string
}.

Definition detect_step (oc : OhlcCols) (c : string) : OhlcCols :=
  let c_lower := lower c in
  if contains "open" c_lower then
    mkOhlc (Some c) (oc_high oc) (oc_low oc) (oc_close oc) (oc_volume oc)
  else if contains "high" c_lower then
    mkOhlc (oc_open oc) (Some c) (oc_low oc) (oc_close oc) (oc_volume oc)
  else if contains "low" c_lower then
    mkOhlc (oc_open oc) (oc_high oc) (Some c) (oc_close oc) (oc_volume oc)
  else if contains "close" c_lower then
    mkOhlc (oc_open oc) (oc_high oc) (oc_low oc) (Some c) (oc_volume oc)
  else if contains "volume" c_lower then
    mkOhlc (oc_open oc) (oc_high oc) (oc_low oc) (oc_close oc) (Some c)
  else oc.

Definition detect_ohlc (simple_cols : list string) : OhlcCols :=
  fold_left detect_step simple_cols (mkOhlc None None None None None).

(** [simple_cols]; on a plain index that holds a tuple, [c.lower()] fails. *)
Definition simple_cols (cols : list label) : result (list string) :=
  if is_multiindex cols then Ok (map label_name cols)
  else if existsb is_multi cols then
    Raise (AttributeError "'tuple' object has no attribute 'lower'")
  else Ok (map label_name cols).

(** [name in group_slice.columns] for an entry of [ohlc_cols]: never for
    [None]; a string is looked up among the labels of a plain index and among
    the first-level values of a two-level one. *)
Definition in_columns (name : option string) (cols : list label) : bool :=
  match name with
  | None => false
  | Some s =>
      if is_multiindex cols then existsb (fun c => String.eqb (TimeframeData.level0 c) s) cols
      else has_col (Flat s) cols
  end.

Definition key_of (name : option string) : label :=
  Flat (match name with Some s => s | None => "" end).

(** [s.iloc[0]] and [s.iloc[-1]]. *)
Definition iloc_first (l : list cell) : cell := hd None l.
Definition iloc_last (l : list cell) : cell := last l None.

(** The body of the inner loop: [row_dict] for one [part]. *)
Definition row_dict_of (cols : list label) (oc : OhlcCols) (part : list row)
  : list (label * cell) :=
  let d0 : list (label * cell) := [] in
  let d1 := if in_columns (oc_open oc) cols
            then dict_set (key_of (oc_open oc))
                   (iloc_first (column_of cols (key_of (oc_open oc)) part)) d0
            else d0 in
  let d2 := if in_columns (oc_high oc) cols
            then dict_set (key_of (oc_high oc))
                   (agg_max (column_of cols (key_of (oc_high oc)) part)) d1
            else d1 in
  let d3 := if in_columns (oc_low oc) cols
            then dict_set (key_of (oc_low oc))
                   (agg_min (column_of cols (key_of (oc_low oc)) part)) d2
            else d2 in
  let d4 := if in_columns (oc_close oc) cols
            then dict_set (key_of (oc_close oc))
                   (iloc_last (column_of cols (key_of (oc_close oc)) part)) d3
            else d3 in
  let d5 := if in_columns (oc_volume oc) cols
            then dict_set (key_of (oc_volume oc))
                   (agg_sum (column_of cols (key_of (oc_volume oc)) part)) d4
            else d4 in
  fold_left (fun d c =>
               match dict_get c d with
               | Some _ => d
               | None => dict_set c (iloc_last (column_of cols c part)) d
               end) cols d5.

(** One row of [pd.DataFrame(agg_rows, ..., columns=all_cols)]. *)
Definition cum_row (cols : list label) (oc : OhlcCols) (part : list row) : list cell :=
  let d := row_dict_of cols oc part in
  map (fun c => match dict_get c d with Some v => v | None => None end) cols.

(** [agg_rows] for one group: row [i] aggregates [group_slice.iloc[: i+1]]. *)
Definition agg_rows (cols : list label) (oc : OhlcCols) (group_slice : list row)
  : list (list cell) :=
  map (fun i => cum_row cols oc (firstn (S i) group_slice))
      (seq 0 (List.length group_slice)).

(** The body of the loop over the groups. *)
Definition group_step (cal : Calendar) (freq : string) (base_df : DataFrame)
    (oc : OhlcCols) (res : list row) (period_val : Z) : list row :=
  let group_slice :=
    filter (fun r => to_period cal freq (fst r) =? period_val) (rows base_df) in
  loc_assign res (combine (map fst group_slice)
                          (agg_rows (columns base_df) oc group_slice)).

Definition _to_higher_tf_accurate (cal : Calendar) (base_df : DataFrame)
    (higher_tf : tf) : result DataFrame :=
  let freq := freq_of higher_tf in
  p <- priority higher_tf ;;
  p_day <- priority (Some "day"%string) ;;
  if p <=? p_day then Ok base_df
  else
    let all_cols := columns base_df in
    sc <- simple_cols all_cols ;;
    let oc := detect_ohlc sc in
    let empty := map (fun r => (fst r, nan_row all_cols)) (rows base_df) in
    let periods := sort_uniq (map (to_period cal freq) (index base_df)) in
    Ok (mkDF all_cols (fold_left (group_step cal freq base_df oc) periods empty)).

Definition tf_eqb (a b : tf) : bool :=
  match a, b with
  | Some x, Some y => String.eqb x y
  | None, None => true
  | _, _ => false
  end.

(** [min(timeframes, key=lambda x: self.tf_priority[x])]: the first label of
    least priority; the key of every label is computed. *)
Fixpoint min_by_priority (best : string) (pbest : Z) (l : list string)
  : result string :=
  match l with
  | [] => Ok best
  | x :: l' =>
      p <- priority (Some x) ;;
      if p <? pbest then min_by_priority x p l' else min_by_priority best pbest l'
  end.

Definition min_tf_of (timeframes : list string) : result string :=
  match timeframes with
  | [] => Raise NoTimeframes
  | x :: l => p <- priority (Some x) ;; min_by_priority x p l
  end.

Definition entry : Type := (option DataFrame * tf)%type.

(** The labels that are not [None]. *)
Fixpoint labels_of (data : list entry) : list string :=
  match data with
  | [] => []
  | (_, Some s) :: data' => s :: labels_of data'
  | (_, None) :: data' => labels_of data'
  end.

(** The body of the loop of [mergeTimeframes]. *)
Definition merge_step (cal : Calendar) (fast : bool) (base_df : DataFrame)
    (min_tf : string) (res : DataFrame) (e : entry) : result DataFrame :=
  let '(df_higher, tf_higher) := e in
  if tf_eqb tf_higher (Some min_tf) then Ok res
  else
    df_higher <-
      match tf_higher with
      | None => rmap Some (toTimeframe cal base_df tf_higher None)
      | Some _ => Ok df_higher
      end ;;
    df_higher <-
      (if fast then
         match df_higher with
         | Some d => reindex_ffill d (index res)
         | None => Raise (AttributeError "'NoneType' object has no attribute 'reindex'")
         end
       else _to_higher_tf_accurate cal base_df tf_higher) ;;
    renamed <- _rename_cols df_higher tf_higher ;;
    join_outer res renamed.

Fixpoint merge_loop (cal : Calendar) (fast : bool) (base_df : DataFrame)
    (min_tf : string) (res : DataFrame) (data : list entry) : result DataFrame :=
  match data with
  | [] => Ok res
  | e :: data' =>
      res' <- merge_step cal fast base_df min_tf res e ;;
      merge_loop cal fast base_df min_tf res' data'
  end.

Definition mergeTimeframes (cal : Calendar) (data : list entry) (fast : bool)
  : result DataFrame :=
  min_tf <- min_tf_of (labels_of data) ;;
  match filter (fun e => tf_eqb (snd e) (Some min_tf)) data with
  | [] => Raise (ValueError ("No data for smallest timeframe: " ++ min_tf))
  | (None, _) :: _ => Raise MissingBaseSeries
  | (Some base_df, _) :: _ =>
      res <- _rename_cols base_df (Some min_tf) ;;
      merge_loop cal fast base_df min_tf res data
  end.

End TimeFrameData.

(* ================================================================== *)
(** * A calendar for timestamps in minutes since 1970-01-01 00:00

    An instance of [Calendar] on which the definitions run: the aliases
    [<n>min] and [<n>D] (bins of [n] minutes or days counted from the midnight
    before the first timestamp), [W] and [W-MON] (weeks ending on Sunday or on
    Monday), [M] (month end) and [Y] (year end).  With the default edges the
    calendar bins are closed and labelled on the right, with [LeftEdges] on
    the left, as [resample] has them.  An alias of zero minutes or days is
    refused with a ZeroDivisionError, any other alias outside this list with
    a ValueError. *)

Module UtcMinutes.

Definition day_of (t : Z) : Z := t / 1440.
Definition day_start (t : Z) : Z := 1440 * (t / 1440).

(** Year and month of a day number (days since 1970-01-01), and the day
    number of a date, in the proleptic Gregorian calendar. *)
Definition civil_from_days (z : Z) : Z * Z :=
  let z := z + 719468 in
  let era := z / 146097 in
  let doe := z - era * 146097 in
  let yoe := (doe - doe / 1460 + doe / 36524 - doe / 146096) / 365 in
  let doy := doe - (365 * yoe + yoe / 4 - yoe / 100) in
  let mp := (5 * doy + 2) / 153 in
  let m := if mp <? 10 then mp + 3 else mp - 9 in
  (if m <=? 2 then yoe + era * 400 + 1 else yoe + era * 400, m).

Definition days_from_civil (y m d : Z) : Z :=
  let y := if m <=? 2 then y - 1 else y in
  let era := y / 400 in
  let yoe := y - era * 400 in
  let doy := (153 * (if 2 <? m then m - 3 else m + 9) + 2) / 5 + d - 1 in
  let doe := yoe * 365 + yoe / 4 - yoe / 100 + doy in
  era * 146097 + doe - 719468.

Definition month_ordinal (d : Z) : Z :=
  let '(y, m) := civil_from_days d in 12 * y + (m - 1).

Definition year_of (d : Z) : Z := fst (civil_from_days d).

Definition first_day_of_month (mo : Z) : Z :=
  days_from_civil (mo / 12) (mo mod 12 + 1) 1.

Definition first_day_of_year (y : Z) : Z := days_from_civil y 1 1.

(** The multiplier and the unit of an alias: [15min] is [(15, min)], [D] is
    [(1, D)]. *)
Definition digit_of (c : ascii) : option Z :=
  let n := nat_of_ascii c in
  if (Nat.leb 48 n && Nat.leb n 57)%bool then Some (Z.of_nat (n - 48)) else None.

Fixpoint split_alias (acc : option Z) (s : string) : Z * string :=
  match s with
  | EmptyString => (match acc with Some n => n | None => 1 end, EmptyString)
  | String c s' =>
      match digit_of c with
      | Some d => split_alias (Some (10 * match acc with Some n => n | None => 0 end + d)) s'
      | None => (match acc with Some n => n | None => 1 end, s)
      end
  end.

Inductive unit_kind : Type := UMin | UDay | UWeek (anchor : Z) | UMonth | UYear.

Definition unit_of (u : string) : option unit_kind :=
  if String.eqb u "min" then Some UMin
  else if String.eqb u "D" then Some UDay
  else if String.eqb u "W" then Some (UWeek 3)
  else if String.eqb u "W-MON" then Some (UWeek 4)
  else if String.eqb u "M" then Some UMonth
  else if String.eqb u "Y" then Some UYear
  else None.

Definition valid (freq : string) : bool :=
  let '(n, u) := split_alias None freq in
  match unit_of u with
  | Some UMin | Some UDay => 0 <? n
  | Some _ => n =? 1
  | None => false
  end.

(** What [resample] raises for the other aliases: the bins of zero minutes or
    days are computed with a division by zero. *)
Definition error (freq : string) : exn :=
  let '(n, u) := split_alias None freq in
  match unit_of u with
  | Some UMin | Some UDay => ZeroDivisionError
  | _ => ValueError ("Invalid frequency: " ++ freq)
  end.

Definition bin (freq : string) (e : edges) (origin t : Z) : Z :=
  let '(n, u) := split_alias None freq in
  let d := day_of t in
  match unit_of u, e with
  | Some UMin, _ => (t - day_start origin) / n
  | Some UDay, _ => (t - day_start origin) / (n * 1440)
  | Some (UWeek a), LeftEdges => (d - a) / 7
  | Some (UWeek a), DefaultEdges => (d - a + 6) / 7
  | Some UMonth, LeftEdges => month_ordinal (d + 1)
  | Some UMonth, DefaultEdges => month_ordinal d
  | Some UYear, LeftEdges => year_of (d + 1)
  | Some UYear, DefaultEdges => year_of d
  | None, _ => t
  end.

Definition blabel (freq : string) (e : edges) (origin b : Z) : Z :=
  let '(n, u) := split_alias None freq in
  match unit_of u, e with
  | Some UMin, _ => day_start origin + n * b
  | Some UDay, _ => day_start origin + n * 1440 * b
  | Some (UWeek a), _ => 1440 * (a + 7 * b)
  | Some UMonth, LeftEdges => 1440 * (first_day_of_month b - 1)
  | Some UMonth, DefaultEdges => 1440 * (first_day_of_month (b + 1) - 1)
  | Some UYear, LeftEdges => 1440 * (first_day_of_year b - 1)
  | Some UYear, DefaultEdges => 1440 * (first_day_of_year (b + 1) - 1)
  | None, _ => b
  end.

(** [to_period]: the day, the week ending on the anchor day, the month, the
    year. *)
Definition period (freq : string) (t : Z) : Z :=
  let '(n, u) := split_alias None freq in
  let d := day_of t in
  match unit_of u with
  | Some UMin => t / n
  | Some UDay => d
  | Some (UWeek a) => (d - a + 6) / 7
  | Some UMonth => month_ordinal d
  | Some UYear => year_of d
  | None => t
  end.

Definition calendar : Calendar := mkCalendar valid error bin blabel period.

End UtcMinutes.

(* ================================================================== *)
(** * Predicates of the statements, and sample frames *)

(** The earliest timestamp of a frame, from which [resample] counts its bins. *)
Definition origin_of (df : DataFrame) : Z :=
  match index df with
  | [] => 0
  | t0 :: ts => list_min t0 ts
  end.

(** The rows of [df] that fall in bin [b] of a resampling, in the order of
    their timestamps. *)
Definition period_rows (cal : Calendar) (freq : string) (e : edges)
    (df : DataFrame) (b : Z) : list row :=
  bin_rows cal freq e (origin_of df) b (by_time (rows df)).

Definition period_label (cal : Calendar) (freq : string) (e : edges)
    (df : DataFrame) (b : Z) : Z :=
  bin_label cal freq e (origin_of df) b.

(** The frame has the five columns [convert] aggregates. *)
Definition has_ohlcv (df : DataFrame) : bool :=
  forallb (fun cf => has_col (fst cf) (columns df)) TimeframeData.ohlcv_agg.

Definition sum_values (l : list Z) : Z := fold_left Z.add l 0.

(** The numbers of a column, the NaN cells left out. *)
Fixpoint values (l : list cell) : list Z :=
  match l with
  | [] => []
  | Some v :: l' => v :: values l'
  | None :: l' => values l'
  end.

(** Numbers that an [int64] and a [float64] column hold and add without
    wrap-around or rounding: the absolute values add up to less than
    [2 ^ 53]. *)
Definition exact (l : list Z) : Prop := sum_values (map Z.abs l) < 2 ^ 53.

(** The aggregation rule of a period, in the words of the specification: the
    value of column [c] in the bar of a period whose rows hold [v1], then
    [vs], in timestamp order.  Open, High, Low and Close are recognised
    whatever their capitalisation. *)
Definition period_rule (c : string) (v1 : Z) (vs : list Z) : Z :=
  let name := lower c in
  if String.eqb name "open" then v1
  else if String.eqb name "high" then list_max v1 vs
  else if String.eqb name "low" then list_min v1 vs
  else if String.eqb name "close" then last vs v1
  else if contains "volume" name then sum_values (v1 :: vs)
  else last vs v1.

(** Per-symbol isolation of failures, as the specification words it:
    [convertMany] returns a map that holds every symbol whose conversion
    succeeds. *)
Definition isolates_failures (cal : Calendar) (data : DataFrame)
    (conversion : Z * TimeframeData.target) : Prop :=
  exists m,
    TimeframeData.convertMany cal data conversion = Ok m /\
    forall s out,
      In s (TimeframeData.symbols data) ->
      TimeframeData.convert cal (TimeframeData.getitem data s) conversion = Ok out ->
      In (s, out) m.

(** Row [r] is the first row of its period. *)
Definition first_of_period (cal : Calendar) (freq : string) (df : DataFrame)
    (r : row) : Prop :=
  In r (rows df) /\
  forall r', In r' (rows df) ->
             to_period cal freq (fst r') = to_period cal freq (fst r) ->
             fst r <= fst r'.

(** The rows labelled at or before [t]. *)
Definition rows_upto (t : Z) (rs : list row) : list row :=
  filter (fun r => fst r <=? t) rs.

(** The rows of the period of [t] that are labelled at or before [t]. *)
Definition seen_so_far (cal : Calendar) (freq : string) (rs : list row) (t : Z)
  : list row :=
  rows_upto t (filter (fun r => to_period cal freq (fst r) =? to_period cal freq t) rs).

(** The accurate re-aggregation in closed form, as the specification
    describes it: the row at [t] aggregates the rows of the period of [t]
    seen up to [t].  It is compared with the loops of
    [_to_higher_tf_accurate] below. *)
Definition partial_row (cal : Calendar) (freq : string) (base_df : DataFrame)
    (oc : TimeFrameData.OhlcCols) (t : Z) : list cell :=
  TimeFrameData.cum_row (columns base_df) oc (seen_so_far cal freq (rows base_df) t).

Definition partial_bars (cal : Calendar) (base_df : DataFrame)
    (higher_tf : TimeFrameData.tf) : result DataFrame :=
  p <- TimeFrameData.priority higher_tf ;;
  p_day <- TimeFrameData.priority (Some "day"%string) ;;
  if p <=? p_day then Ok base_df
  else
    sc <- TimeFrameData.simple_cols (columns base_df) ;;
    Ok (mkDF (columns base_df)
          (map (fun r =>
                  (fst r,
                   partial_row cal (TimeFrameData.freq_of higher_tf) base_df
                     (TimeFrameData.detect_ohlc sc) (fst r)))
               (rows base_df))).

(** Invariants of the dictionaries the loops build.  [agrees]: every entry
    under a column label holds the cell of the row under that column.
    [dict_for]: every key is a plain label, under the function chosen for its
    name. *)
Definition agrees (cols : list label) (cells : list cell)
    (d : list (label * cell)) : Prop :=
  forall k v, dict_get k d = Some v -> In k cols -> v = cell_at cols k cells.

Definition dict_for (ohlc : list string) (d : list (label * aggfun)) : Prop :=
  Forall (fun kf => exists c, fst kf = Flat c /\
                              TimeFrameData.agg_for ohlc c = Some (snd kf)) d.

(** No label occurs twice among the columns. *)
Fixpoint distinct (cols : list label) : bool :=
  match cols with
  | [] => true
  | c :: cols' => negb (has_col c cols') && distinct cols'
  end.

(** Every cell of the row is a number. *)
Definition numeric (cells : list cell) : bool := forallb notna cells.

(** A cell of an [int64] column: a number on 64 bits. *)
Definition is_int64 (c : cell) : bool :=
  match c with
  | Some v => (- 2 ^ 63 <=? v) && (v <? 2 ^ 63)
  | None => true
  end.

Module Samples.

Definition ohlcv : list label :=
  [Flat "Open"; Flat "High"; Flat "Low"; Flat "Close"; Flat "Volume"].

(** Five one-minute bars. *)
Definition base5 : DataFrame :=
  mkDF ohlcv
    [ (0, [Some 10; Some 11; Some 10; Some 10; Some 100]);
      (1, [Some 11; Some 12; Some 11; Some 11; Some 100]);
      (2, [Some 12; Some 13; Some 12; Some 12; Some 100]);
      (3, [Some 13; Some 14; Some 13; Some 13; Some 100]);
      (4, [Some 14; Some 15; Some 14; Some 14; Some 100]) ].

(** Daily bars of Friday 1970-01-02, Monday 01-05, Tuesday 01-06 and
    Monday 01-12. *)
Definition daily : DataFrame :=
  mkDF ohlcv
    [ (1440, [Some 10; Some 11; Some 9; Some 10; Some 100]);
      (5760, [Some 11; Some 12; Some 10; Some 11; Some 200]);
      (7200, [Some 12; Some 15; Some 11; Some 14; Some 300]);
      (15840, [Some 13; Some 14; Some 8; Some 9; Some 400]) ].

(** The same days with other values after Monday 01-05. *)
Definition daily' : DataFrame :=
  mkDF ohlcv
    [ (1440, [Some 10; Some 11; Some 9; Some 10; Some 100]);
      (5760, [Some 11; Some 12; Some 10; Some 11; Some 200]);
      (7200, [Some 99; Some 99; Some 1; Some 50; Some 999]) ].

(** A Friday and the following Monday. *)
Definition fri_mon : DataFrame :=
  mkDF ohlcv
    [ (1440, [Some 10; Some 11; Some 9; Some 10; Some 100]);
      (5760, [Some 11; Some 12; Some 10; Some 11; Some 200]) ].

(** Two symbols; the columns of [BBB] lack [Volume]. *)
Definition two_symbols : DataFrame :=
  mkDF [ Multi "AAA" "Open"; Multi "AAA" "High"; Multi "AAA" "Low";
         Multi "AAA" "Close"; Multi "AAA" "Volume";
         Multi "BBB" "Open"; Multi "BBB" "High"; Multi "BBB" "Low";
         Multi "BBB" "Close" ]
    [ (0, [Some 10; Some 11; Some 10; Some 10; Some 100;
           Some 20; Some 21; Some 20; Some 20]);
      (1, [Some 11; Some 12; Some 11; Some 11; Some 100;
           Some 21; Some 22; Some 21; Some 21]) ].

(** [toTimeframe(daily, "week")] and [convert(base5, (1, 5))]. *)
Definition daily_by_week : DataFrame :=
  Eval vm_compute in
    match TimeFrameData.toTimeframe UtcMinutes.calendar daily (Some "week"%string) None with
    | Ok out => out
    | Raise _ => mkDF [] []
    end.

Definition base5_by_5 : DataFrame :=
  Eval vm_compute in
    match TimeframeData.convert UtcMinutes.calendar base5 (1, TimeframeData.TInt 5) with
    | Ok out => out
    | Raise _ => mkDF [] []
    end.

End Samples.

(* ================================================================== *)
(** * libs/StockData.py *)

(** [d[k] = v] on a dictionary with string keys. *)
Fixpoint str_set {V : Type} (k : string) (v : V) (d : list (string * V))
  : list (string * V) :=
  match d with
  | [] => [(k, v)]
  | (k', v') :: d' =>
      if String.eqb k k' then (k, v) :: d' else (k', v') :: str_set k v d'
  end.

Module StockData.

(** [sorted(symbols)]: the strings in increasing order, compared character by
    character ([String.leb]). *)
Fixpoint insert_sorted (x : string) (l : list string) : list string :=
  match l with
  | [] => [x]
  | y :: l' => if String.leb x y then x :: y :: l' else y :: insert_sorted x l'
  end.

Definition sorted (l : list string) : list string := fold_right insert_sorted [] l.

(** The cache directory as a map from file paths to the pickled tables, and
    the number of downloads made so far. *)
Record World : Type := mkWorld {
  files : list (string * DataFrame);
  fetched : nat
}.

Section Cache.

(** [hashlib.sha256(s.encode()).hexdigest()], [yf.download(...)] and
    [self.cache_dir].  What the provider returns may change from one download
    to the next: the download takes the number of earlier downloads. *)
Variable sha256_hex : string -> string.
Variable yf_download : nat -> list string -> string -> string -> DataFrame.
Variable cache_dir : string.

Definition _get_cache_file (symbols : list string) (interval period : string)
  : string :=
  let symbols_str := String.concat "," (sorted symbols) in
  let hash_input := (symbols_str ++ "|" ++ interval ++ "|" ++ period)%string in
  let hash_digest := sha256_hex hash_input in
  (cache_dir ++ "/" ++ "stockdata_" ++ hash_digest ++ ".pkl")%string.

Definition refresh_data (w : World) (symbols : list string)
    (interval period : string) : DataFrame * World :=
  let data := yf_download (fetched w) symbols interval period in
  let cache_file := _get_cache_file symbols interval period in
  (data, mkWorld (str_set cache_file data (files w)) (S (fetched w))).

Definition get_data (w : World) (symbols : list string)
    (interval period : string) : DataFrame * World :=
  let cache_file := _get_cache_file symbols interval period in
  match str_get cache_file (files w) with
  | Some data => (data, w)
  | None => refresh_data w symbols interval period
  end.

End Cache.

(** [symbol not in data.columns.get_level_values(0)] raises; otherwise
    [data[symbol]]. *)
Definition symbolData (data : DataFrame) (symbol : string) : result pdobj :=
  if negb (existsb (String.eqb symbol) (map TimeframeData.level0 (columns data)))
  then Raise (ValueError ("Symbol " ++ symbol ++ " not found in the provided data."))
  else Ok (TimeframeData.getitem data symbol).

End StockData.

(* ================================================================== *)
(** * More predicates and sample frames *)

(** The ordinals of the bins [resample] goes through: from the bin of the
    earliest timestamp to the bin of the latest one. *)
Definition bin_range (cal : Calendar) (freq : string) (e : edges) (df : DataFrame)
  : list Z :=
  match index df with
  | [] => []
  | t0 :: ts =>
      let origin := list_min t0 ts in
      let ords := map (bin_of cal freq e origin) (t0 :: ts) in
      zrange (list_min (bin_of cal freq e origin t0) ords)
             (list_max (bin_of cal freq e origin t0) ords)
  end.

(** Row [r] is the last row of its period. *)
Definition last_of_period (cal : Calendar) (freq : string) (df : DataFrame)
    (r : row) : Prop :=
  In r (rows df) /\
  forall r', In r' (rows df) ->
             to_period cal freq (fst r') = to_period cal freq (fst r) ->
             fst r' <= fst r.

(** The rows of the period of [t]. *)
Definition whole_period (cal : Calendar) (freq : string) (rs : list row) (t : Z)
  : list row :=
  filter (fun r => to_period cal freq (fst r) =? to_period cal freq t) rs.

(** None of the labels is a tuple. *)
Definition plain (cols : list label) : bool := negb (existsb is_multi cols).

(** Every row has one cell per column. *)
Definition aligned (df : DataFrame) : bool :=
  forallb (fun r => Nat.eqb (List.length (snd r)) (List.length (columns df))) (rows df).

(** What the loop of [mergeTimeframes] keeps of the base series: its index,
    its renamed columns in front, and its cells at the head of every row. *)
Definition keeps_base (base_df : DataFrame) (cols0 : list label) (res : DataFrame)
  : Prop :=
  index res = index base_df /\
  (exists more, columns res = (cols0 ++ more)%list) /\
  forall t cells, In (t, cells) (rows base_df) ->
                  exists others, row_at t (rows res) = Some (cells ++ others)%list.

(** Every role of [ohlc_cols] is held by a name that contains the word of
    the role. *)
Definition roles_named (oc : TimeFrameData.OhlcCols) : Prop :=
  (forall s, TimeFrameData.oc_open oc = Some s -> contains "open" (lower s) = true) /\
  (forall s, TimeFrameData.oc_high oc = Some s -> contains "high" (lower s) = true) /\
  (forall s, TimeFrameData.oc_low oc = Some s -> contains "low" (lower s) = true) /\
  (forall s, TimeFrameData.oc_close oc = Some s -> contains "close" (lower s) = true) /\
  (forall s, TimeFrameData.oc_volume oc = Some s -> contains "volume" (lower s) = true).

Module MoreSamples.

(** Daily bars under short column names. *)
Definition short_names : DataFrame :=
  mkDF [Flat "O"; Flat "H"; Flat "L"; Flat "C"; Flat "Volume"]
    [ (1440, [Some 10; Some 11; Some 9; Some 10; Some 100]);
      (2880, [Some 11; Some 12; Some 10; Some 11; Some 200]) ].

Definition short_names_by_day : DataFrame :=
  Eval vm_compute in
    match TimeFrameData.toTimeframe UtcMinutes.calendar short_names (Some "day"%string)
            (Some ["O"; "H"; "L"; "C"]%string) with
    | Ok out => out
    | Raise _ => mkDF [] []
    end.

(** Prices without a volume. *)
Definition prices_only : DataFrame :=
  mkDF [Flat "Open"; Flat "High"; Flat "Low"; Flat "Close"]
    [ (1440, [Some 10; Some 11; Some 9; Some 10]);
      (5760, [Some 11; Some 12; Some 10; Some 11]) ].

Definition fri_mon_by_day : DataFrame :=
  Eval vm_compute in
    match TimeFrameData.toTimeframe UtcMinutes.calendar Samples.fri_mon (Some "day"%string) None with
    | Ok out => out
    | Raise _ => mkDF [] []
    end.

Definition prices_only_by_day : DataFrame :=
  Eval vm_compute in
    match TimeFrameData.toTimeframe UtcMinutes.calendar prices_only (Some "day"%string) None with
    | Ok out => out
    | Raise _ => mkDF [] []
    end.

Definition daily_accurate_week : DataFrame :=
  Eval vm_compute in
    match TimeFrameData._to_higher_tf_accurate UtcMinutes.calendar Samples.daily
            (Some "week"%string) with
    | Ok out => out
    | Raise _ => mkDF [] []
    end.

Definition daily_merged_fast : DataFrame :=
  Eval vm_compute in
    match TimeFrameData.mergeTimeframes UtcMinutes.calendar
            [(Some Samples.daily, Some "day"%string);
             (Some Samples.daily_by_week, Some "week"%string)] true with
    | Ok out => out
    | Raise _ => mkDF [] []
    end.

(** Daily bars with a column that has no role. *)
Definition with_factor : DataFrame :=
  mkDF [Flat "Open"; Flat "High"; Flat "Low"; Flat "Close"; Flat "Volume"; Flat "Beta"]
    [ (5760, [Some 11; Some 12; Some 10; Some 11; Some 200; Some 7]);
      (7200, [Some 12; Some 15; Some 11; Some 14; Some 300; Some 5]);
      (15840, [Some 13; Some 14; Some 8; Some 9; Some 400; Some 6]) ].

(** Three daily bars of one week (Monday 1970-01-05 to Wednesday), given
    out of order, with two NaN cells and a column that has no role. *)
Definition unsorted_week : DataFrame :=
  mkDF [Flat "Open"; Flat "High"; Flat "Low"; Flat "Close"; Flat "Volume"; Flat "Beta"]
    [ (8640, [Some 14; Some 16; Some 12; Some 15; Some 300; Some 3]);
      (5760, [None; Some 12; Some 10; Some 11; Some 200; Some 1]);
      (7200, [Some 12; Some 15; Some 11; None; Some 100; Some 2]) ].

Definition unsorted_week_by_week : DataFrame :=
  Eval vm_compute in
    match TimeFrameData.toTimeframe UtcMinutes.calendar unsorted_week (Some "week"%string)
            None with
    | Ok out => out
    | Raise _ => mkDF [] []
    end.

(** The five one-minute bars of [base5], out of order. *)
Definition base5_unsorted : DataFrame :=
  mkDF Samples.ohlcv
    [ (3, [Some 13; Some 14; Some 13; Some 13; Some 100]);
      (0, [Some 10; Some 11; Some 10; Some 10; Some 100]);
      (4, [Some 14; Some 15; Some 14; Some 14; Some 100]);
      (1, [Some 11; Some 12; Some 11; Some 11; Some 100]);
      (2, [Some 12; Some 13; Some 12; Some 12; Some 100]) ].

Definition base5_unsorted_by_5 : DataFrame :=
  Eval vm_compute in
    match TimeframeData.convert UtcMinutes.calendar base5_unsorted (1, TimeframeData.TInt 5)
    with
    | Ok out => out
    | Raise _ => mkDF [] []
    end.

(** A table with one-level columns: the closes of two symbols. *)
Definition closes : DataFrame :=
  mkDF [Flat "AAA"; Flat "BBB"]
    [ (0, [Some 10; Some 20]);
      (1, [Some 11; None]);
      (7, [Some 12; Some 22]) ].

(** A stand-in digest and a provider that always answers [base5]. *)
Definition toy_digest (s : string) : string := s.
Definition toy_download (n : nat) (symbols : list string) (interval period : string)
  : DataFrame := Samples.base5.

End MoreSamples.

(* ================================================================== *)
(** * Theorems *)

Import TimeframeData TimeFrameData.

(* ------------------------------------------------------------------ *)
(** ** Basic facts *)

Lemma label_eqb_eq (a b : label) : label_eqb a b = true <-> a = b.
Proof.
  destruct a as [x | g f], b as [y | g' f']; simpl; try (split; discriminate).
  - rewrite String.eqb_eq. split; congruence.
  - rewrite andb_true_iff, !String.eqb_eq. split; [intros [-> ->] | intros [= -> ->]]; auto.
Qed.

Lemma label_eqb_refl (a : label) : label_eqb a a = true.
Proof. now apply label_eqb_eq. Qed.

Lemma label_eqb_neq (a b : label) : label_eqb a b = false <-> a <> b.
Proof.
  rewrite <- label_eqb_eq. destruct (label_eqb a b); split; congruence.
Qed.

Lemma has_col_In (c : label) (cols : list label) :
  has_col c cols = true <-> In c cols.
Proof.
  unfold has_col. induction cols as [| c' cols IH]; simpl.
  - split; [discriminate | tauto].
  - destruct (label_eqb c c') eqn:E.
    + apply label_eqb_eq in E. subst. tauto.
    + apply label_eqb_neq in E.
      destruct (col_pos c cols); simpl in *; split; intros H.
      * right. now apply IH.
      * reflexivity.
      * discriminate.
      * destruct H as [H | H]; [congruence | now apply IH in H].
Qed.

Lemma missing_key_ohlcv (df : DataFrame) :
  has_ohlcv df = true -> missing_key (columns df) ohlcv_agg = None.
Proof.
  unfold has_ohlcv. simpl. rewrite !andb_true_iff.
  intros (-> & -> & -> & -> & -> & _). reflexivity.
Qed.

Lemma resample_agg_ok (cal : Calendar) (freq : string) (e : edges)
    (agg_dict : list (label * aggfun)) (df : DataFrame) :
  valid_freq cal freq = true ->
  missing_key (columns df) agg_dict = None ->
  agg_dict <> [] ->
  succeeds (resample_agg cal freq e agg_dict df).
Proof.
  intros Hv Hm Hne. unfold resample_agg, succeeds. rewrite Hv, Hm. simpl.
  destruct agg_dict; [contradiction |].
  destruct (index df); eauto.
Qed.

(** On an alias [resample] accepts, the only exceptions of
    [resample(...).agg(...)] are the KeyError of a missing column and the
    ValueError of an empty dictionary. *)
Lemma resample_agg_no_zero_division (cal : Calendar) (freq : string) (e : edges)
    (agg_dict : list (label * aggfun)) (df : DataFrame) :
  valid_freq cal freq = true ->
  resample_agg cal freq e agg_dict df <> Raise ZeroDivisionError.
Proof.
  intros Hv. unfold resample_agg. rewrite Hv. cbn [negb].
  destruct (missing_key (columns df) agg_dict); [discriminate |].
  destruct agg_dict; [discriminate |].
  destruct (index df); discriminate.
Qed.

(* ------------------------------------------------------------------ *)
(** ** Validation in [convert] *)

(** C3. For positive integer timeframes, on a frame with the five OHLCV
    columns and a minute alias pandas accepts, [convert] to an intraday
    target succeeds exactly when [to_tf % from_tf == 0] and
    [to_tf // from_tf >= 1]; in every other case it raises
    InvalidConversion. *)
Theorem convert_intraday_multiple_of (cal : Calendar) (data : DataFrame)
    (from_tf to_tf : Z) :
  0 < from_tf -> 0 < to_tf ->
  has_ohlcv data = true ->
  valid_freq cal (py_str_int to_tf ++ "min") = true ->
  (succeeds (convert cal data (from_tf, TInt to_tf)) <->
   (to_tf mod from_tf = 0 /\ to_tf / from_tf >= 1)) /\
  (~ (to_tf mod from_tf = 0 /\ to_tf / from_tf >= 1) ->
   convert cal data (from_tf, TInt to_tf) = Raise InvalidConversion).
Proof.
  intros Hf Ht Hcols Hv.
  unfold succeeds, convert, py_floordiv.
  replace (from_tf =? 0) with false by (symmetry; apply Z.eqb_neq; lia).
  cbn [bind].
  destruct (resample_agg_ok cal _ DefaultEdges ohlcv_agg data Hv
              (missing_key_ohlcv data Hcols) ltac:(discriminate)) as [out Hout].
  cbn [resample_agg_obj].
  destruct (to_tf / from_tf <? 1) eqn:E1; simpl.
  - apply Z.ltb_lt in E1. split.
    + split; [intros [a Ha]; discriminate | intros [_ H]; lia].
    + reflexivity.
  - apply Z.ltb_ge in E1.
    destruct (to_tf mod from_tf =? 0) eqn:E2; simpl.
    + apply Z.eqb_eq in E2. rewrite Hout. simpl. split.
      * split; [intros _; split; lia | intros _; eexists; reflexivity].
      * intros H. exfalso. apply H. split; lia.
    + apply Z.eqb_neq in E2. split.
      * split; [intros [a Ha]; discriminate | intros [H _]; contradiction].
      * reflexivity.
Qed.

Lemma convert_intraday_multiple_of_witness :
  succeeds (convert UtcMinutes.calendar Samples.base5 (1, TInt 15)) <->
  (15 mod 1 = 0 /\ 15 / 1 >= 1).
Proof.
  apply (convert_intraday_multiple_of UtcMinutes.calendar Samples.base5 1 15);
    [lia | lia | reflexivity | reflexivity].
Defined.

(** C10. With [from_tf = 0] and an integer target, [convert] raises
    ZeroDivisionError: the division [to_tf // from_tf] comes before the
    multiple-of check. *)
Theorem convert_zero_source_raises (cal : Calendar) (data : DataFrame) (to_tf : Z) :
  convert cal data (0, TInt to_tf) = Raise ZeroDivisionError.
Proof. reflexivity. Qed.

Lemma convert_nonzero_source_divides (cal : Calendar) (data : DataFrame)
    (from_tf to_tf : Z) :
  from_tf <> 0 ->
  valid_freq cal (py_str_int to_tf ++ "min") = true ->
  convert cal data (from_tf, TInt to_tf) <> Raise ZeroDivisionError.
Proof.
  intros Hf Hv. unfold convert, py_floordiv.
  apply Z.eqb_neq in Hf. rewrite Hf. cbn [bind resample_agg_obj].
  destruct ((to_tf / from_tf <? 1) || negb (to_tf mod from_tf =? 0));
    [discriminate |].
  pose proof (resample_agg_no_zero_division cal (py_str_int to_tf ++ "min")
                DefaultEdges ohlcv_agg data Hv) as H.
  destruct (resample_agg cal _ DefaultEdges ohlcv_agg data); simpl;
    [discriminate | congruence].
Qed.

(** C8, as the two classes have it. [convert] raises UnsupportedTimeframe for
    every string target that ends in none of [d], [w], [m]; [toTimeframe]
    rejects nothing: a label that is not a key of [freq_map] is aggregated as
    ["day"]. *)
Theorem unsupported_timeframe_handling (cal : Calendar) (data : DataFrame)
    (from_tf : Z) (s : string) (ohlc : option (list string)) :
  (endswith s "d" = false -> endswith s "w" = false -> endswith s "m" = false ->
   convert cal data (from_tf, TStr s) = Raise UnsupportedTimeframe) /\
  (str_get s freq_map = None ->
   toTimeframe cal data (Some s) ohlc = toTimeframe cal data (Some "day"%string) ohlc).
Proof.
  split.
  - intros Hd Hw Hm. unfold convert. now rewrite Hd, Hw, Hm.
  - intros Hs. unfold toTimeframe, freq_of. now rewrite Hs.
Qed.

Lemma unsupported_timeframe_handling_witness :
  convert UtcMinutes.calendar Samples.base5 (1, TStr "1h") = Raise UnsupportedTimeframe /\
  toTimeframe UtcMinutes.calendar Samples.daily (Some "fortnight"%string) None =
  toTimeframe UtcMinutes.calendar Samples.daily (Some "day"%string) None.
Proof.
  split.
  - apply (proj1 (unsupported_timeframe_handling UtcMinutes.calendar Samples.base5
                    1 "1h" None)); reflexivity.
  - apply (proj2 (unsupported_timeframe_handling UtcMinutes.calendar Samples.daily
                    1 "fortnight" None)); reflexivity.
Defined.

(** C8, counterexample to rejection: [toTimeframe] with the unknown label
    ["fortnight"] does not raise UnsupportedTimeframe; it returns a frame, the
    daily aggregation. *)
Lemma toTimeframe_unknown_label_defaults_to_day :
  toTimeframe UtcMinutes.calendar Samples.fri_mon (Some "fortnight"%string) None
  <> Raise UnsupportedTimeframe /\
  exists out,
    toTimeframe UtcMinutes.calendar Samples.fri_mon (Some "fortnight"%string) None = Ok out /\
    toTimeframe UtcMinutes.calendar Samples.fri_mon (Some "day"%string) None = Ok out.
Proof.
  split; [vm_compute; discriminate |].
  eexists. split; vm_compute; reflexivity.
Qed.

(* ------------------------------------------------------------------ *)
(** ** [convertMany] *)

Lemma dict_comp_spec (f : string -> result DataFrame) (syms : list string) :
  match dict_comp f syms with
  | Ok m =>
      map fst m = syms /\ forall s out, In (s, out) m -> f s = Ok out
  | Raise e =>
      exists pre s post,
        syms = pre ++ s :: post /\ f s = Raise e /\
        forall s', In s' pre -> succeeds (f s')
  end.
Proof.
  induction syms as [| s syms IH]; simpl.
  - split; [reflexivity | intros ? ? []].
  - destruct (f s) as [v | e] eqn:Hs; simpl.
    + destruct (dict_comp f syms) as [m | e]; simpl.
      * destruct IH as [IH1 IH2]. split; [now rewrite IH1 |].
        intros s' out [[= <- <-] | Hin]; auto.
      * destruct IH as (pre & s' & post & -> & Hs' & Hpre).
        exists (s :: pre), s', post. repeat split; auto.
        intros x [<- | Hx]; [now exists v | auto].
    + exists [], s, syms. repeat split; auto. intros ? [].
Qed.

(** C5, as the comprehension has it. [convertMany] is fail-fast: when it
    returns, it returns the map of every symbol, in column order, to its
    converted series; when [convert] fails for some symbol it raises the error
    of the first such symbol and returns no map. *)
Theorem convertMany_fail_fast (cal : Calendar) (data : DataFrame)
    (conversion : Z * target) :
  match convertMany cal data conversion with
  | Ok m =>
      map fst m = symbols data /\
      forall s out, In (s, out) m ->
                    convert cal (getitem data s) conversion = Ok out
  | Raise e =>
      exists pre s post,
        symbols data = pre ++ s :: post /\
        convert cal (getitem data s) conversion = Raise e /\
        forall s', In s' pre ->
                   succeeds (convert cal (getitem data s') conversion)
  end.
Proof.
  unfold convertMany.
  apply (dict_comp_spec (fun symbol => convert cal (getitem data symbol) conversion)).
Qed.

(** C5, counterexample to isolation: in a table where [AAA] converts and
    [BBB] does not, [convertMany] raises the error of [BBB] and returns no map
    at all; so it does when the conversion is refused for every symbol. *)
Lemma convertMany_does_not_isolate :
  succeeds (convert UtcMinutes.calendar (getitem Samples.two_symbols "AAA") (1, TInt 5)) /\
  convert UtcMinutes.calendar (getitem Samples.two_symbols "BBB") (1, TInt 5)
  = Raise (KeyError "Volume") /\
  convertMany UtcMinutes.calendar Samples.two_symbols (1, TInt 5)
  = Raise (KeyError "Volume") /\
  ~ isolates_failures UtcMinutes.calendar Samples.two_symbols (1, TInt 5) /\
  convertMany UtcMinutes.calendar Samples.two_symbols (5, TInt 12)
  = Raise InvalidConversion.
Proof.
  repeat split.
  - eexists. vm_compute. reflexivity.
  - intros (m & Hm & _). vm_compute in Hm. discriminate.
Qed.

(* ------------------------------------------------------------------ *)
(** ** Absent and supplied series in [mergeTimeframes] *)

Lemma rename_cols_ok (df : DataFrame) (suffix : tf) :
  columns df <> [] ->
  _rename_cols df suffix = Ok (mkDF (map (rename_label suffix) (columns df)) (rows df)).
Proof.
  intros Hne. unfold _rename_cols.
  destruct (columns df) as [| c cols]; [contradiction | reflexivity].
Qed.

Lemma rename_cols_inv (df out : DataFrame) (suffix : tf) :
  _rename_cols df suffix = Ok out ->
  columns df <> [] /\
  out = mkDF (map (rename_label suffix) (columns df)) (rows df).
Proof.
  unfold _rename_cols.
  destruct (columns df) as [| c cols]; [discriminate |].
  intros [= <-]. split; [discriminate | reflexivity].
Qed.

(** C4. The docstring's own example, a base series with an absent weekly
    series, in fast mode, never succeeds: the loop derives a series only for
    an entry whose label is [None], so the absent series reaches [reindex]
    and the merge of a base series that has columns raises AttributeError. *)
Theorem merge_absent_series_fast_raises (cal : Calendar) (base_df : DataFrame) :
  ~ succeeds (mergeTimeframes cal
                [(Some base_df, Some "day"); (None, Some "week")]%string true) /\
  (columns base_df <> [] ->
   mergeTimeframes cal [(Some base_df, Some "day"); (None, Some "week")]%string true
   = Raise (AttributeError "'NoneType' object has no attribute 'reindex'")).
Proof.
  assert (H : forall res,
             merge_loop cal true base_df "day" res
               [(Some base_df, Some "day"); (None, Some "week")]%string
             = Raise (AttributeError "'NoneType' object has no attribute 'reindex'"))
    by reflexivity.
  change (mergeTimeframes cal
            [(Some base_df, Some "day"); (None, Some "week")]%string true)
    with (res <- _rename_cols base_df (Some "day"%string) ;;
          merge_loop cal true base_df "day" res
            [(Some base_df, Some "day"); (None, Some "week")]%string).
  split.
  - intros [out Hout].
    destruct (_rename_cols base_df (Some "day"%string)) as [res |];
      cbn [bind] in Hout; [rewrite H in Hout |]; discriminate.
  - intros Hne. rewrite (rename_cols_ok _ _ Hne). cbn [bind]. apply H.
Qed.

Lemma merge_absent_series_fast_raises_witness :
  mergeTimeframes UtcMinutes.calendar
    [(Some Samples.daily, Some "day"); (None, Some "week")]%string true
  = Raise (AttributeError "'NoneType' object has no attribute 'reindex'").
Proof.
  apply (proj2 (merge_absent_series_fast_raises UtcMinutes.calendar Samples.daily)).
  discriminate.
Defined.

Lemma labels_of_app (l1 l2 : list entry) :
  labels_of (l1 ++ l2) = (labels_of l1 ++ labels_of l2)%list.
Proof.
  induction l1 as [| [d [s |]] l1 IH]; simpl; [reflexivity | now rewrite IH | exact IH].
Qed.

Lemma merge_step_accurate (cal : Calendar) (base_df : DataFrame) (min_tf t : string)
    (res : DataFrame) (d : option DataFrame) :
  t <> min_tf ->
  merge_step cal false base_df min_tf res (d, Some t) =
  (a <- _to_higher_tf_accurate cal base_df (Some t) ;;
   renamed <- _rename_cols a (Some t) ;;
   join_outer res renamed).
Proof.
  intros Hne. unfold merge_step. simpl.
  apply String.eqb_neq in Hne. now rewrite Hne.
Qed.

Lemma merge_loop_app (cal : Calendar) (fast : bool) (base_df : DataFrame)
    (min_tf : string) (l1 l2 : list entry) (res : DataFrame) :
  merge_loop cal fast base_df min_tf res (l1 ++ l2) =
  (res' <- merge_loop cal fast base_df min_tf res l1 ;;
   merge_loop cal fast base_df min_tf res' l2).
Proof.
  revert res. induction l1 as [| e l1 IH]; intros res; simpl; [reflexivity |].
  destruct (merge_step cal fast base_df min_tf res e); simpl; auto.
Qed.

(** C6. In accurate mode the series supplied with a coarser entry is not
    read: replacing it by any other series, or by none, leaves the merge
    unchanged, and what the entry contributes is the accurate
    re-aggregation of the base series under the entry's label. *)
Theorem accurate_mode_ignores_supplied_series (cal : Calendar)
    (pre post : list entry) (d1 d2 : option DataFrame) (t : string) :
  min_tf_of (labels_of (pre ++ (d1, Some t) :: post)) <> Ok t ->
  mergeTimeframes cal (pre ++ (d1, Some t) :: post) false =
  mergeTimeframes cal (pre ++ (d2, Some t) :: post) false /\
  forall base_df min_tf res,
    min_tf_of (labels_of (pre ++ (d1, Some t) :: post)) = Ok min_tf ->
    merge_step cal false base_df min_tf res (d1, Some t) =
    (a <- _to_higher_tf_accurate cal base_df (Some t) ;;
     renamed <- _rename_cols a (Some t) ;;
     join_outer res renamed).
Proof.
  intros Hmin. split.
  - unfold mergeTimeframes.
    assert (Hl : labels_of (pre ++ (d2, Some t) :: post)
                 = labels_of (pre ++ (d1, Some t) :: post))
      by (now rewrite !labels_of_app).
    rewrite Hl.
    destruct (min_tf_of (labels_of (pre ++ (d1, Some t) :: post)))
      as [m |] eqn:Hm; simpl; [| reflexivity].
    assert (Hne : t <> m) by congruence.
    rewrite !filter_app. simpl.
    replace (String.eqb t m) with false by (symmetry; now apply String.eqb_neq).
    match goal with
    | |- context [match ?l with [] => _ | _ :: _ => _ end] =>
        destruct l as [| [[base_df |] lbl] rest]; try reflexivity
    end.
    destruct (_rename_cols base_df (Some m)) as [res0 |]; cbn [bind]; [| reflexivity].
    rewrite !merge_loop_app.
    destruct (merge_loop cal false base_df m res0 pre);
      cbn [bind merge_loop]; [| reflexivity].
    now rewrite !merge_step_accurate.
  - intros base_df m res Hm. apply merge_step_accurate. congruence.
Qed.

Lemma accurate_mode_ignores_supplied_series_witness :
  mergeTimeframes UtcMinutes.calendar
    [(Some Samples.daily, Some "day"); (Some Samples.fri_mon, Some "week")]%string false =
  mergeTimeframes UtcMinutes.calendar
    [(Some Samples.daily, Some "day"); (None, Some "week")]%string false.
Proof.
  apply (proj1 (accurate_mode_ignores_supplied_series UtcMinutes.calendar
                  [(Some Samples.daily, Some "day"%string)] []
                  (Some Samples.fri_mon) None "week"
                  ltac:(vm_compute; discriminate))).
Defined.

(* ------------------------------------------------------------------ *)
(** ** Empty periods *)

(** C7. [toTimeframe] at the daily granularity on a Friday and the following
    Monday: the two empty days are emitted, with NaN prices and a volume of 0,
    because the sum of no value is 0 and [dropna(how="all")] keeps the row. *)
Theorem toTimeframe_emits_empty_periods :
  toTimeframe UtcMinutes.calendar Samples.fri_mon (Some "day"%string) None =
  Ok (mkDF [ Multi "Price" "Open"; Multi "Price" "High"; Multi "Price" "Low";
             Multi "Price" "Close"; Multi "Price" "Volume" ]
        [ (1440, [Some 10; Some 11; Some 9; Some 10; Some 100]);
          (2880, [None; None; None; None; Some 0]);
          (4320, [None; None; None; None; Some 0]);
          (5760, [Some 11; Some 12; Some 10; Some 11; Some 200]) ]) /\
  period_rows UtcMinutes.calendar "D" LeftEdges Samples.fri_mon 1 = [] /\
  period_label UtcMinutes.calendar "D" LeftEdges Samples.fri_mon 1 = 2880.
Proof. repeat split. Qed.

(* ------------------------------------------------------------------ *)
(** ** Lists of rows *)

Lemma strictly_increasing_sorted (l : list Z) :
  strictly_increasing l = true -> StronglySorted Z.lt l.
Proof.
  induction l as [| x l IH]; intros H; [constructor |].
  destruct l as [| y l].
  - constructor; constructor.
  - simpl in H. apply andb_true_iff in H. destruct H as [Hxy Hl].
    apply Z.ltb_lt in Hxy. specialize (IH Hl).
    constructor; [exact IH |].
    inversion IH as [| ? ? _ Hall]; subst.
    constructor; [exact Hxy |].
    eapply Forall_impl; [| exact Hall]. intros z Hz. lia.
Qed.

Lemma row_at_None (t : Z) (rs : list row) :
  row_at t rs = None <-> ~ In t (map fst rs).
Proof.
  induction rs as [| [t' c] rs IH]; simpl; [tauto |].
  destruct (t' =? t) eqn:E.
  - apply Z.eqb_eq in E. split; [discriminate | intros H; exfalso; apply H; auto].
  - apply Z.eqb_neq in E. rewrite IH. tauto.
Qed.

Lemma row_at_In (t : Z) (cells : list cell) (rs : list row) :
  StronglySorted Z.lt (map fst rs) -> In (t, cells) rs ->
  row_at t rs = Some cells.
Proof.
  induction rs as [| [t' c] rs IH]; simpl; intros Hs Hin; [contradiction |].
  inversion Hs as [| ? ? Hs' Hall]; subst.
  destruct Hin as [[= -> ->] | Hin].
  - now rewrite Z.eqb_refl.
  - destruct (t' =? t) eqn:E; [| auto].
    apply Z.eqb_eq in E. subst t'.
    rewrite Forall_forall in Hall.
    specialize (Hall t (in_map fst _ _ Hin)). simpl in Hall. lia.
Qed.

Lemma row_at_filter_fst (P : Z -> bool) (t : Z) (rs : list row) :
  row_at t (filter (fun r => P (fst r)) rs) =
  if P t then row_at t rs else None.
Proof.
  induction rs as [| [t' c] rs IH]; simpl; [now destruct (P t) |].
  destruct (t' =? t) eqn:E.
  - apply Z.eqb_eq in E. subst t'.
    destruct (P t) eqn:Pt; simpl; [now rewrite Z.eqb_refl | exact IH].
  - destruct (P t') eqn:Pt'; simpl; [now rewrite E |]; exact IH.
Qed.

Lemma row_at_rows_upto (t : Z) (rs : list row) :
  row_at t (rows_upto t rs) = row_at t rs.
Proof.
  unfold rows_upto.
  rewrite (row_at_filter_fst (fun x => x <=? t)).
  now rewrite Z.leb_refl.
Qed.

Lemma filter_filter_comm {A : Type} (f g : A -> bool) (l : list A) :
  filter f (filter g l) = filter g (filter f l).
Proof.
  induction l as [| x l IH]; simpl; [reflexivity |].
  destruct (f x) eqn:Fx, (g x) eqn:Gx; simpl; rewrite ?Fx, ?Gx, IH; reflexivity.
Qed.

Lemma sorted_filter_fst (P : row -> bool) (rs : list row) :
  StronglySorted Z.lt (map fst rs) ->
  StronglySorted Z.lt (map fst (filter P rs)).
Proof.
  induction rs as [| r rs IH]; simpl; intros Hs; [constructor |].
  inversion Hs as [| ? ? Hs' Hall]; subst.
  destruct (P r); simpl; auto.
  constructor; auto.
  rewrite Forall_forall in *. intros x Hx. apply Hall.
  apply in_map_iff in Hx. destruct Hx as (r' & <- & Hr').
  apply filter_In in Hr'. apply in_map. tauto.
Qed.

Lemma rows_upto_all_later (t : Z) (rs : list row) :
  Forall (Z.lt t) (map fst rs) -> rows_upto t rs = [].
Proof.
  induction rs as [| r rs IH]; simpl; intros H; [reflexivity |].
  inversion H as [| ? ? Hr Hrs]; subst.
  replace (fst r <=? t) with false by (symmetry; apply Z.leb_gt; lia). auto.
Qed.

Lemma insert_uniq_In (x y : Z) (l : list Z) :
  In y (insert_uniq x l) <-> y = x \/ In y l.
Proof.
  induction l as [| z l IH]; simpl; [intuition |].
  destruct (x <? z) eqn:E1; simpl; [intuition |].
  destruct (x =? z) eqn:E2; simpl.
  - apply Z.eqb_eq in E2. subst. intuition.
  - rewrite IH. intuition.
Qed.

Lemma sort_uniq_In (y : Z) (l : list Z) : In y (sort_uniq l) <-> In y l.
Proof.
  induction l as [| x l IH]; simpl; [tauto |].
  rewrite insert_uniq_In, IH. intuition.
Qed.

(* ------------------------------------------------------------------ *)
(** ** The loops of [_to_higher_tf_accurate] *)

Section Cumulative.

Variable F : list row -> list cell.

Lemma firstn_succ_app (pre : list row) (r : row) (g : list row) :
  firstn (S (List.length pre)) (pre ++ r :: g) = (pre ++ [r])%list.
Proof.
  rewrite firstn_app, firstn_all2 by lia.
  replace (S (List.length pre) - List.length pre)%nat with 1%nat by lia.
  reflexivity.
Qed.

Lemma row_at_cumulative (t : Z) (g pre : list row) :
  StronglySorted Z.lt (map fst g) ->
  row_at t (combine (map fst g)
              (map (fun i => F (firstn (S i) (pre ++ g)))
                   (seq (List.length pre) (List.length g)))) =
  match row_at t g with
  | Some _ => Some (F (pre ++ rows_upto t g))
  | None => None
  end.
Proof.
  revert pre. induction g as [| [t' c] g IH]; intros pre Hs; [reflexivity |].
  inversion Hs as [| ? ? Hs' Hall]; subst.
  cbn [map fst List.length seq combine row_at].
  destruct (t' =? t) eqn:E.
  - apply Z.eqb_eq in E. subst t'.
    rewrite firstn_succ_app. unfold rows_upto at 1. cbn [filter fst].
    rewrite Z.leb_refl. fold (rows_upto t g).
    now rewrite (rows_upto_all_later t g Hall).
  - specialize (IH (pre ++ [(t', c)])%list Hs').
    rewrite length_app, Nat.add_1_r, <- app_assoc in IH. cbn [app] in IH.
    rewrite IH.
    destruct (row_at t g) eqn:Hg; [| reflexivity].
    assert (Hlt : t' < t).
    { rewrite Forall_forall in Hall. apply Hall.
      destruct (in_dec Z.eq_dec t (map fst g)) as [Hin | Hnin]; [exact Hin |].
      apply row_at_None in Hnin. congruence. }
    unfold rows_upto. cbn [filter fst].
    replace (t' <=? t) with true by (symmetry; apply Z.leb_le; lia).
    now rewrite <- app_assoc.
Qed.

Lemma row_at_prefixes (t : Z) (g : list row) :
  StronglySorted Z.lt (map fst g) ->
  row_at t (combine (map fst g)
              (map (fun i => F (firstn (S i) g)) (seq 0 (List.length g)))) =
  match row_at t g with
  | Some _ => Some (F (rows_upto t g))
  | None => None
  end.
Proof. intros Hs. exact (row_at_cumulative t g [] Hs). Qed.

End Cumulative.

Section AccurateLoops.

Variable cal : Calendar.
Variable freq : string.
Variable base_df : DataFrame.
Variable oc : OhlcCols.

Hypothesis sorted_index : StronglySorted Z.lt (index base_df).

Lemma group_step_pointwise (res : list row) (p : Z) :
  (forall r, In r res -> In (fst r) (index base_df)) ->
  group_step cal freq base_df oc res p =
  map (fun r => if to_period cal freq (fst r) =? p then (fst r, partial_row cal freq base_df oc (fst r)) else r)
      res.
Proof.
  intros Hres. unfold group_step, loc_assign, agg_rows.
  apply map_ext_in. intros r Hr.
  rewrite (row_at_prefixes (cum_row (columns base_df) oc))
    by (apply sorted_filter_fst; exact sorted_index).
  rewrite (row_at_filter_fst (fun x => to_period cal freq x =? p)).
  destruct (to_period cal freq (fst r) =? p) eqn:E; [| reflexivity].
  apply Z.eqb_eq in E.
  destruct (row_at (fst r) (rows base_df)) eqn:Hrow.
  - unfold partial_row, seen_so_far. now rewrite E.
  - apply row_at_None in Hrow. exfalso. apply Hrow. apply Hres, Hr.
Qed.

Lemma fold_group_steps (ps : list Z) (res : list row) :
  (forall r, In r res -> In (fst r) (index base_df)) ->
  fold_left (group_step cal freq base_df oc) ps res =
  map (fun r => if existsb (fun p => to_period cal freq (fst r) =? p) ps
                then (fst r, partial_row cal freq base_df oc (fst r)) else r)
      res.
Proof.
  revert res. induction ps as [| p ps IH]; intros res Hres; cbn [fold_left existsb].
  - symmetry. erewrite map_ext; [apply map_id | reflexivity].
  - rewrite group_step_pointwise by exact Hres.
    rewrite IH.
    + rewrite map_map. apply map_ext. intros r.
      destruct (to_period cal freq (fst r) =? p) eqn:E; cbn [fst orb].
      * now destruct (existsb _ ps).
      * reflexivity.
    + intros r Hr. apply in_map_iff in Hr. destruct Hr as (r0 & <- & Hr0).
      destruct (to_period cal freq (fst r0) =? p); cbn [fst]; auto.
Qed.

Lemma accurate_loop_rows :
  fold_left (group_step cal freq base_df oc)
    (sort_uniq (map (to_period cal freq) (index base_df)))
    (map (fun r => (fst r, nan_row (columns base_df))) (rows base_df)) =
  map (fun r => (fst r, partial_row cal freq base_df oc (fst r))) (rows base_df).
Proof.
  rewrite fold_group_steps.
  - rewrite map_map. apply map_ext_in. intros r Hr. cbn [fst].
    replace (existsb _ _) with true; [reflexivity |].
    symmetry. apply existsb_exists.
    exists (to_period cal freq (fst r)). split; [| apply Z.eqb_refl].
    apply sort_uniq_In, in_map. unfold index. now apply in_map.
  - intros r Hr. apply in_map_iff in Hr. destruct Hr as (r0 & <- & Hr0).
    cbn [fst]. unfold index. now apply in_map.
Qed.

End AccurateLoops.

(** The loops compute the closed form on every frame whose index is strictly
    increasing. *)
Lemma accurate_is_partial_bars (cal : Calendar) (base_df : DataFrame) (higher_tf : tf) :
  strictly_increasing (index base_df) = true ->
  _to_higher_tf_accurate cal base_df higher_tf = partial_bars cal base_df higher_tf.
Proof.
  intros Hs. apply strictly_increasing_sorted in Hs.
  unfold _to_higher_tf_accurate, partial_bars.
  destruct (priority higher_tf) as [p |]; cbn [bind]; [| reflexivity].
  destruct (priority (Some "day"%string)) as [p_day |]; cbn [bind]; [| reflexivity].
  destruct (p <=? p_day); [reflexivity |].
  destruct (simple_cols (columns base_df)) as [sc |]; cbn [bind]; [| reflexivity].
  now rewrite accurate_loop_rows.
Qed.

Lemma row_at_map_keyed (h : Z -> list cell) (t : Z) (rs : list row) :
  row_at t (map (fun r => (fst r, h (fst r))) rs) =
  match row_at t rs with
  | Some _ => Some (h t)
  | None => None
  end.
Proof.
  induction rs as [| [t' c] rs IH]; cbn [map fst row_at]; [reflexivity |].
  destruct (t' =? t) eqn:E; [| exact IH].
  apply Z.eqb_eq in E. now subst.
Qed.

Lemma seen_so_far_upto (cal : Calendar) (freq : string) (rs : list row) (t : Z) :
  seen_so_far cal freq rs t =
  filter (fun r => to_period cal freq (fst r) =? to_period cal freq t) (rows_upto t rs).
Proof. unfold seen_so_far, rows_upto. apply filter_filter_comm. Qed.

(** C1. The row that the accurate re-aggregation assigns at [t] is the same
    for two base series (strictly increasing index, same columns) that have
    the same rows up to [t]: rows after [t] may be changed, removed or added
    without effect; a failure is the same failure for both. *)
Theorem accurate_no_look_ahead (cal : Calendar) (higher_tf : tf)
    (df1 df2 : DataFrame) (t : Z) :
  columns df1 = columns df2 ->
  strictly_increasing (index df1) = true ->
  strictly_increasing (index df2) = true ->
  rows_upto t (rows df1) = rows_upto t (rows df2) ->
  rmap (fun out => row_at t (rows out)) (_to_higher_tf_accurate cal df1 higher_tf) =
  rmap (fun out => row_at t (rows out)) (_to_higher_tf_accurate cal df2 higher_tf).
Proof.
  intros Hcols Hs1 Hs2 Hupto.
  rewrite !accurate_is_partial_bars by assumption.
  assert (Hrow : row_at t (rows df1) = row_at t (rows df2))
    by (rewrite <- (row_at_rows_upto t (rows df1)), Hupto; apply row_at_rows_upto).
  unfold partial_bars, partial_row, rmap. rewrite Hcols.
  destruct (priority higher_tf) as [p |]; cbn [bind]; [| reflexivity].
  destruct (priority (Some "day"%string)) as [p_day |]; cbn [bind]; [| reflexivity].
  destruct (p <=? p_day); cbn [bind]; [now rewrite Hrow |].
  destruct (simple_cols (columns df2)) as [sc |]; cbn [bind rows]; [| reflexivity].
  rewrite !(row_at_map_keyed
              (fun x => cum_row (columns df2) (detect_ohlc sc)
                          (seen_so_far cal (freq_of higher_tf) _ x))).
  now rewrite Hrow, !seen_so_far_upto, Hupto.
Qed.

Lemma accurate_no_look_ahead_witness :
  rmap (fun out => row_at 5760 (rows out))
    (_to_higher_tf_accurate UtcMinutes.calendar Samples.daily (Some "week"%string)) =
  rmap (fun out => row_at 5760 (rows out))
    (_to_higher_tf_accurate UtcMinutes.calendar Samples.daily' (Some "week"%string)).
Proof.
  apply (accurate_no_look_ahead UtcMinutes.calendar (Some "week"%string)
           Samples.daily Samples.daily' 5760); reflexivity.
Defined.

(* ------------------------------------------------------------------ *)
(** ** The first row of a period *)

Lemma dict_get_set {V : Type} (k k' : label) (v : V) (d : list (label * V)) :
  dict_get k' (dict_set k v d) =
  if label_eqb k' k then Some v else dict_get k' d.
Proof.
  induction d as [| [k0 v0] d IH]; cbn [dict_set dict_get]; [reflexivity |].
  destruct (label_eqb k k0) eqn:E; cbn [dict_get].
  - apply label_eqb_eq in E. subst k0.
    now destruct (label_eqb k' k).
  - destruct (label_eqb k' k0) eqn:E'.
    + apply label_eqb_eq in E'. subst k0.
      replace (label_eqb k' k) with false; [reflexivity |].
      symmetry. apply label_eqb_neq. apply label_eqb_neq in E. congruence.
    + exact IH.
Qed.

Lemma col_pos_lt (c : label) (cols : list label) (j : nat) :
  col_pos c cols = Some j -> (j < List.length cols)%nat.
Proof.
  revert j. induction cols as [| c' cols IH]; cbn [col_pos]; intros j H; [discriminate |].
  destruct (label_eqb c c').
  - injection H as <-. simpl. lia.
  - destruct (col_pos c cols) as [j' |]; [| discriminate].
    injection H as <-. specialize (IH j' eq_refl). simpl. lia.
Qed.

Lemma cell_at_numeric (cols : list label) (k : label) (cells : list cell) :
  numeric cells = true -> List.length cells = List.length cols -> In k cols ->
  exists v, cell_at cols k cells = Some v.
Proof.
  intros Hnum Hlen Hin. unfold cell_at.
  apply has_col_In in Hin. unfold has_col in Hin.
  destruct (col_pos k cols) as [j |] eqn:Hj; [| discriminate].
  apply col_pos_lt in Hj. rewrite <- Hlen in Hj.
  unfold numeric in Hnum. rewrite forallb_forall in Hnum.
  specialize (Hnum _ (nth_In cells None Hj)).
  destruct (nth j cells None) as [v |]; [now exists v | discriminate].
Qed.

Lemma map_cell_at (cols : list label) (cells : list cell) :
  distinct cols = true -> List.length cells = List.length cols ->
  map (fun c => cell_at cols c cells) cols = cells.
Proof.
  revert cells. induction cols as [| c cols IH]; intros cells Hd Hlen.
  - destruct cells; [reflexivity | discriminate].
  - destruct cells as [| x xs]; [discriminate |].
    cbn [distinct] in Hd. apply andb_true_iff in Hd. destruct Hd as [Hc Hd].
    cbn [map]. f_equal.
    + unfold cell_at. cbn [col_pos]. now rewrite label_eqb_refl.
    + transitivity (map (fun c' => cell_at cols c' xs) cols);
        [| apply IH; [exact Hd | simpl in Hlen; lia]].
      apply map_ext_in. intros c' Hc'.
      unfold cell_at. cbn [col_pos].
      replace (label_eqb c' c) with false.
      * now destruct (col_pos c' cols).
      * symmetry. apply label_eqb_neq. intros ->.
        apply has_col_In in Hc'. rewrite Hc' in Hc. discriminate.
Qed.

Lemma int64_small (z : Z) : - 2 ^ 63 <= z < 2 ^ 63 -> int64 z = z.
Proof.
  intros H. unfold int64.
  replace (2 ^ 64) with (2 * 2 ^ 63) by reflexivity.
  rewrite Z.mod_small; lia.
Qed.

Lemma cell_at_In (cols : list label) (c : label) (cells : list cell) (v : Z) :
  cell_at cols c cells = Some v -> In (Some v) cells.
Proof.
  unfold cell_at. destruct (col_pos c cols) as [j |]; [| discriminate].
  intros H. destruct (Nat.lt_ge_cases j (List.length cells)) as [Hj | Hj].
  - rewrite <- H. now apply nth_In.
  - rewrite nth_overflow in H by exact Hj. discriminate.
Qed.

Section SingleRow.

Variable cols : list label.
Variable t : Z.
Variable cells : list cell.

Hypothesis cells_numeric : numeric cells = true.
Hypothesis cells_int64 : forallb is_int64 cells = true.
Hypothesis cells_aligned : List.length cells = List.length cols.

Lemma agrees_set (b : bool) (k : label) (v : cell) (d : list (label * cell)) :
  agrees cols cells d -> (In k cols -> v = cell_at cols k cells) ->
  agrees cols cells (if b then dict_set k v d else d).
Proof.
  intros Hd Hv. destruct b; [| exact Hd].
  intros k' v' Hget Hin. rewrite dict_get_set in Hget.
  destruct (label_eqb k' k) eqn:E.
  - apply label_eqb_eq in E. subst k'. injection Hget as <-. auto.
  - now apply Hd.
Qed.

Lemma fill_last_spec (l : list label) (d : list (label * cell)) :
  let d' := fold_left (fun d c =>
                         match dict_get c d with
                         | Some _ => d
                         | None => dict_set c (iloc_last (column_of cols c [(t, cells)])) d
                         end) l d in
  (agrees cols cells d -> agrees cols cells d') /\
  (forall k, dict_get k d <> None -> dict_get k d' <> None) /\
  (forall k, In k l -> dict_get k d' <> None).
Proof.
  revert d. induction l as [| c l IH]; intros d; cbn [fold_left].
  - repeat split; auto; intros k [].
  - set (d1 := match dict_get c d with
               | Some _ => d
               | None => dict_set c (iloc_last (column_of cols c [(t, cells)])) d
               end).
    destruct (IH d1) as (IH1 & IH2 & IH3).
    assert (Hkeep : forall k, dict_get k d <> None -> dict_get k d1 <> None).
    { intros k Hk. unfold d1. destruct (dict_get c d); [exact Hk |].
      rewrite dict_get_set. now destruct (label_eqb k c). }
    assert (Hc : dict_get c d1 <> None).
    { unfold d1. destruct (dict_get c d) eqn:E; [congruence |].
      rewrite dict_get_set, label_eqb_refl. discriminate. }
    repeat split.
    + intros Hd. apply IH1. unfold d1.
      destruct (dict_get c d); [exact Hd |].
      apply (agrees_set true); auto.
    + intros k Hk. auto.
    + intros k [<- | Hk]; auto.
Qed.

Lemma row_dict_single (oc : OhlcCols) :
  agrees cols cells (row_dict_of cols oc [(t, cells)]) /\
  forall c, In c cols -> dict_get c (row_dict_of cols oc [(t, cells)]) <> None.
Proof.
  unfold row_dict_of. cbv zeta. split.
  - apply (proj1 (fill_last_spec cols _)).
    repeat apply agrees_set; try (intros ? ? [=]); intros Hin;
      unfold column_of; cbn [map snd].
    + reflexivity.
    + unfold agg_max. cbn [fold_left cell_max]. reflexivity.
    + unfold agg_min. cbn [fold_left cell_min]. reflexivity.
    + reflexivity.
    + destruct (cell_at_numeric cols _ cells cells_numeric cells_aligned Hin) as [v' Hv'].
      rewrite Hv'. unfold agg_sum. cbn [fold_left]. rewrite int64_small; [reflexivity |].
      apply cell_at_In in Hv'. rewrite forallb_forall in cells_int64.
      specialize (cells_int64 _ Hv'). cbn [is_int64] in cells_int64.
      apply andb_true_iff in cells_int64. lia.
  - apply (proj2 (proj2 (fill_last_spec cols _))).
Qed.

Lemma cum_row_single (oc : OhlcCols) :
  distinct cols = true ->
  cum_row cols oc [(t, cells)] = cells.
Proof.
  intros Hd. unfold cum_row. cbv zeta.
  transitivity (map (fun c => cell_at cols c cells) cols);
    [| exact (map_cell_at cols cells Hd cells_aligned)].
  apply map_ext_in. intros c Hc.
  destruct (row_dict_single oc) as [H1 H3].
  specialize (H3 c Hc).
  destruct (dict_get c (row_dict_of cols oc [(t, cells)])) as [v |] eqn:Hv;
    [| congruence].
  now apply H1.
Qed.

End SingleRow.

Lemma filter_andb {A : Type} (f g : A -> bool) (l : list A) :
  filter f (filter g l) = filter (fun x => g x && f x) l.
Proof.
  induction l as [| x l IH]; cbn [filter]; [reflexivity |].
  destruct (g x); cbn [filter andb]; [destruct (f x) |]; now rewrite IH.
Qed.

Lemma filter_label_singleton (t : Z) (cells : list cell) (rs : list row) :
  StronglySorted Z.lt (map fst rs) -> In (t, cells) rs ->
  filter (fun r => fst r =? t) rs = [(t, cells)].
Proof.
  induction rs as [| [t' c] rs IH]; intros Hs Hin; [contradiction |].
  cbn [map fst] in Hs. inversion Hs as [| ? ? Hs' Hall]; subst.
  cbn [filter fst]. destruct Hin as [[= -> ->] | Hin].
  - rewrite Z.eqb_refl. f_equal.
    clear -Hall. induction rs as [| r rs IH]; [reflexivity |].
    cbn [map] in Hall. inversion Hall as [| ? ? Hr Hrs]; subst.
    cbn [filter]. replace (fst r =? t) with false by (symmetry; apply Z.eqb_neq; lia).
    auto.
  - rewrite Forall_forall in Hall.
    pose proof (Hall t (in_map fst _ _ Hin)) as Hlt. cbn [fst] in Hlt.
    replace (t' =? t) with false by (symmetry; apply Z.eqb_neq; lia).
    auto.
Qed.

Lemma seen_so_far_first (cal : Calendar) (freq : string) (df : DataFrame)
    (t : Z) (cells : list cell) :
  StronglySorted Z.lt (index df) ->
  first_of_period cal freq df (t, cells) ->
  seen_so_far cal freq (rows df) t = [(t, cells)].
Proof.
  intros Hs [Hin Hfirst]. unfold seen_so_far, rows_upto.
  rewrite filter_andb.
  rewrite <- (filter_label_singleton t cells (rows df) Hs Hin).
  apply filter_ext_in. intros r Hr.
  destruct (fst r =? t) eqn:E.
  - apply Z.eqb_eq in E. rewrite E, Z.eqb_refl, Z.leb_refl. reflexivity.
  - destruct (to_period cal freq (fst r) =? to_period cal freq t) eqn:Ep;
      [| reflexivity].
    apply Z.eqb_eq in Ep. specialize (Hfirst r Hr Ep). cbn [fst] in Hfirst.
    apply Z.eqb_neq in E. cbn [andb]. apply Z.leb_gt. lia.
Qed.

(** C9. A Friday and the following Monday, re-aggregated by week.  The
    Monday opens a week of [toTimeframe], whose bar labelled with that Monday
    holds the Monday's own values; [_to_higher_tf_accurate] groups the rows by
    [to_period("W-MON")], the weeks that end on a Monday, so the row of the
    Monday carries the Open, the Low and the Volume of the Friday before. *)
Theorem accurate_week_leaks_into_monday :
  toTimeframe UtcMinutes.calendar Samples.fri_mon (Some "week"%string) None =
  Ok (mkDF [ Multi "Price" "Open"; Multi "Price" "High"; Multi "Price" "Low";
             Multi "Price" "Close"; Multi "Price" "Volume" ]
        [ (-4320, [Some 10; Some 11; Some 9; Some 10; Some 100]);
          (5760, [Some 11; Some 12; Some 10; Some 11; Some 200]) ]) /\
  _to_higher_tf_accurate UtcMinutes.calendar Samples.fri_mon (Some "week"%string) =
  Ok (mkDF Samples.ohlcv
        [ (1440, [Some 10; Some 11; Some 9; Some 10; Some 100]);
          (5760, [Some 10; Some 12; Some 9; Some 11; Some 300]) ]) /\
  row_at 5760 (rows Samples.fri_mon) = Some [Some 11; Some 12; Some 10; Some 11; Some 200].
Proof. repeat split. Qed.

(** X28. On a base series with a strictly increasing index and distinct
    plain columns, for a label of [tf_priority], the accurate re-aggregation
    returns a frame in which the first row of each group of [to_period] (for
    "week" the groups run from a Tuesday to the next Monday) carries that
    row's own values, when these are 64-bit numbers: nothing of the earlier
    groups enters it. *)
Theorem accurate_first_row_of_period (cal : Calendar) (base_df : DataFrame)
    (higher_tf : tf) (p : Z) (t : Z) (cells : list cell) :
  priority higher_tf = Ok p ->
  existsb is_multi (columns base_df) = false ->
  strictly_increasing (index base_df) = true ->
  distinct (columns base_df) = true ->
  first_of_period cal (freq_of higher_tf) base_df (t, cells) ->
  List.length cells = List.length (columns base_df) ->
  numeric cells = true ->
  forallb is_int64 cells = true ->
  exists out,
    _to_higher_tf_accurate cal base_df higher_tf = Ok out /\
    row_at t (rows out) = Some cells.
Proof.
  intros Hp Hflat Hs Hd Hfirst Hlen Hnum Hint.
  rewrite accurate_is_partial_bars by exact Hs.
  apply strictly_increasing_sorted in Hs.
  pose proof (row_at_In t cells (rows base_df) Hs (proj1 Hfirst)) as Hrow.
  unfold partial_bars, partial_row. rewrite Hp.
  change (priority (Some "day"%string)) with (@Ok Z 1). cbn [bind].
  destruct (p <=? 1).
  - exists base_df. split; [reflexivity | exact Hrow].
  - unfold simple_cols. rewrite Hflat.
    replace (is_multiindex (columns base_df)) with false.
    + cbn [bind]. eexists. split; [reflexivity |]. cbn [rows].
      rewrite (row_at_map_keyed
                 (fun x => cum_row (columns base_df) _
                             (seen_so_far cal (freq_of higher_tf) (rows base_df) x))).
      rewrite Hrow, (seen_so_far_first cal _ base_df t cells Hs Hfirst).
      now rewrite cum_row_single.
    + unfold is_multiindex. destruct (columns base_df) as [| c cols]; [reflexivity |].
      cbn [existsb] in Hflat. apply orb_false_iff in Hflat. destruct Hflat as [Hc _].
      cbn [forallb]. now rewrite Hc.
Qed.

Lemma accurate_first_row_of_period_witness :
  exists out,
    _to_higher_tf_accurate UtcMinutes.calendar Samples.daily (Some "week"%string) = Ok out /\
    row_at 7200 (rows out) = Some [Some 12; Some 15; Some 11; Some 14; Some 300].
Proof.
  apply (accurate_first_row_of_period UtcMinutes.calendar Samples.daily
           (Some "week"%string) 2 7200 [Some 12; Some 15; Some 11; Some 14; Some 300]);
    try reflexivity.
  split.
  - cbn. tauto.
  - intros r' Hin Hper. cbn in Hin.
    destruct Hin as [<- | [<- | [<- | [<- | []]]]];
      try (vm_compute in Hper; discriminate); cbn [fst]; lia.
Defined.

(* ------------------------------------------------------------------ *)
(** ** Resampling *)

Lemma list_min_spec (l : list Z) (d : Z) :
  list_min d l <= d /\ forall x, In x l -> list_min d l <= x.
Proof.
  unfold list_min. revert d. induction l as [| y l IH]; intros d; cbn [fold_left].
  - split; [lia | intros x []].
  - destruct (IH (Z.min d y)) as [H1 H2]. split; [lia |].
    intros x [<- | Hx]; [lia | auto].
Qed.

Lemma list_max_spec (l : list Z) (d : Z) :
  d <= list_max d l /\ forall x, In x l -> x <= list_max d l.
Proof.
  unfold list_max. revert d. induction l as [| y l IH]; intros d; cbn [fold_left].
  - split; [lia | intros x []].
  - destruct (IH (Z.max d y)) as [H1 H2]. split; [lia |].
    intros x [<- | Hx]; [lia | auto].
Qed.

Lemma zrange_In (lo hi b : Z) : lo <= b <= hi -> In b (zrange lo hi).
Proof.
  intros H. unfold zrange. apply in_map_iff.
  exists (Z.to_nat (b - lo)). split; [lia |].
  apply in_seq. lia.
Qed.

Lemma insert_row_In (r x : row) (rs : list row) :
  In x (insert_row r rs) <-> x = r \/ In x rs.
Proof.
  induction rs as [| r' rs IH]; cbn [insert_row In]; [intuition |].
  destruct (fst r <=? fst r'); cbn [In]; [intuition |].
  rewrite IH. intuition.
Qed.

Lemma by_time_In (x : row) (rs : list row) : In x (by_time rs) <-> In x rs.
Proof.
  unfold by_time. induction rs as [| r rs IH]; cbn [fold_right In]; [tauto |].
  rewrite insert_row_In, IH. intuition.
Qed.

(** Rows that come in the order of their timestamps are left as they are. *)
Lemma by_time_sorted (rs : list row) :
  StronglySorted Z.lt (map fst rs) -> by_time rs = rs.
Proof.
  unfold by_time. induction rs as [| r rs IH]; intros Hs; [reflexivity |].
  cbn [map] in Hs. inversion Hs as [| ? ? Hs' Hall]; subst.
  cbn [fold_right]. rewrite (IH Hs').
  destruct rs as [| r' rs]; [reflexivity |].
  cbn [map] in Hall. inversion Hall; subst. cbn [insert_row].
  now replace (fst r <=? fst r') with true by (symmetry; apply Z.leb_le; lia).
Qed.

(** What [resample(...).agg(...)] returns: its columns are the keys of the
    dictionary, each of its rows is the aggregate of one bin, and every bin
    that holds a row of the frame has its row. *)
Lemma resample_agg_rows (cal : Calendar) (freq : string) (e : edges)
    (agg_dict : list (label * aggfun)) (df r : DataFrame) :
  resample_agg cal freq e agg_dict df = Ok r ->
  columns r = map fst agg_dict /\
  (forall t cells, In (t, cells) (rows r) ->
     exists b, t = period_label cal freq e df b /\
               cells = agg_row (columns df) agg_dict (period_rows cal freq e df b)) /\
  (forall b, period_rows cal freq e df b <> [] ->
     In (period_label cal freq e df b,
         agg_row (columns df) agg_dict (period_rows cal freq e df b)) (rows r)).
Proof.
  unfold resample_agg, period_rows, period_label, origin_of, index.
  destruct (negb (valid_freq cal freq)); [discriminate |].
  destruct (missing_key (columns df) agg_dict); [discriminate |].
  destruct agg_dict as [| kf d'] eqn:Hd; [discriminate |]. rewrite <- Hd. clear Hd.
  destruct (rows df) as [| [t0 c0] rs] eqn:Hrows; cbn [map fst].
  - intros [= <-]. cbn [columns rows]. repeat split.
    + intros t cells [].
    + intros b Hb. now contradiction Hb.
  - intros [= <-]. cbn [columns rows]. repeat split.
    + intros t cells Hin. apply in_map_iff in Hin.
      destruct Hin as (b & [= <- <-] & _). now exists b.
    + intros b Hb.
      apply (in_map (fun b0 => (bin_label cal freq e (list_min t0 (map fst rs)) b0,
                                agg_row (columns df) agg_dict
                                  (bin_rows cal freq e (list_min t0 (map fst rs)) b0
                                     (by_time ((t0, c0) :: rs)))))).
      set (origin := list_min t0 (map fst rs)) in *.
      destruct (bin_rows cal freq e origin b (by_time ((t0, c0) :: rs)))
        as [| r1 g] eqn:Hg; [now contradiction Hb |].
      assert (Hr1 : In r1 (bin_rows cal freq e origin b (by_time ((t0, c0) :: rs))))
        by (rewrite Hg; now left).
      apply filter_In in Hr1. destruct Hr1 as [Hr1 Hbin].
      apply (proj1 (by_time_In _ _)) in Hr1.
      apply Z.eqb_eq in Hbin.
      assert (Hord : In b (bin_of cal freq e origin t0 ::
                           map (bin_of cal freq e origin) (map fst rs))).
      { rewrite <- Hbin.
        apply (in_map (fun r => bin_of cal freq e origin (fst r))) in Hr1.
        cbn [map fst] in Hr1. now rewrite map_map. }
      apply zrange_In. split.
      * exact (proj2 (list_min_spec _ (bin_of cal freq e origin t0)) b Hord).
      * exact (proj2 (list_max_spec _ (bin_of cal freq e origin t0)) b Hord).
Qed.

(* ------------------------------------------------------------------ *)
(** ** Aggregates of a column of numbers *)

Lemma values_map_Some (l : list Z) : values (map Some l) = l.
Proof. induction l as [| x l IH]; cbn [map values]; [reflexivity | now rewrite IH]. Qed.

Lemma values_app (l1 l2 : list cell) :
  values (l1 ++ l2) = (values l1 ++ values l2)%list.
Proof.
  induction l1 as [| [v |] l1 IH]; cbn [app values]; [reflexivity | now rewrite IH | exact IH].
Qed.

Lemma values_rev (l : list cell) : values (rev l) = rev (values l).
Proof.
  induction l as [| [v |] l IH]; cbn [rev values]; [reflexivity | |];
    rewrite values_app, IH; cbn [values]; [reflexivity | apply app_nil_r].
Qed.

Lemma agg_first_head (l : list cell) : agg_first l = hd_error (values l).
Proof.
  induction l as [| [v |] l IH]; cbn [agg_first values hd_error]; auto.
Qed.

Lemma head_of_rev (v1 : Z) (vs : list Z) : hd_error (rev (v1 :: vs)) = Some (last vs v1).
Proof.
  induction vs as [| x vs _] using rev_ind; [reflexivity |].
  rewrite last_last, app_comm_cons, rev_app_distr. reflexivity.
Qed.

(** The aggregates of a column in terms of its numbers. *)
Lemma agg_first_of (l : list cell) (v1 : Z) (vs : list Z) :
  values l = v1 :: vs -> agg_first l = Some v1.
Proof. intros H. now rewrite agg_first_head, H. Qed.

Lemma agg_last_of (l : list cell) (v1 : Z) (vs : list Z) :
  values l = v1 :: vs -> agg_last l = Some (last vs v1).
Proof.
  intros H. unfold agg_last. rewrite agg_first_head, values_rev, H.
  apply head_of_rev.
Qed.

Lemma fold_max_values (l : list cell) (a : Z) :
  fold_left cell_max l (Some a) = Some (list_max a (values l)).
Proof.
  unfold list_max. revert a.
  induction l as [| [v |] l IH]; intros a; cbn [fold_left cell_max values]; auto.
Qed.

Lemma fold_min_values (l : list cell) (a : Z) :
  fold_left cell_min l (Some a) = Some (list_min a (values l)).
Proof.
  unfold list_min. revert a.
  induction l as [| [v |] l IH]; intros a; cbn [fold_left cell_min values]; auto.
Qed.

Lemma agg_max_of (l : list cell) (v1 : Z) (vs : list Z) :
  values l = v1 :: vs -> agg_max l = Some (list_max v1 vs).
Proof.
  unfold agg_max.
  induction l as [| [v |] l IH]; cbn [values fold_left cell_max];
    [discriminate | | exact IH].
  intros [= -> <-]. apply fold_max_values.
Qed.

Lemma agg_min_of (l : list cell) (v1 : Z) (vs : list Z) :
  values l = v1 :: vs -> agg_min l = Some (list_min v1 vs).
Proof.
  unfold agg_min.
  induction l as [| [v |] l IH]; cbn [values fold_left cell_min];
    [discriminate | | exact IH].
  intros [= -> <-]. apply fold_min_values.
Qed.

Lemma agg_sum_of (l : list cell) : agg_sum l = Some (int64 (sum_values (values l))).
Proof.
  unfold agg_sum, sum_values. do 2 f_equal.
  generalize 0. induction l as [| [v |] l IH]; intros acc; cbn [values fold_left]; auto.
Qed.

Lemma sum_abs_bound (l : list Z) (a b : Z) :
  Z.abs a <= b -> Z.abs (fold_left Z.add l a) <= fold_left Z.add (map Z.abs l) b.
Proof.
  revert a b. induction l as [| x l IH]; intros a b H; cbn [map fold_left]; [exact H |].
  apply IH. lia.
Qed.

(** Below the bound the 64-bit sum is the sum. *)
Lemma exact_int64 (l : list Z) : exact l -> int64 (sum_values l) = sum_values l.
Proof.
  unfold exact. intros H.
  pose proof (sum_abs_bound l 0 0 ltac:(lia)) as Hb. fold (sum_values l) in Hb.
  fold (sum_values (map Z.abs l)) in Hb.
  apply int64_small.
  assert (H53 : 2 ^ 53 < 2 ^ 63) by reflexivity. lia.
Qed.

Lemma agg_first_values (v1 : Z) (vs : list Z) :
  agg_first (map Some (v1 :: vs)) = Some v1.
Proof. reflexivity. Qed.

Lemma agg_last_values (v1 : Z) (vs : list Z) :
  agg_last (map Some (v1 :: vs)) = Some (last vs v1).
Proof. apply agg_last_of, values_map_Some. Qed.

Lemma agg_max_values (v1 : Z) (vs : list Z) :
  agg_max (map Some (v1 :: vs)) = Some (list_max v1 vs).
Proof. apply agg_max_of, values_map_Some. Qed.

Lemma agg_min_values (v1 : Z) (vs : list Z) :
  agg_min (map Some (v1 :: vs)) = Some (list_min v1 vs).
Proof. apply agg_min_of, values_map_Some. Qed.

Lemma agg_sum_values (l : list Z) :
  exact l -> agg_sum (map Some l) = Some (sum_values l).
Proof.
  intros H. now rewrite agg_sum_of, values_map_Some, exact_int64.
Qed.

(* ------------------------------------------------------------------ *)
(** ** The aggregation dictionary of [toTimeframe] *)

(** With the default [ohlc] every column gets an entry, and on the numbers
    of a column the entry computes the rule of the specification. *)
Lemma agg_for_default (c : string) :
  exists f,
    agg_for default_ohlc c = Some f /\
    forall l v1 vs, values l = v1 :: vs -> exact (v1 :: vs) ->
                    apply_agg f l = Some (period_rule c v1 vs).
Proof.
  unfold agg_for, period_rule.
  change (map lower default_ohlc) with ["open"; "high"; "low"; "close"]%string.
  cbn [existsb]. generalize (lower c). intros name.
  destruct (String.eqb name "open") eqn:E1.
  { apply String.eqb_eq in E1. subst. exists First. split; [reflexivity |].
    intros l v1 vs Hl _. now apply agg_first_of with vs. }
  destruct (String.eqb name "high") eqn:E2.
  { apply String.eqb_eq in E2. subst. exists Max. split; [reflexivity |].
    intros l v1 vs Hl _. now apply agg_max_of. }
  destruct (String.eqb name "low") eqn:E3.
  { apply String.eqb_eq in E3. subst. exists Min. split; [reflexivity |].
    intros l v1 vs Hl _. now apply agg_min_of. }
  destruct (String.eqb name "close") eqn:E4.
  { apply String.eqb_eq in E4. subst. exists Last. split; [reflexivity |].
    intros l v1 vs Hl _. now apply agg_last_of. }
  cbn [orb].
  destruct (contains "volume" name).
  - exists Sum. split; [reflexivity |]. intros l v1 vs Hl Hex.
    cbn [apply_agg]. now rewrite agg_sum_of, Hl, exact_int64.
  - exists Last. split; [reflexivity |]. intros l v1 vs Hl _. now apply agg_last_of.
Qed.

Lemma dict_set_for (ohlc : list string) (c : string) (f : aggfun)
    (d : list (label * aggfun)) :
  dict_for ohlc d -> agg_for ohlc c = Some f ->
  dict_for ohlc (dict_set (Flat c) f d).
Proof.
  intros Hd Hf. induction d as [| [k0 f0] d IH]; cbn [dict_set].
  - constructor; [now exists c | constructor].
  - inversion Hd as [| ? ? Hhd Htl]; subst.
    destruct (label_eqb (Flat c) k0); constructor.
    + now exists c.
    + exact Htl.
    + exact Hhd.
    + exact (IH Htl).
Qed.

Lemma build_agg_dict_get (ohlc : list string) (cols : list label)
    (acc d : list (label * aggfun)) :
  build_agg_dict ohlc cols acc = Ok d ->
  dict_for ohlc acc ->
  dict_for ohlc d /\
  forall c f, agg_for ohlc c = Some f ->
              In (Flat c) cols \/ dict_get (Flat c) acc = Some f ->
              dict_get (Flat c) d = Some f.
Proof.
  revert acc. induction cols as [| [col | g fld] cols IH]; intros acc Hb Hacc;
    cbn [build_agg_dict] in Hb.
  - injection Hb as <-. split; [exact Hacc |]. intros c f _ [[] | H]; exact H.
  - set (acc' := match agg_for ohlc col with
                 | Some f => dict_set (Flat col) f acc
                 | None => acc
                 end) in *.
    assert (Hacc' : dict_for ohlc acc').
    { unfold acc'. destruct (agg_for ohlc col) as [f0 |] eqn:Hf0; [| exact Hacc].
      now apply dict_set_for. }
    destruct (IH acc' Hb Hacc') as [IH1 IH2]. split; [exact IH1 |].
    intros c f Hf Hc. apply IH2; [exact Hf |].
    destruct Hc as [[[= ->] | Hin] | Hget]; [right | now left | right].
    + unfold acc'. rewrite Hf, dict_get_set, label_eqb_refl. reflexivity.
    + unfold acc'. destruct (agg_for ohlc col) as [f0 |] eqn:Hf0; [| exact Hget].
      rewrite dict_get_set. destruct (label_eqb (Flat c) (Flat col)) eqn:E; [| exact Hget].
      apply label_eqb_eq in E. injection E as ->. congruence.
  - discriminate.
Qed.

(** The cell of an aggregated row under the renamed column [(Price, c)]. *)
Lemma cell_at_price (ohlc : list string) (d : list (label * aggfun))
    (h : label * aggfun -> cell) (c : string) (f : aggfun) :
  dict_for ohlc d ->
  dict_get (Flat c) d = Some f ->
  cell_at (map (fun k => Multi "Price" (label_name k)) (map fst d))
          (Multi "Price" c) (map h d) = h (Flat c, f).
Proof.
  induction d as [| [k0 f0] d IH]; intros Hd Hget; [discriminate |].
  inversion Hd as [| ? ? (c0 & Hk0 & _) Hd']; subst. cbn [fst] in Hk0. subst k0.
  cbn [dict_get] in Hget. unfold cell_at. cbn [map fst col_pos].
  cbn [label_name label_eqb] in *. rewrite String.eqb_refl. cbn [andb].
  destruct (String.eqb c c0) eqn:E.
  - apply String.eqb_eq in E. subst c0. injection Hget as ->. reflexivity.
  - specialize (IH Hd' Hget). unfold cell_at in IH.
    destruct (col_pos (Multi "Price" c) _) as [j |]; exact IH.
Qed.

(** The frame [toTimeframe] returns, in terms of its dictionary. *)
Lemma toTimeframe_ok (cal : Calendar) (data out : DataFrame) (timeframe : tf)
    (ohlc : option (list string)) :
  toTimeframe cal data timeframe ohlc = Ok out ->
  exists d r,
    build_agg_dict (match ohlc with Some l => l | None => default_ohlc end)
      (columns data) [] = Ok d /\
    resample_agg cal (freq_of timeframe) LeftEdges d data = Ok r /\
    out = mkDF (map (fun c => Multi "Price" (label_name c)) (map fst d))
               (filter (fun r => existsb notna (snd r)) (rows r)).
Proof.
  unfold toTimeframe. intros H.
  destruct (build_agg_dict _ (columns data) []) as [d |] eqn:Hd; cbn [bind] in H;
    [| discriminate].
  destruct (resample_agg cal (freq_of timeframe) LeftEdges d data) as [r |] eqn:Hr;
    cbn [bind] in H; [| discriminate].
  cbn [columns rows dropna_all] in H.
  rewrite (proj1 (resample_agg_rows _ _ _ _ _ _ Hr)) in H.
  unfold from_tuples in H.
  destruct (map (fun c => Multi "Price" (label_name c)) (map fst d)) as [| k ks] eqn:Hk;
    cbn [bind] in H; [discriminate |].
  injection H as <-. exists d, r. rewrite Hk. repeat split; auto.
Qed.

(* ------------------------------------------------------------------ *)
(** ** Aggregation rules of a period *)

(** C2. On a frame with distinct column labels, whatever the order of its
    rows, for a period whose rows, taken in the order of their timestamps,
    hold under a column the numbers [v1], then [vs] (numbers that the
    columns hold and add exactly, NaN cells left out): the bar [toTimeframe]
    emits for the period has, under that column, Open = [v1], High = the
    maximum, Low = the minimum, Close = the last value, and for every other
    column the sum if its lowercased name contains "volume" (Volume itself
    included) and the last value otherwise.  The bar of the intraday branch
    of [convert], whose dictionary has the five OHLCV columns only, is
    (first Open, max High, min Low, last Close, sum Volume). *)
Theorem period_aggregation_rules (cal : Calendar) (data : DataFrame) :
  distinct (columns data) = true ->
  (forall timeframe out b c v1 vs,
     toTimeframe cal data timeframe None = Ok out ->
     In (Flat c) (columns data) ->
     values (column_of (columns data) (Flat c)
               (period_rows cal (freq_of timeframe) LeftEdges data b)) = v1 :: vs ->
     exact (v1 :: vs) ->
     exists bar,
       In (period_label cal (freq_of timeframe) LeftEdges data b, bar) (rows out) /\
       cell_at (columns out) (Multi "Price" c) bar = Some (period_rule c v1 vs)) /\
  (forall from_tf to_tf out b o1 os h1 hs l1 ls c1 cs v1 vs,
     convert cal data (from_tf, TInt to_tf) = Ok out ->
     values (column_of (columns data) (Flat "Open")
               (period_rows cal (py_str_int to_tf ++ "min") DefaultEdges data b))
     = o1 :: os ->
     values (column_of (columns data) (Flat "High")
               (period_rows cal (py_str_int to_tf ++ "min") DefaultEdges data b))
     = h1 :: hs ->
     values (column_of (columns data) (Flat "Low")
               (period_rows cal (py_str_int to_tf ++ "min") DefaultEdges data b))
     = l1 :: ls ->
     values (column_of (columns data) (Flat "Close")
               (period_rows cal (py_str_int to_tf ++ "min") DefaultEdges data b))
     = c1 :: cs ->
     values (column_of (columns data) (Flat "Volume")
               (period_rows cal (py_str_int to_tf ++ "min") DefaultEdges data b))
     = v1 :: vs ->
     exact (o1 :: os) -> exact (h1 :: hs) -> exact (l1 :: ls) -> exact (c1 :: cs) ->
     exact (v1 :: vs) ->
     columns out = [Flat "Open"; Flat "High"; Flat "Low"; Flat "Close"; Flat "Volume"] /\
     In (period_label cal (py_str_int to_tf ++ "min") DefaultEdges data b,
         [Some o1; Some (list_max h1 hs); Some (list_min l1 ls);
          Some (last cs c1); Some (sum_values (v1 :: vs))])
        (rows out)).
Proof.
  intros _. split.
  - intros timeframe out b c v1 vs Hout Hin Hcol Hex.
    destruct (toTimeframe_ok _ _ _ _ _ Hout) as (d & r & Hd & Hr & ->).
    cbn [columns rows].
    destruct (resample_agg_rows _ _ _ _ _ _ Hr) as (_ & _ & Hrows).
    destruct (build_agg_dict_get _ _ _ _ Hd (Forall_nil _)) as [Hfor Hget].
    destruct (agg_for_default c) as (f & Hf & Hrule).
    specialize (Hget c f Hf (or_introl Hin)).
    set (group := period_rows cal (freq_of timeframe) LeftEdges data b) in *.
    assert (Hcell : cell_at (map (fun k => Multi "Price" (label_name k)) (map fst d))
                      (Multi "Price" c) (agg_row (columns data) d group)
                    = Some (period_rule c v1 vs)).
    { unfold agg_row.
      rewrite (cell_at_price default_ohlc d _ c f Hfor Hget).
      now apply Hrule. }
    exists (agg_row (columns data) d group). split; [| exact Hcell].
    apply filter_In. split.
    + apply Hrows. intros Hnil. unfold group in Hcol. rewrite Hnil in Hcol.
      discriminate.
    + cbn [snd]. apply existsb_exists.
      exists (Some (period_rule c v1 vs)). split; [| reflexivity].
      eapply cell_at_In, Hcell.
  - intros from_tf to_tf out b o1 os h1 hs l1 ls c1 cs v1 vs Hout Ho Hh Hl Hc Hv
      _ _ _ _ Hex.
    unfold convert in Hout.
    destruct (py_floordiv to_tf from_tf) as [factor |]; cbn [bind] in Hout;
      [| discriminate].
    destruct ((factor <? 1) || negb (to_tf mod from_tf =? 0)); [discriminate |].
    cbn [resample_agg_obj] in Hout.
    destruct (resample_agg cal (py_str_int to_tf ++ "min") DefaultEdges ohlcv_agg data)
      as [r |] eqn:Hr; cbn [bind] in Hout; [| discriminate].
    injection Hout as <-. cbn [columns rows dropna_any].
    destruct (resample_agg_rows _ _ _ _ _ _ Hr) as (Hcols & _ & Hrows).
    split; [exact Hcols |].
    apply filter_In. split.
    + specialize (Hrows b). unfold agg_row in Hrows. cbn [map ohlcv_agg apply_agg] in Hrows.
      rewrite (agg_first_of _ _ _ Ho), (agg_max_of _ _ _ Hh), (agg_min_of _ _ _ Hl),
        (agg_last_of _ _ _ Hc), agg_sum_of, Hv, (exact_int64 _ Hex) in Hrows.
      apply Hrows. intros Hnil. rewrite Hnil in Ho. discriminate.
    + reflexivity.
Qed.

Lemma period_aggregation_rules_witness :
  (exists bar,
     In (period_label UtcMinutes.calendar "W-MON" LeftEdges MoreSamples.unsorted_week 0, bar)
        (rows MoreSamples.unsorted_week_by_week) /\
     cell_at (columns MoreSamples.unsorted_week_by_week) (Multi "Price" "Open") bar
     = Some 12) /\
  (exists bar,
     In (period_label UtcMinutes.calendar "W-MON" LeftEdges MoreSamples.unsorted_week 0, bar)
        (rows MoreSamples.unsorted_week_by_week) /\
     cell_at (columns MoreSamples.unsorted_week_by_week) (Multi "Price" "High") bar
     = Some 16) /\
  (exists bar,
     In (period_label UtcMinutes.calendar "W-MON" LeftEdges MoreSamples.unsorted_week 0, bar)
        (rows MoreSamples.unsorted_week_by_week) /\
     cell_at (columns MoreSamples.unsorted_week_by_week) (Multi "Price" "Close") bar
     = Some 15) /\
  (exists bar,
     In (period_label UtcMinutes.calendar "W-MON" LeftEdges MoreSamples.unsorted_week 0, bar)
        (rows MoreSamples.unsorted_week_by_week) /\
     cell_at (columns MoreSamples.unsorted_week_by_week) (Multi "Price" "Volume") bar
     = Some 600) /\
  (exists bar,
     In (period_label UtcMinutes.calendar "W-MON" LeftEdges MoreSamples.unsorted_week 0, bar)
        (rows MoreSamples.unsorted_week_by_week) /\
     cell_at (columns MoreSamples.unsorted_week_by_week) (Multi "Price" "Beta") bar
     = Some 3) /\
  In (period_label UtcMinutes.calendar "5min" DefaultEdges MoreSamples.base5_unsorted 0,
      [Some 10; Some 15; Some 10; Some 14; Some 500])
     (rows MoreSamples.base5_unsorted_by_5).
Proof.
  pose proof (period_aggregation_rules UtcMinutes.calendar MoreSamples.unsorted_week
                eq_refl) as [Hweek _].
  pose proof (period_aggregation_rules UtcMinutes.calendar MoreSamples.base5_unsorted
                eq_refl) as [_ Hmin].
  repeat split.
  - apply (Hweek (Some "week"%string) MoreSamples.unsorted_week_by_week 0
             "Open"%string 12 [14]); reflexivity || (cbn; tauto).
  - apply (Hweek (Some "week"%string) MoreSamples.unsorted_week_by_week 0
             "High"%string 12 [15; 16]); reflexivity || (cbn; tauto).
  - apply (Hweek (Some "week"%string) MoreSamples.unsorted_week_by_week 0
             "Close"%string 11 [15]); reflexivity || (cbn; tauto).
  - apply (Hweek (Some "week"%string) MoreSamples.unsorted_week_by_week 0
             "Volume"%string 200 [100; 300]); reflexivity || (cbn; tauto).
  - apply (Hweek (Some "week"%string) MoreSamples.unsorted_week_by_week 0
             "Beta"%string 1 [2; 3]); reflexivity || (cbn; tauto).
  - apply (Hmin 1 5 MoreSamples.base5_unsorted_by_5 0 10 [11; 12; 13; 14]
             11 [12; 13; 14; 15] 10 [11; 12; 13; 14] 10 [11; 12; 13; 14]
             100 [100; 100; 100; 100]);
      reflexivity.
Defined.

(** The branch of [convert] drops the row of every empty period: each row it
    returns aggregates a bin that holds at least one row of the input. *)
Lemma convert_intraday_no_empty_period (cal : Calendar) (data out : DataFrame)
    (from_tf to_tf t : Z) (cells : list cell) :
  convert cal data (from_tf, TInt to_tf) = Ok out ->
  In (t, cells) (rows out) ->
  exists b,
    t = period_label cal (py_str_int to_tf ++ "min") DefaultEdges data b /\
    period_rows cal (py_str_int to_tf ++ "min") DefaultEdges data b <> [].
Proof.
  intros Hout Hin. unfold convert in Hout.
  destruct (py_floordiv to_tf from_tf) as [factor |]; cbn [bind] in Hout;
    [| discriminate].
  destruct ((factor <? 1) || negb (to_tf mod from_tf =? 0)); [discriminate |].
  cbn [resample_agg_obj] in Hout.
  destruct (resample_agg cal (py_str_int to_tf ++ "min") DefaultEdges ohlcv_agg data)
    as [r |] eqn:Hr; cbn [bind] in Hout; [| discriminate].
  injection Hout as <-. cbn [rows dropna_any] in Hin.
  apply filter_In in Hin. destruct Hin as [Hin Hnotna]. cbn [snd] in Hnotna.
  destruct (resample_agg_rows _ _ _ _ _ _ Hr) as (_ & Hrows & _).
  destruct (Hrows t cells Hin) as (b & -> & ->).
  exists b. split; [reflexivity |].
  intros Hnil. rewrite Hnil in Hnotna. discriminate.
Qed.

(* ------------------------------------------------------------------ *)
(** ** Runs on the sample frames *)

Lemma convertMany_fail_fast_witness :
  match convertMany UtcMinutes.calendar Samples.two_symbols (1, TInt 5) with
  | Ok m =>
      map fst m = symbols Samples.two_symbols /\
      forall s out, In (s, out) m ->
                    convert UtcMinutes.calendar (getitem Samples.two_symbols s) (1, TInt 5)
                    = Ok out
  | Raise e =>
      exists pre s post,
        symbols Samples.two_symbols = pre ++ s :: post /\
        convert UtcMinutes.calendar (getitem Samples.two_symbols s) (1, TInt 5) = Raise e /\
        forall s', In s' pre ->
                   succeeds (convert UtcMinutes.calendar (getitem Samples.two_symbols s')
                               (1, TInt 5))
  end.
Proof.
  exact (convertMany_fail_fast UtcMinutes.calendar Samples.two_symbols (1, TInt 5)).
Defined.

(** The end-to-end scenario of the specification: five one-minute bars
    converted to one five-minute bar. *)
Example convert_five_minutes :
  convert UtcMinutes.calendar Samples.base5 (1, TInt 5) =
  Ok (mkDF Samples.ohlcv [(0, [Some 10; Some 15; Some 10; Some 14; Some 500])]).
Proof. reflexivity. Qed.

Example convert_five_to_twelve :
  convert UtcMinutes.calendar Samples.base5 (5, TInt 12) = Raise InvalidConversion.
Proof. reflexivity. Qed.

(** Accurate mode on the docstring's example succeeds: the weekly columns are
    the partial bars of the base series. *)
Example merge_absent_series_accurate :
  rmap (fun out => row_at 5760 (rows out))
    (mergeTimeframes UtcMinutes.calendar
       [(Some Samples.daily, Some "day"); (None, Some "week")]%string false) =
  Ok (Some [Some 11; Some 12; Some 10; Some 11; Some 200;
            Some 10; Some 12; Some 9; Some 11; Some 300]).
Proof. reflexivity. Qed.

(* ================================================================== *)
(** * Further properties of libs/TimeframeData.py *)

Lemma resample_agg_errors (cal : Calendar) (freq : string) (e : edges)
    (agg_dict : list (label * aggfun)) (df : DataFrame) (x : exn) :
  resample_agg cal freq e agg_dict df = Raise x ->
  (valid_freq cal freq = false /\ x = freq_error cal freq) \/
  (exists k, x = KeyError k) \/
  (agg_dict = [] /\ x = ValueError "No objects to concatenate").
Proof.
  unfold resample_agg.
  destruct (valid_freq cal freq); cbn [negb]; [| intros [= <-]; now left].
  destruct (missing_key (columns df) agg_dict) as [k |].
  - intros [= <-]. right. left. now eexists.
  - destruct agg_dict; [intros [= <-]; now right; right |].
    destruct (index df); discriminate.
Qed.

Lemma resample_agg_has_keys (cal : Calendar) (freq : string) (e : edges)
    (agg_dict : list (label * aggfun)) (df r : DataFrame) :
  resample_agg cal freq e agg_dict df = Ok r ->
  valid_freq cal freq = true /\ missing_key (columns df) agg_dict = None.
Proof.
  unfold resample_agg.
  destruct (valid_freq cal freq); [| discriminate].
  destruct (missing_key (columns df) agg_dict); [discriminate | auto].
Qed.

(** Every successful branch of [convert] is one [resample(...).agg(...)]
    followed by [dropna()]. *)
Lemma convert_ok_resample (cal : Calendar) (data out : DataFrame)
    (conversion : Z * target) :
  convert cal data conversion = Ok out ->
  exists freq r,
    resample_agg cal freq DefaultEdges ohlcv_agg data = Ok r /\ out = dropna_any r.
Proof.
  destruct conversion as [from_tf [n | s |]]; unfold convert;
    cbn [resample_agg_obj]; [| | discriminate].
  - destruct (py_floordiv n from_tf) as [factor |]; cbn [bind]; [| discriminate].
    destruct ((factor <? 1) || negb (n mod from_tf =? 0)); [discriminate |].
    destruct (resample_agg cal (py_str_int n ++ "min") DefaultEdges ohlcv_agg data)
      as [r |] eqn:Hr; cbn [bind]; [| discriminate].
    intros [= <-]. eauto.
  - destruct (endswith s "d");
      [| destruct (endswith s "w"); [| destruct (endswith s "m"); [| discriminate]]];
      match goal with
      | |- context [resample_agg cal ?f DefaultEdges ohlcv_agg data] =>
          destruct (resample_agg cal f DefaultEdges ohlcv_agg data) as [r |] eqn:Hr;
            cbn [bind]; [| discriminate]
      end;
      intros [= <-]; eauto.
Qed.

(** X1. A string target is never checked against the source timeframe:
    [convert] gives the same result whatever [from_tf] is, 0 included.  Its
    only exceptions are UnsupportedTimeframe, the KeyError of a missing
    column, and the exception [resample] raises for the alias built from the
    target when it does not accept it (a ZeroDivisionError for "0d"). *)
Theorem convert_string_target_ignores_source (cal : Calendar) (data : DataFrame)
    (from1 from2 : Z) (s : string) :
  convert cal data (from1, TStr s) = convert cal data (from2, TStr s) /\
  forall x, convert cal data (from1, TStr s) = Raise x ->
    x = UnsupportedTimeframe \/
    (exists k, x = KeyError k) \/
    (exists u, In u ["D"; "W"; "M"]%string /\
               valid_freq cal (drop_last s ++ u) = false /\
               x = freq_error cal (drop_last s ++ u)).
Proof.
  split; [reflexivity |].
  assert (H : forall u x,
             In u ["D"; "W"; "M"]%string ->
             (out <- resample_agg cal (drop_last s ++ u) DefaultEdges ohlcv_agg data ;;
              Ok (dropna_any out)) = Raise x ->
             x = UnsupportedTimeframe \/
             (exists k, x = KeyError k) \/
             (exists u, In u ["D"; "W"; "M"]%string /\
                        valid_freq cal (drop_last s ++ u) = false /\
                        x = freq_error cal (drop_last s ++ u))).
  { intros u x Hu Hx.
    destruct (resample_agg cal (drop_last s ++ u) DefaultEdges ohlcv_agg data)
      as [r |] eqn:Hr; cbn [bind] in Hx; [discriminate |].
    injection Hx as ->.
    destruct (resample_agg_errors _ _ _ _ _ _ Hr) as [[Hv ->] | [[k ->] | [Hd _]]].
    - right. right. exists u. auto.
    - right. left. now exists k.
    - discriminate. }
  intros x. unfold convert. cbn [resample_agg_obj].
  destruct (endswith s "d"); [apply H; cbn; tauto |].
  destruct (endswith s "w"); [apply H; cbn; tauto |].
  destruct (endswith s "m"); [apply H; cbn; tauto |].
  intros [= <-]. now left.
Qed.

Lemma convert_string_target_ignores_source_witness :
  convert UtcMinutes.calendar Samples.base5 (0, TStr "0d") = Raise ZeroDivisionError /\
  (ZeroDivisionError = UnsupportedTimeframe \/
   (exists k, ZeroDivisionError = KeyError k) \/
   (exists u, In u ["D"; "W"; "M"]%string /\
              valid_freq UtcMinutes.calendar (drop_last "0d" ++ u) = false /\
              ZeroDivisionError = freq_error UtcMinutes.calendar (drop_last "0d" ++ u))).
Proof.
  split; [reflexivity |].
  apply (proj2 (convert_string_target_ignores_source UtcMinutes.calendar Samples.base5
                  0 1 "0d") ZeroDivisionError).
  reflexivity.
Defined.



Lemma missing_key_none_ohlcv (df : DataFrame) :
  missing_key (columns df) ohlcv_agg = None -> has_ohlcv df = true.
Proof.
  unfold has_ohlcv. cbn [missing_key ohlcv_agg forallb fst].
  repeat match goal with
         | |- context [has_col ?c (columns df)] =>
             destruct (has_col c (columns df)); [| discriminate]
         end.
  reflexivity.
Qed.

(** X3. [convert] does not succeed on a frame that lacks one of the columns
    Open, High, Low, Close, Volume. *)
Theorem convert_needs_ohlcv (cal : Calendar) (data : DataFrame)
    (conversion : Z * target) :
  succeeds (convert cal data conversion) -> has_ohlcv data = true.
Proof.
  intros [out Hout].
  destruct (convert_ok_resample _ _ _ _ Hout) as (freq & r & Hr & _).
  apply missing_key_none_ohlcv. eapply resample_agg_has_keys, Hr.
Qed.

Lemma convert_needs_ohlcv_witness : has_ohlcv Samples.base5 = true.
Proof.
  apply (convert_needs_ohlcv UtcMinutes.calendar Samples.base5 (1, TInt 5)).
  eexists. reflexivity.
Defined.

Lemma unique_In (s : string) (l : list string) : In s (unique l) <-> In s l.
Proof.
  induction l as [| x l IH]; cbn [unique]; [tauto |].
  cbn [In]. rewrite filter_In, IH.
  destruct (String.eqb x s) eqn:E.
  - apply String.eqb_eq in E. subst. tauto.
  - apply String.eqb_neq in E. split.
    + intros [H | [H _]]; auto.
    + intros [H | H]; [auto |]. right. split; [exact H | reflexivity].
Qed.

Lemma unique_NoDup (l : list string) : NoDup (unique l).
Proof.
  induction l as [| x l IH]; cbn [unique]; constructor.
  - intros H. apply filter_In in H. destruct H as [_ H].
    rewrite String.eqb_refl in H. discriminate.
  - now apply NoDup_filter.
Qed.

Lemma dict_comp_head_raises (f : string -> result DataFrame) (s : string)
    (syms : list string) (x : exn) :
  f s = Raise x -> dict_comp f (s :: syms) = Raise x.
Proof. intros H. cbn [dict_comp]. now rewrite H. Qed.

(** X4. [convertMany] validates the conversion only through the per-symbol
    calls: on a table without columns it returns the empty map for every
    conversion, also one [convert] refuses; on any other table a refused
    conversion is raised (ZeroDivisionError for a source of 0,
    InvalidConversion for a target that is no multiple, InvalidTargetType). *)
Theorem convertMany_validates_per_symbol (cal : Calendar) (data : DataFrame) :
  (columns data = [] ->
   forall conversion, convertMany cal data conversion = Ok []) /\
  (columns data <> [] ->
   forall from_tf n,
     convertMany cal data (0, TInt n) = Raise ZeroDivisionError /\
     convertMany cal data (from_tf, TOther) = Raise InvalidTargetType /\
     (from_tf <> 0 -> n mod from_tf <> 0 ->
      convertMany cal data (from_tf, TInt n) = Raise InvalidConversion)).
Proof.
  unfold convertMany, symbols. split.
  - intros -> conversion. reflexivity.
  - intros Hne from_tf n.
    destruct (columns data) as [| c cols]; [contradiction |].
    cbn [map unique]. repeat split.
    + intros Hf Hmod. apply dict_comp_head_raises.
      unfold convert, py_floordiv.
      apply Z.eqb_neq in Hf. rewrite Hf. cbn [bind].
      apply Z.eqb_neq in Hmod. rewrite Hmod. cbn [negb].
      now rewrite orb_true_r.
Qed.

Lemma convertMany_validates_per_symbol_witness :
  convertMany UtcMinutes.calendar (mkDF [] [(0, [])]) (5, TInt 12) = Ok [] /\
  convertMany UtcMinutes.calendar Samples.two_symbols (5, TInt 12) = Raise InvalidConversion.
Proof.
  split.
  - apply (proj1 (convertMany_validates_per_symbol UtcMinutes.calendar
                    (mkDF [] [(0, [])]))). reflexivity.
  - apply (proj2 (convertMany_validates_per_symbol UtcMinutes.calendar
                    Samples.two_symbols)); [discriminate | lia | vm_compute; discriminate].
Defined.

(** X5. The map [convertMany] returns has one entry per distinct first-level
    value of the columns: no symbol twice, none left out. *)
Theorem convertMany_keys (cal : Calendar) (data : DataFrame)
    (conversion : Z * target) (m : list (string * DataFrame)) :
  convertMany cal data conversion = Ok m ->
  NoDup (map fst m) /\
  forall s, In s (map fst m) <-> exists c, In c (columns data) /\ level0 c = s.
Proof.
  intros Hm. unfold convertMany in Hm.
  pose proof (dict_comp_spec
                (fun symbol => convert cal (getitem data symbol) conversion)
                (symbols data)) as H.
  rewrite Hm in H. destruct H as [Hkeys _]. rewrite Hkeys. unfold symbols. split.
  - apply unique_NoDup.
  - intros s. rewrite unique_In, in_map_iff.
    split; intros (c & H1 & H2); exists c; auto.
Qed.

Lemma convertMany_keys_witness :
  NoDup (map fst [("AAA"%string, Samples.base5_by_5)]) /\
  forall s, In s (map fst [("AAA"%string, Samples.base5_by_5)]) <->
            exists c, In c (map (fun c => Multi "AAA" (label_name c)) Samples.ohlcv) /\
                      level0 c = s.
Proof.
  apply (convertMany_keys UtcMinutes.calendar
           (mkDF (map (fun c => Multi "AAA" (label_name c)) Samples.ohlcv)
                 (rows Samples.base5))
           (1, TInt 5)).
  reflexivity.
Defined.

(** X6. [symbolData] succeeds exactly on the symbols [convertMany] goes
    through and raises a ValueError on any other; each entry of the map of
    [convertMany] is [convert] applied to what [symbolData] returns for that
    symbol. *)
Theorem convertMany_entries_are_symbolData (cal : Calendar) (data : DataFrame)
    (conversion : Z * target) :
  (forall s, In s (symbols data) <-> succeeds (StockData.symbolData data s)) /\
  (forall s, ~ In s (symbols data) ->
             StockData.symbolData data s
             = Raise (ValueError ("Symbol " ++ s ++ " not found in the provided data."))) /\
  (forall m s out,
     convertMany cal data conversion = Ok m -> In (s, out) m ->
     exists d, StockData.symbolData data s = Ok d /\ convert cal d conversion = Ok out).
Proof.
  assert (Hin : forall s, In s (symbols data) <->
                          existsb (String.eqb s) (map level0 (columns data)) = true).
  { intros s. unfold symbols. rewrite unique_In, existsb_exists. split.
    - intros H. exists s. split; [exact H | apply String.eqb_refl].
    - intros (x & Hx & E). apply String.eqb_eq in E. now subst. }
  repeat split.
  - intros H. apply Hin in H. unfold StockData.symbolData. rewrite H. cbn [negb].
    now eexists.
  - intros [d Hd]. apply Hin. unfold StockData.symbolData in Hd.
    destruct (existsb (String.eqb s) (map level0 (columns data)));
      [reflexivity | discriminate].
  - intros s Hs. unfold StockData.symbolData.
    destruct (existsb (String.eqb s) (map level0 (columns data))) eqn:E;
      [| reflexivity].
    exfalso. apply Hs, Hin, E.
  - intros m s out Hm Hs. unfold convertMany in Hm.
    pose proof (dict_comp_spec
                  (fun symbol => convert cal (getitem data symbol) conversion)
                  (symbols data)) as H.
    rewrite Hm in H. destruct H as [Hkeys Hvals].
    exists (getitem data s). split; [| now apply Hvals].
    assert (Hsym : In s (symbols data))
      by (rewrite <- Hkeys; apply (in_map fst _ _ Hs)).
    apply Hin in Hsym. unfold StockData.symbolData. now rewrite Hsym.
Qed.

Lemma convertMany_entries_are_symbolData_witness :
  exists d,
    StockData.symbolData
      (mkDF (map (fun c => Multi "AAA" (label_name c)) Samples.ohlcv) (rows Samples.base5))
      "AAA" = Ok d /\
    convert UtcMinutes.calendar d (1, TInt 5) = Ok Samples.base5_by_5.
Proof.
  apply (proj2 (proj2 (convertMany_entries_are_symbolData UtcMinutes.calendar
           (mkDF (map (fun c => Multi "AAA" (label_name c)) Samples.ohlcv)
                 (rows Samples.base5))
           (1, TInt 5)))
           [("AAA"%string, Samples.base5_by_5)]).
  - reflexivity.
  - now left.
Defined.

(* ================================================================== *)
(** * Properties of libs/StockData.py *)

Lemma string_leb_trans (a b c : string) :
  String.leb a b = true -> String.leb b c = true -> String.leb a c = true.
Proof.
  unfold String.leb. revert b c.
  induction a as [| x a IH]; intros [| y b] [| z c]; cbn [String.compare];
    try reflexivity; try discriminate.
  unfold Ascii.compare.
  destruct (N.compare_spec (N_of_ascii x) (N_of_ascii y)) as [Hxy | Hxy | Hxy];
    destruct (N.compare_spec (N_of_ascii y) (N_of_ascii z)) as [Hyz | Hyz | Hyz];
    destruct (N.compare_spec (N_of_ascii x) (N_of_ascii z)) as [Hxz | Hxz | Hxz];
    try lia; try discriminate; try reflexivity.
  apply IH.
Qed.

Lemma string_leb_false (a b : string) :
  String.leb a b = false -> String.leb b a = true.
Proof.
  intros H. destruct (String.leb_total a b) as [H' | H']; congruence.
Qed.

Lemma insert_sorted_comm (x y : string) (l : list string) :
  StockData.insert_sorted x (StockData.insert_sorted y l) =
  StockData.insert_sorted y (StockData.insert_sorted x l).
Proof.
  induction l as [| z l IH]; cbn [StockData.insert_sorted].
  - destruct (String.leb x y) eqn:Exy, (String.leb y x) eqn:Eyx; try reflexivity.
    + now rewrite (String.leb_antisym x y Exy Eyx).
    + apply string_leb_false in Exy. congruence.
  - destruct (String.leb y z) eqn:Eyz, (String.leb x z) eqn:Exz;
      cbn [StockData.insert_sorted]; rewrite ?Eyz, ?Exz.
    + destruct (String.leb x y) eqn:Exy, (String.leb y x) eqn:Eyx; try reflexivity.
      * now rewrite (String.leb_antisym x y Exy Eyx).
      * apply string_leb_false in Exy. congruence.
    + replace (String.leb x y) with false; [reflexivity |].
      destruct (String.leb x y) eqn:Exy; [| reflexivity].
      rewrite (string_leb_trans x y z Exy Eyz) in Exz. discriminate.
    + replace (String.leb y x) with false; [reflexivity |].
      destruct (String.leb y x) eqn:Eyx; [| reflexivity].
      rewrite (string_leb_trans y x z Eyx Exz) in Eyz. discriminate.
    + now rewrite IH.
Qed.

Lemma sorted_permutation (l l' : list string) :
  Permutation l l' -> StockData.sorted l = StockData.sorted l'.
Proof.
  unfold StockData.sorted.
  induction 1 as [| x l l' _ IH | x y l | l l' l'' _ IH1 _ IH2]; cbn [fold_right].
  - reflexivity.
  - now rewrite IH.
  - apply insert_sorted_comm.
  - congruence.
Qed.

Lemma str_get_set_same {V : Type} (k : string) (v : V) (d : list (string * V)) :
  str_get k (str_set k v d) = Some v.
Proof.
  induction d as [| [k' v'] d IH]; cbn [str_set str_get].
  - now rewrite String.eqb_refl.
  - destruct (String.eqb k k') eqn:E; cbn [str_get]; rewrite ?String.eqb_refl, ?E; auto.
Qed.

Lemma str_get_set_other {V : Type} (k k0 : string) (v : V) (d : list (string * V)) :
  k0 <> k -> str_get k0 (str_set k v d) = str_get k0 d.
Proof.
  intros Hne. induction d as [| [k' v'] d IH]; cbn [str_set str_get].
  - apply String.eqb_neq in Hne. now rewrite Hne.
  - destruct (String.eqb k k') eqn:E; cbn [str_get].
    + apply String.eqb_eq in E. subst k'.
      apply String.eqb_neq in Hne. now rewrite Hne.
    + now rewrite IH.
Qed.

Section CacheProperties.

Variable sha256_hex : string -> string.
Variable yf_download : nat -> list string -> string -> string -> DataFrame.
Variable cache_dir : string.

(** X7. The cache file does not depend on the order in which the symbols are
    listed: the names are sorted before they are hashed. *)
Theorem cache_file_order_insensitive (symbols symbols' : list string)
    (interval period : string) :
  Permutation symbols symbols' ->
  StockData._get_cache_file sha256_hex cache_dir symbols interval period =
  StockData._get_cache_file sha256_hex cache_dir symbols' interval period.
Proof.
  intros Hp. unfold StockData._get_cache_file.
  now rewrite (sorted_permutation symbols symbols' Hp).
Qed.

(** X8. After [get_data] has answered a request, the same request, with the
    symbols in any order, is answered from the cache: it returns the same
    table, downloads nothing and leaves the cache as it is. *)
Theorem get_data_second_call_hits_cache (w : StockData.World)
    (symbols symbols' : list string) (interval period : string) :
  Permutation symbols symbols' ->
  StockData.get_data sha256_hex yf_download cache_dir
    (snd (StockData.get_data sha256_hex yf_download cache_dir w symbols interval period))
    symbols' interval period =
  StockData.get_data sha256_hex yf_download cache_dir w symbols interval period.
Proof.
  intros Hp. unfold StockData.get_data, StockData.refresh_data, StockData._get_cache_file.
  rewrite <- (sorted_permutation symbols symbols' Hp).
  match goal with
  | |- context [str_get ?k (StockData.files w)] =>
      destruct (str_get k (StockData.files w)) as [d |] eqn:E
  end.
  - cbn [snd]. now rewrite E.
  - cbn [snd StockData.files]. now rewrite str_get_set_same.
Qed.

(** X9. [refresh_data] downloads even when the request is cached, and
    replaces the cached table: the next [get_data] for the request returns
    the table just downloaded, without a further download. *)
Theorem refresh_data_replaces_cache (w : StockData.World)
    (symbols symbols' : list string) (interval period : string) :
  Permutation symbols symbols' ->
  let r := StockData.refresh_data sha256_hex yf_download cache_dir w symbols interval period in
  fst r = yf_download (StockData.fetched w) symbols interval period /\
  StockData.fetched (snd r) = S (StockData.fetched w) /\
  StockData.get_data sha256_hex yf_download cache_dir (snd r) symbols' interval period = r.
Proof.
  intros Hp. cbv zeta. repeat split.
  unfold StockData.get_data, StockData.refresh_data, StockData._get_cache_file.
  rewrite <- (sorted_permutation symbols symbols' Hp).
  cbn [snd StockData.files]. now rewrite str_get_set_same.
Qed.

(** X10. A request that is stored under another cache file does not disturb
    a cached table: after [get_data] or [refresh_data] for the other request,
    [get_data] still answers the first one with the table that was cached. *)
Theorem get_data_keeps_other_entries (w : StockData.World)
    (symbols symbols2 : list string) (interval period interval2 period2 : string)
    (d : DataFrame) :
  StockData._get_cache_file sha256_hex cache_dir symbols interval period <>
  StockData._get_cache_file sha256_hex cache_dir symbols2 interval2 period2 ->
  str_get (StockData._get_cache_file sha256_hex cache_dir symbols interval period)
          (StockData.files w) = Some d ->
  fst (StockData.get_data sha256_hex yf_download cache_dir
         (snd (StockData.get_data sha256_hex yf_download cache_dir w symbols2 interval2 period2))
         symbols interval period) = d /\
  fst (StockData.get_data sha256_hex yf_download cache_dir
         (snd (StockData.refresh_data sha256_hex yf_download cache_dir w symbols2 interval2 period2))
         symbols interval period) = d.
Proof.
  intros Hne Hd.
  assert (Hr : fst (StockData.get_data sha256_hex yf_download cache_dir
                      (snd (StockData.refresh_data sha256_hex yf_download cache_dir
                              w symbols2 interval2 period2))
                      symbols interval period) = d).
  { unfold StockData.get_data, StockData.refresh_data. cbn [snd StockData.files].
    rewrite str_get_set_other by exact Hne. now rewrite Hd. }
  split; [| exact Hr].
  unfold StockData.get_data at 2.
  destruct (str_get (StockData._get_cache_file sha256_hex cache_dir symbols2
                       interval2 period2) (StockData.files w)) as [d2 |];
    [| exact Hr].
  cbn [snd]. unfold StockData.get_data. now rewrite Hd.
Qed.

End CacheProperties.

Lemma cache_file_order_insensitive_witness :
  StockData._get_cache_file MoreSamples.toy_digest "cache"
    ["TSLA"; "AAPL"; "GME"]%string "1m" "5d" =
  StockData._get_cache_file MoreSamples.toy_digest "cache"
    ["GME"; "TSLA"; "AAPL"]%string "1m" "5d".
Proof.
  apply (cache_file_order_insensitive MoreSamples.toy_digest "cache").
  apply Permutation_sym, (Permutation_cons_app ["TSLA"; "AAPL"]%string []).
  rewrite app_nil_r. apply Permutation_refl.
Defined.

Lemma get_data_second_call_hits_cache_witness :
  StockData.get_data MoreSamples.toy_digest MoreSamples.toy_download "cache"
    (snd (StockData.get_data MoreSamples.toy_digest MoreSamples.toy_download "cache"
            (StockData.mkWorld [] 0) ["TSLA"; "AAPL"]%string "1m" "5d"))
    ["AAPL"; "TSLA"]%string "1m" "5d" =
  StockData.get_data MoreSamples.toy_digest MoreSamples.toy_download "cache"
    (StockData.mkWorld [] 0) ["TSLA"; "AAPL"]%string "1m" "5d".
Proof.
  apply (get_data_second_call_hits_cache MoreSamples.toy_digest MoreSamples.toy_download
           "cache" (StockData.mkWorld [] 0)).
  apply perm_swap.
Defined.

Lemma refresh_data_replaces_cache_witness :
  let r := StockData.refresh_data MoreSamples.toy_digest MoreSamples.toy_download "cache"
             (StockData.mkWorld [] 0) ["TSLA"; "AAPL"]%string "1m" "5d" in
  fst r = MoreSamples.toy_download 0 ["TSLA"; "AAPL"]%string "1m" "5d" /\
  StockData.fetched (snd r) = 1%nat /\
  StockData.get_data MoreSamples.toy_digest MoreSamples.toy_download "cache" (snd r)
    ["AAPL"; "TSLA"]%string "1m" "5d" = r.
Proof.
  apply (refresh_data_replaces_cache MoreSamples.toy_digest MoreSamples.toy_download
           "cache" (StockData.mkWorld [] 0)).
  apply perm_swap.
Defined.

Lemma get_data_keeps_other_entries_witness :
  fst (StockData.get_data MoreSamples.toy_digest MoreSamples.toy_download "cache"
         (snd (StockData.get_data MoreSamples.toy_digest MoreSamples.toy_download "cache"
                 (StockData.mkWorld [("cache/stockdata_AAPL|1m|5d.pkl"%string, Samples.daily)] 0)
                 ["AAPL"]%string "1d" "1y"))
         ["AAPL"]%string "1m" "5d") = Samples.daily /\
  fst (StockData.get_data MoreSamples.toy_digest MoreSamples.toy_download "cache"
         (snd (StockData.refresh_data MoreSamples.toy_digest MoreSamples.toy_download "cache"
                 (StockData.mkWorld [("cache/stockdata_AAPL|1m|5d.pkl"%string, Samples.daily)] 0)
                 ["AAPL"]%string "1d" "1y"))
         ["AAPL"]%string "1m" "5d") = Samples.daily.
Proof.
  apply (get_data_keeps_other_entries MoreSamples.toy_digest MoreSamples.toy_download
           "cache"
           (StockData.mkWorld [("cache/stockdata_AAPL|1m|5d.pkl"%string, Samples.daily)] 0)
           ["AAPL"]%string ["AAPL"]%string "1m" "5d" "1d" "1y" Samples.daily).
  - vm_compute. discriminate.
  - reflexivity.
Defined.

(* ================================================================== *)
(** * Further properties of [toTimeframe] *)

Lemma resample_agg_all_rows (cal : Calendar) (freq : string) (e : edges)
    (agg_dict : list (label * aggfun)) (df r : DataFrame) :
  resample_agg cal freq e agg_dict df = Ok r ->
  rows r = map (fun b => (period_label cal freq e df b,
                          agg_row (columns df) agg_dict (period_rows cal freq e df b)))
               (bin_range cal freq e df).
Proof.
  unfold resample_agg, bin_range, period_rows, period_label, origin_of.
  destruct (negb (valid_freq cal freq)); [discriminate |].
  destruct (missing_key (columns df) agg_dict); [discriminate |].
  destruct agg_dict as [| kf d'] eqn:Hd; [discriminate |]. rewrite <- Hd. clear Hd.
  destruct (index df) as [| t0 ts]; intros [= <-]; reflexivity.
Qed.

Lemma filter_all {A : Type} (f : A -> bool) (l : list A) :
  (forall x, In x l -> f x = true) -> filter f l = l.
Proof.
  induction l as [| x l IH]; intros H; cbn [filter]; [reflexivity |].
  rewrite (H x (or_introl eq_refl)). f_equal. apply IH. intros y Hy. apply H. now right.
Qed.

Lemma dict_get_In {V : Type} (k : label) (v : V) (d : list (label * V)) :
  dict_get k d = Some v -> In (k, v) d.
Proof.
  induction d as [| [k0 v0] d IH]; cbn [dict_get]; [discriminate |].
  destruct (label_eqb k k0) eqn:E.
  - apply label_eqb_eq in E. intros [= ->]. subst. now left.
  - intros H. right. auto.
Qed.

Lemma dict_set_In {V : Type} (k k' : label) (v v' : V) (d : list (label * V)) :
  In (k', v') (dict_set k v d) -> (k', v') = (k, v) \/ In (k', v') d.
Proof.
  induction d as [| [k0 v0] d IH]; cbn [dict_set].
  - intros [H | []]. left. now symmetry.
  - destruct (label_eqb k k0).
    + intros [H | H]; [left; now symmetry | right; now right].
    + intros [H | H]; [right; now left |].
      destruct (IH H) as [H' | H']; [now left | right; now right].
Qed.

(** Where the entries of [agg_dict] come from. *)
Lemma build_agg_dict_entries (ohlc : list string) (cols : list label)
    (acc d : list (label * aggfun)) :
  build_agg_dict ohlc cols acc = Ok d ->
  forall k f, In (k, f) d ->
    In (k, f) acc \/
    exists c, k = Flat c /\ In (Flat c) cols /\ agg_for ohlc c = Some f.
Proof.
  revert acc. induction cols as [| [col | g fld] cols IH]; intros acc Hb k f Hin;
    cbn [build_agg_dict] in Hb.
  - injection Hb as <-. now left.
  - destruct (IH _ Hb k f Hin) as [Hacc | (c & -> & Hc & Hf)].
    + destruct (agg_for ohlc col) as [f0 |] eqn:Hf0; [| now left].
      destruct (dict_set_In _ _ _ _ _ Hacc) as [[= -> ->] | H]; [| now left].
      right. exists col. repeat split; auto. now left.
    + right. exists c. repeat split; auto. now right.
  - discriminate.
Qed.

Lemma build_agg_dict_multi (ohlc : list string) (cols : list label)
    (acc : list (label * aggfun)) :
  existsb is_multi cols = true ->
  build_agg_dict ohlc cols acc
  = Raise (AttributeError "'tuple' object has no attribute 'lower'").
Proof.
  revert acc. induction cols as [| [col | g fld] cols IH]; intros acc H;
    cbn [build_agg_dict existsb is_multi orb] in *; [discriminate | auto | reflexivity].
Qed.

Lemma build_agg_dict_plain (ohlc : list string) (cols : list label)
    (acc : list (label * aggfun)) :
  existsb is_multi cols = false ->
  succeeds (build_agg_dict ohlc cols acc).
Proof.
  revert acc. induction cols as [| [col | g fld] cols IH]; intros acc H;
    cbn [build_agg_dict existsb is_multi orb] in *;
    [now eexists | auto | discriminate].
Qed.

Lemma missing_key_none (cols : list label) (d : list (label * aggfun)) :
  (forall k f, In (k, f) d -> In k cols) -> missing_key cols d = None.
Proof.
  induction d as [| [k f] d IH]; intros H; cbn [missing_key]; [reflexivity |].
  replace (has_col k cols) with true.
  - apply IH. intros k' f' Hin. apply (H k' f'). now right.
  - symmetry. apply has_col_In. apply (H k f). now left.
Qed.

Lemma agg_for_default_volume (c : string) :
  agg_for default_ohlc c = Some Sum <-> contains "volume" (lower c) = true.
Proof.
  unfold agg_for.
  change (map lower default_ohlc) with ["open"; "high"; "low"; "close"]%string.
  cbn [existsb]. generalize (lower c). intros name.
  destruct (String.eqb name "open") eqn:E1;
    [apply String.eqb_eq in E1; subst; cbn; split; discriminate |].
  destruct (String.eqb name "high") eqn:E2;
    [apply String.eqb_eq in E2; subst; cbn; split; discriminate |].
  destruct (String.eqb name "low") eqn:E3;
    [apply String.eqb_eq in E3; subst; cbn; split; discriminate |].
  destruct (String.eqb name "close") eqn:E4;
    [apply String.eqb_eq in E4; subst; cbn; split; discriminate |].
  cbn [orb]. destruct (contains "volume" name); split; congruence.
Qed.

(** X11. [toTimeframe] with the default [ohlc] emits one row for every bin
    from the first to the last when the frame has a column whose lowercased
    name contains "volume": the sum of an empty bin is 0, so no row is all
    NaN; the row of an empty bin holds 0 under that column. *)
Theorem toTimeframe_volume_emits_every_bin (cal : Calendar) (data out : DataFrame)
    (timeframe : tf) (c : string) :
  In (Flat c) (columns data) ->
  contains "volume" (lower c) = true ->
  toTimeframe cal data timeframe None = Ok out ->
  index out = map (period_label cal (freq_of timeframe) LeftEdges data)
                  (bin_range cal (freq_of timeframe) LeftEdges data) /\
  forall b, In b (bin_range cal (freq_of timeframe) LeftEdges data) ->
            period_rows cal (freq_of timeframe) LeftEdges data b = [] ->
            exists bar,
              In (period_label cal (freq_of timeframe) LeftEdges data b, bar) (rows out) /\
              cell_at (columns out) (Multi "Price" c) bar = Some 0.
Proof.
  intros Hc Hvol Hout.
  destruct (toTimeframe_ok _ _ _ _ _ Hout) as (d & r & Hd & Hr & ->).
  destruct (build_agg_dict_get _ _ _ _ Hd (Forall_nil _)) as [Hfor Hget].
  apply agg_for_default_volume in Hvol.
  specialize (Hget c Sum Hvol (or_introl Hc)).
  pose proof (resample_agg_all_rows _ _ _ _ _ _ Hr) as Hrows.
  assert (Hkeep : forall x, In x (rows r) -> existsb notna (snd x) = true).
  { intros [t cells] Hin. rewrite Hrows in Hin.
    apply in_map_iff in Hin. destruct Hin as (b & [= <- <-] & _).
    cbn [snd]. apply existsb_exists.
    exists (apply_agg Sum (column_of (columns data) (Flat c)
                             (period_rows cal (freq_of timeframe) LeftEdges data b))).
    split; [| reflexivity].
    unfold agg_row. apply dict_get_In in Hget.
    apply (in_map (fun '(c0, f) =>
                     apply_agg f (column_of (columns data) c0
                                    (period_rows cal (freq_of timeframe) LeftEdges data b)))
                  _ _ Hget). }
  unfold index. cbn [rows columns]. rewrite (filter_all (A := Z * list cell)
             (fun r0 : Z * list cell => existsb notna (snd r0)) _ Hkeep), Hrows.
  split.
  - rewrite map_map. reflexivity.
  - intros b Hb Hempty. eexists. split.
    + apply (in_map (fun b0 => (period_label cal (freq_of timeframe) LeftEdges data b0,
                                agg_row (columns data) d
                                  (period_rows cal (freq_of timeframe) LeftEdges data b0)))
                    _ _ Hb).
    + unfold agg_row. rewrite (cell_at_price default_ohlc d _ c Sum Hfor Hget).
      now rewrite Hempty.
Qed.

Lemma toTimeframe_volume_emits_every_bin_witness :
  index MoreSamples.fri_mon_by_day
  = map (period_label UtcMinutes.calendar "D" LeftEdges Samples.fri_mon)
        (bin_range UtcMinutes.calendar "D" LeftEdges Samples.fri_mon) /\
  forall b, In b (bin_range UtcMinutes.calendar "D" LeftEdges Samples.fri_mon) ->
            period_rows UtcMinutes.calendar "D" LeftEdges Samples.fri_mon b = [] ->
            exists bar,
              In (period_label UtcMinutes.calendar "D" LeftEdges Samples.fri_mon b, bar)
                 (rows MoreSamples.fri_mon_by_day) /\
              cell_at (columns MoreSamples.fri_mon_by_day) (Multi "Price" "Volume") bar
              = Some 0.
Proof.
  apply (toTimeframe_volume_emits_every_bin UtcMinutes.calendar Samples.fri_mon
           MoreSamples.fri_mon_by_day (Some "day"%string) "Volume");
    [cbn; tauto | reflexivity | reflexivity].
Defined.

(** X12. [toTimeframe] with the default [ohlc] on a frame none of whose
    columns has "volume" in its lowercased name drops every empty period:
    each row it returns aggregates a bin that holds an input row. *)
Theorem toTimeframe_without_volume_drops_empty (cal : Calendar) (data out : DataFrame)
    (timeframe : tf) (t : Z) (cells : list cell) :
  (forall c, In (Flat c) (columns data) -> contains "volume" (lower c) = false) ->
  toTimeframe cal data timeframe None = Ok out ->
  In (t, cells) (rows out) ->
  exists b,
    t = period_label cal (freq_of timeframe) LeftEdges data b /\
    period_rows cal (freq_of timeframe) LeftEdges data b <> [].
Proof.
  intros Hnovol Hout Hin.
  destruct (toTimeframe_ok _ _ _ _ _ Hout) as (d & r & Hd & Hr & ->).
  cbn [rows] in Hin. apply filter_In in Hin. destruct Hin as [Hin Hnum].
  cbn [snd] in Hnum.
  destruct (resample_agg_rows _ _ _ _ _ _ Hr) as (_ & Hrows & _).
  destruct (Hrows t cells Hin) as (b & -> & ->).
  exists b. split; [reflexivity |].
  intros Hempty. rewrite Hempty in Hnum.
  apply existsb_exists in Hnum. destruct Hnum as (x & Hx & Hnotna).
  unfold agg_row in Hx. apply in_map_iff in Hx.
  destruct Hx as ([k f] & <- & Hkf).
  destruct (build_agg_dict_entries _ _ _ _ Hd k f Hkf) as [[] | (c & -> & Hc & Hf)].
  destruct f; try discriminate.
  apply agg_for_default_volume in Hf. rewrite (Hnovol c Hc) in Hf. discriminate.
Qed.

Lemma toTimeframe_without_volume_drops_empty_witness :
  exists b,
    5760 = period_label UtcMinutes.calendar "D" LeftEdges MoreSamples.prices_only b /\
    period_rows UtcMinutes.calendar "D" LeftEdges MoreSamples.prices_only b <> [].
Proof.
  apply (toTimeframe_without_volume_drops_empty UtcMinutes.calendar
           MoreSamples.prices_only MoreSamples.prices_only_by_day (Some "day"%string)
           5760 [Some 11; Some 12; Some 10; Some 11]).
  - intros c Hc. cbn in Hc.
    destruct Hc as [[= <-] | [[= <-] | [[= <-] | [[= <-] | []]]]]; reflexivity.
  - reflexivity.
  - cbn. tauto.
Defined.

(** X13. [toTimeframe] cannot read a frame with a two-level column label:
    [col.lower()] raises AttributeError.  Its own output has such labels, so
    feeding a non-empty result back into [toTimeframe] always fails. *)
Theorem toTimeframe_rejects_two_level_labels (cal : Calendar) (data : DataFrame)
    (timeframe : tf) (ohlc : option (list string)) :
  (existsb is_multi (columns data) = true ->
   toTimeframe cal data timeframe ohlc
   = Raise (AttributeError "'tuple' object has no attribute 'lower'")) /\
  (forall out timeframe' ohlc',
     toTimeframe cal data timeframe ohlc = Ok out ->
     columns out <> [] ->
     toTimeframe cal out timeframe' ohlc'
     = Raise (AttributeError "'tuple' object has no attribute 'lower'")).
Proof.
  assert (H : forall df tf0 ohlc0,
             existsb is_multi (columns df) = true ->
             toTimeframe cal df tf0 ohlc0
             = Raise (AttributeError "'tuple' object has no attribute 'lower'")).
  { intros df tf0 ohlc0 Hm. unfold toTimeframe.
    now rewrite build_agg_dict_multi. }
  split; [apply H |].
  intros out tf' ohlc' Hout Hne. apply H.
  destruct (toTimeframe_ok _ _ _ _ _ Hout) as (d & r & _ & _ & ->).
  cbn [columns] in *. destruct (map fst d) as [| k ks]; [contradiction | reflexivity].
Qed.

Lemma toTimeframe_rejects_two_level_labels_witness :
  toTimeframe UtcMinutes.calendar Samples.daily_by_week (Some "month"%string) None
  = Raise (AttributeError "'tuple' object has no attribute 'lower'").
Proof.
  apply (proj2 (toTimeframe_rejects_two_level_labels UtcMinutes.calendar Samples.daily
                  (Some "week"%string) None)
           Samples.daily_by_week (Some "month"%string) None);
    [reflexivity | discriminate].
Defined.

(** X14. A column that is listed in [ohlc] but whose lowercased name contains
    none of "open", "high", "low", "close" gets no entry in [agg_dict]:
    [toTimeframe] returns a frame without that column. *)
Theorem toTimeframe_drops_unmatched_ohlc_columns (cal : Calendar)
    (data out : DataFrame) (timeframe : tf) (ohlc : list string) (col : string) :
  existsb (String.eqb (lower col)) (map lower ohlc) = true ->
  contains "open" (lower col) = false ->
  contains "high" (lower col) = false ->
  contains "low" (lower col) = false ->
  contains "close" (lower col) = false ->
  toTimeframe cal data timeframe (Some ohlc) = Ok out ->
  ~ In (Multi "Price" col) (columns out).
Proof.
  intros Hin Ho Hh Hl Hc Hout Hcol.
  destruct (toTimeframe_ok _ _ _ _ _ Hout) as (d & r & Hd & _ & ->).
  cbn [columns] in Hcol. rewrite map_map in Hcol. apply in_map_iff in Hcol.
  destruct Hcol as ([k f] & Hk & Hkf). cbn [fst] in Hk.
  destruct (build_agg_dict_entries _ _ _ _ Hd k f Hkf) as [[] | (c & -> & _ & Hf)].
  cbn [label_name] in Hk. injection Hk as ->.
  unfold agg_for in Hf. rewrite Hin, Ho, Hh, Hl, Hc in Hf. discriminate.
Qed.

Lemma toTimeframe_drops_unmatched_ohlc_columns_witness :
  ~ In (Multi "Price" "H") (columns MoreSamples.short_names_by_day).
Proof.
  apply (toTimeframe_drops_unmatched_ohlc_columns UtcMinutes.calendar
           MoreSamples.short_names MoreSamples.short_names_by_day (Some "day"%string)
           ["O"; "H"; "L"; "C"]%string "H"); reflexivity.
Defined.

Lemma has_col_false (c : label) (cols : list label) :
  has_col c cols = false <-> ~ In c cols.
Proof.
  rewrite <- has_col_In. destruct (has_col c cols); split; congruence.
Qed.

Lemma dict_set_new {V : Type} (k : label) (v : V) (d : list (label * V)) :
  ~ In k (map fst d) -> dict_set k v d = (d ++ [(k, v)])%list.
Proof.
  induction d as [| [k0 v0] d IH]; intros Hk; cbn [dict_set app]; [reflexivity |].
  cbn [map fst In] in Hk.
  replace (label_eqb k k0) with false
    by (symmetry; apply label_eqb_neq; intros ->; apply Hk; now left).
  rewrite IH; [reflexivity |]. intros H. apply Hk. now right.
Qed.

Lemma distinct_NoDup (cols : list label) : distinct cols = true <-> NoDup cols.
Proof.
  induction cols as [| c cols IH]; cbn [distinct].
  - split; [constructor | reflexivity].
  - rewrite andb_true_iff, negb_true_iff, has_col_false, IH. split.
    + intros [H1 H2]. now constructor.
    + intros H. inversion H; subst. now split.
Qed.

Lemma build_agg_dict_keys_default (cols : list label) (acc d : list (label * aggfun)) :
  build_agg_dict default_ohlc cols acc = Ok d ->
  NoDup cols ->
  (forall c, In c cols -> ~ In c (map fst acc)) ->
  map fst d = (map fst acc ++ cols)%list.
Proof.
  revert acc. induction cols as [| [col | g fld] cols IH]; intros acc Hb Hnd Hacc;
    cbn [build_agg_dict] in Hb.
  - injection Hb as <-. now rewrite app_nil_r.
  - inversion Hnd as [| ? ? Hnotin Hnd']; subst.
    destruct (agg_for_default col) as (f & Hf & _). rewrite Hf in Hb.
    rewrite dict_set_new in Hb by (apply Hacc; now left).
    rewrite (IH _ Hb Hnd').
    + rewrite map_app, <- app_assoc. reflexivity.
    + intros c Hc. rewrite map_app, in_app_iff. cbn [map fst In].
      intros [H | [<- | []]]; [| contradiction].
      apply (Hacc c); [now right | exact H].
  - discriminate.
Qed.

(** X15. On a frame that has columns, with plain, distinct labels, and a
    frequency pandas accepts, [toTimeframe] with the default [ohlc] succeeds
    and keeps every column, in order, under the label [(Price, name)]; each
    row it returns has one cell per column.  On a frame without columns it
    does not succeed: the aggregation dictionary is empty. *)
Theorem toTimeframe_keeps_columns (cal : Calendar) (data : DataFrame) (timeframe : tf) :
  (columns data <> [] ->
   plain (columns data) = true ->
   distinct (columns data) = true ->
   valid_freq cal (freq_of timeframe) = true ->
   exists out,
     toTimeframe cal data timeframe None = Ok out /\
     columns out = map (fun c => Multi "Price" (label_name c)) (columns data) /\
     forall t cells, In (t, cells) (rows out) ->
                     List.length cells = List.length (columns data)) /\
  (columns data = [] -> ~ succeeds (toTimeframe cal data timeframe None)).
Proof.
  split.
  - intros Hne Hplain Hdist Hvalid.
    unfold plain in Hplain. apply negb_true_iff in Hplain.
    apply distinct_NoDup in Hdist.
    destruct (build_agg_dict_plain default_ohlc (columns data) [] Hplain) as [d Hd].
    pose proof (build_agg_dict_keys_default _ _ _ Hd Hdist (fun _ _ H => H)) as Hkeys.
    cbn [map app] in Hkeys.
    assert (Hmiss : missing_key (columns data) d = None).
    { apply missing_key_none. intros k f Hkf. rewrite <- Hkeys.
      apply (in_map fst _ _ Hkf). }
    assert (Hd_ne : d <> []).
    { intros ->. cbn [map] in Hkeys. now apply Hne. }
    destruct (resample_agg_ok cal (freq_of timeframe) LeftEdges d data Hvalid Hmiss Hd_ne)
      as [r Hr].
    destruct (resample_agg_rows _ _ _ _ _ _ Hr) as (Hcols & Hrows & _).
    unfold toTimeframe. rewrite Hd. cbn [bind]. rewrite Hr.
    cbn [bind columns rows dropna_all]. rewrite Hcols, Hkeys.
    unfold from_tuples.
    destruct (columns data) as [| c0 cols0] eqn:Hc0; [contradiction |].
    cbn [map bind]. eexists. split; [reflexivity |]. cbn [columns rows].
    split; [reflexivity |].
    intros t cells Hin. apply filter_In in Hin. destruct Hin as [Hin _].
    destruct (Hrows t cells Hin) as (b & _ & ->).
    unfold agg_row. rewrite length_map, <- (length_map fst d), Hkeys. reflexivity.
  - intros Hnil [out Hout].
    destruct (toTimeframe_ok _ _ _ _ _ Hout) as (d & r & Hd & Hr & _).
    rewrite Hnil in Hd. cbn [build_agg_dict] in Hd. injection Hd as <-.
    unfold resample_agg in Hr.
    destruct (negb (valid_freq cal (freq_of timeframe))); [discriminate |].
    cbn [missing_key] in Hr. discriminate.
Qed.

Lemma toTimeframe_keeps_columns_witness :
  exists out,
    toTimeframe UtcMinutes.calendar Samples.daily (Some "week"%string) None = Ok out /\
    columns out = map (fun c => Multi "Price" (label_name c)) (columns Samples.daily) /\
    forall t cells, In (t, cells) (rows out) ->
                    List.length cells = List.length (columns Samples.daily).
Proof.
  apply (proj1 (toTimeframe_keeps_columns UtcMinutes.calendar Samples.daily
                  (Some "week"%string)));
    reflexivity || discriminate.
Defined.

(* ================================================================== *)
(** * Properties of [_rename_cols] *)

Lemma string_length_append (a b : string) :
  String.length (a ++ b) = (String.length a + String.length b)%nat.
Proof. induction a as [| x a IH]; cbn; [reflexivity | now rewrite IH]. Qed.

Lemma string_append_cancel_r (t a b : string) :
  (a ++ t)%string = (b ++ t)%string -> a = b.
Proof.
  revert b. induction a as [| x a IH]; intros [| y b] H; cbn in H.
  - reflexivity.
  - apply (f_equal String.length) in H. cbn in H.
    rewrite string_length_append in H. lia.
  - apply (f_equal String.length) in H. cbn in H.
    rewrite string_length_append in H. lia.
  - injection H as -> H. f_equal. now apply IH.
Qed.

Lemma rename_label_injective (suffix : tf) (a b : label) :
  rename_label suffix a = rename_label suffix b -> a = b.
Proof.
  unfold rename_label. destruct a as [x | g f], b as [y | g' f']; intros H.
  - injection H as ->. reflexivity.
  - injection H as _ H2. exfalso. apply (f_equal String.length) in H2.
    rewrite string_length_append in H2. cbn in H2. lia.
  - injection H as _ H2. exfalso. apply (f_equal String.length) in H2.
    rewrite string_length_append in H2. cbn in H2. lia.
  - injection H as -> H2. f_equal.
    now apply (string_append_cancel_r ("_" ++ py_str suffix)).
Qed.

Lemma NoDup_map_injective {A B : Type} (f : A -> B) (l : list A) :
  (forall a b, f a = f b -> a = b) -> NoDup l -> NoDup (map f l).
Proof.
  intros Hinj. induction 1 as [| x l Hx Hnd IH]; cbn [map]; constructor; auto.
  intros Hin. apply in_map_iff in Hin. destruct Hin as (y & Hy & Hyl).
  apply Hinj in Hy. now subst.
Qed.

(** X16. [_rename_cols] succeeds exactly on the frames that have columns,
    and touches the labels only: the rows are the same, every new label is
    two-level, and two different labels never get the same new label, so
    distinct columns stay distinct under any suffix. *)
Theorem rename_cols_keeps_columns_apart (df : DataFrame) (suffix : tf) :
  (succeeds (_rename_cols df suffix) <-> columns df <> []) /\
  forall out, _rename_cols df suffix = Ok out ->
    rows out = rows df /\
    forallb is_multi (columns out) = true /\
    (distinct (columns df) = true -> distinct (columns out) = true).
Proof.
  split.
  - split.
    + intros [out Hout]. apply (rename_cols_inv _ _ _ Hout).
    + intros Hne. rewrite (rename_cols_ok _ _ Hne). now eexists.
  - intros out Hout. apply rename_cols_inv in Hout. destruct Hout as [_ ->].
    cbn [rows columns]. repeat split.
    + apply forallb_forall. intros c Hc. apply in_map_iff in Hc.
      destruct Hc as ([x | g f] & <- & _); reflexivity.
    + rewrite !distinct_NoDup. intros Hnd.
      apply NoDup_map_injective; [| exact Hnd].
      intros a b. apply (rename_label_injective suffix).
Qed.

Lemma rename_cols_keeps_columns_apart_witness :
  rows (mkDF (map (rename_label (Some "week"%string)) (columns Samples.daily_by_week))
             (rows Samples.daily_by_week)) = rows Samples.daily_by_week /\
  forallb is_multi
    (columns (mkDF (map (rename_label (Some "week"%string)) (columns Samples.daily_by_week))
                   (rows Samples.daily_by_week))) = true /\
  (distinct (columns Samples.daily_by_week) = true ->
   distinct
     (columns (mkDF (map (rename_label (Some "week"%string))
                       (columns Samples.daily_by_week))
                    (rows Samples.daily_by_week))) = true).
Proof.
  apply (proj2 (rename_cols_keeps_columns_apart Samples.daily_by_week (Some "week"%string))).
  reflexivity.
Defined.

(* ================================================================== *)
(** * Further properties of [mergeTimeframes] *)

Lemma min_by_priority_In (best : string) (pbest : Z) (l : list string) (m : string) :
  min_by_priority best pbest l = Ok m -> m = best \/ In m l.
Proof.
  revert best pbest. induction l as [| x l IH]; intros best pbest H;
    cbn [min_by_priority] in H.
  - injection H as <-. now left.
  - destruct (priority (Some x)) as [p |]; cbn [bind] in H; [| discriminate].
    destruct (p <? pbest); apply IH in H; destruct H as [-> | H]; cbn [In]; auto.
Qed.

Lemma min_tf_of_In (l : list string) (m : string) : min_tf_of l = Ok m -> In m l.
Proof.
  destruct l as [| x l]; cbn [min_tf_of]; [discriminate |].
  destruct (priority (Some x)) as [p |]; cbn [bind]; [| discriminate].
  intros H. apply min_by_priority_In in H. destruct H as [-> | H]; cbn [In]; auto.
Qed.

Lemma labels_of_In (data : list entry) (m : string) :
  In m (labels_of data) -> exists d, In (d, Some m) data.
Proof.
  induction data as [| [d [s |]] data IH]; cbn [labels_of In]; [tauto | |].
  - intros [-> | H]; [exists d; now left |].
    destruct (IH H) as [d' Hd']. exists d'. now right.
  - intros H. destruct (IH H) as [d' Hd']. exists d'. now right.
Qed.

Lemma priority_of_known (s : string) (p : Z) :
  str_get s tf_priority = Some p -> priority (Some s) = Ok p.
Proof. intros H. unfold priority. now rewrite H. Qed.

Lemma min_by_priority_unknown (best : string) (pbest : Z)
    (known : list string) (s : string) (rest : list string) :
  (forall x, In x known -> str_get x tf_priority <> None) ->
  str_get s tf_priority = None ->
  min_by_priority best pbest (known ++ s :: rest) = Raise (KeyError s).
Proof.
  intros Hknown Hs. revert best pbest.
  induction known as [| x known IH]; intros best pbest; cbn [app min_by_priority].
  - unfold priority. now rewrite Hs.
  - destruct (str_get x tf_priority) as [p |] eqn:Hx.
    + rewrite (priority_of_known x p Hx). cbn [bind].
      destruct (p <? pbest); apply IH; intros y Hy; apply Hknown; now right.
    + exfalso. apply (Hknown x); [now left | exact Hx].
Qed.

(** X17. A label that is not one of day, week, month, year makes
    [mergeTimeframes] raise KeyError for that label (the first such label in
    the order of the entries), in fast and in accurate mode, whatever series
    the entries carry. *)
Theorem merge_unknown_label (cal : Calendar) (data : list entry) (fast : bool)
    (known : list string) (s : string) (rest : list string) :
  labels_of data = (known ++ s :: rest)%list ->
  (forall x, In x known -> str_get x tf_priority <> None) ->
  str_get s tf_priority = None ->
  mergeTimeframes cal data fast = Raise (KeyError s).
Proof.
  intros Hl Hknown Hs. unfold mergeTimeframes. rewrite Hl.
  destruct known as [| x known]; cbn [app min_tf_of].
  - unfold priority. now rewrite Hs.
  - destruct (str_get x tf_priority) as [p |] eqn:Hx.
    + rewrite (priority_of_known x p Hx). cbn [bind].
      rewrite min_by_priority_unknown; auto.
      intros y Hy. apply Hknown. now right.
    + exfalso. apply (Hknown x); [now left | exact Hx].
Qed.

Lemma merge_unknown_label_witness :
  mergeTimeframes UtcMinutes.calendar
    [(Some Samples.daily, Some "day"); (None, Some "hour")]%string true
  = Raise (KeyError "hour").
Proof.
  apply (merge_unknown_label UtcMinutes.calendar _ true ["day"]%string "hour" []).
  - reflexivity.
  - intros x [<- | []]. discriminate.
  - reflexivity.
Defined.

Lemma filter_skips {A : Type} (f : A -> bool) (pre post : list A) (x : A) :
  (forall e, In e pre -> f e = false) ->
  filter f (pre ++ x :: post) = filter f (x :: post).
Proof.
  induction pre as [| y pre IH]; intros Hpre; [reflexivity |].
  cbn [app]. rewrite <- IH by (intros e He; apply Hpre; now right).
  cbn [filter]. now rewrite (Hpre y (or_introl eq_refl)).
Qed.

(** X18. The preconditions of [mergeTimeframes]: without any label that is
    not [None] it raises NoTimeframes; when the first entry that carries the
    smallest label has no series it raises MissingBaseSeries, even if a later
    entry with that label has one. *)
Theorem merge_preconditions (cal : Calendar) (data : list entry) (fast : bool) :
  (labels_of data = [] -> mergeTimeframes cal data fast = Raise NoTimeframes) /\
  (forall m pre post lbl,
     min_tf_of (labels_of data) = Ok m ->
     data = (pre ++ (None, lbl) :: post)%list ->
     lbl = Some m ->
     (forall e, In e pre -> snd e <> Some m) ->
     mergeTimeframes cal data fast = Raise MissingBaseSeries).
Proof.
  split.
  - intros H. unfold mergeTimeframes. now rewrite H.
  - intros m pre post lbl Hm -> -> Hpre. unfold mergeTimeframes. rewrite Hm.
    cbn [bind].
    match goal with
    | |- context [@filter ?A ?f (pre ++ ?x :: post)] =>
        rewrite (@filter_skips A f pre post x)
    end.
    + cbn [filter snd tf_eqb]. now rewrite String.eqb_refl.
    + intros [d l] He. cbn [snd].
      destruct l as [y |]; [| reflexivity]. cbn [tf_eqb].
      apply String.eqb_neq. intros ->.
      apply (Hpre (d, Some m)); [exact He | reflexivity].
Qed.

Lemma merge_preconditions_witness :
  mergeTimeframes UtcMinutes.calendar [(Some Samples.daily, None)] true = Raise NoTimeframes /\
  mergeTimeframes UtcMinutes.calendar
    [(Some Samples.daily_by_week, Some "week"); (None, Some "day");
     (Some Samples.daily, Some "day")]%string false
  = Raise MissingBaseSeries.
Proof.
  split.
  - apply (proj1 (merge_preconditions UtcMinutes.calendar
                    [(Some Samples.daily, None)] true)). reflexivity.
  - apply (proj2 (merge_preconditions UtcMinutes.calendar _ false) "day"%string
             [(Some Samples.daily_by_week, Some "week"%string)]
             [(Some Samples.daily, Some "day"%string)] (Some "day"%string));
      try reflexivity.
    intros e [<- | []]. discriminate.
Defined.

(** X19. The error "No data for smallest timeframe" is never reached: the
    smallest label is the label of an entry, so the list of the entries that
    carry it is not empty. *)
Theorem merge_base_list_never_empty (data : list entry) (m : string) :
  min_tf_of (labels_of data) = Ok m ->
  filter (fun e : entry => tf_eqb (snd e) (Some m)) data <> [].
Proof.
  intros Hm. apply min_tf_of_In, labels_of_In in Hm. destruct Hm as [d Hd].
  intros Hnil.
  assert (Hin : In (d, Some m) (filter (fun e : entry => tf_eqb (snd e) (Some m)) data)).
  { apply filter_In. split; [exact Hd |]. cbn [snd tf_eqb]. apply String.eqb_refl. }
  rewrite Hnil in Hin. contradiction.
Qed.

Lemma merge_base_list_never_empty_witness :
  filter (fun e : entry => tf_eqb (snd e) (Some "day"%string))
    [(None, Some "week"); (Some Samples.daily, Some "day")]%string <> [].
Proof.
  apply (merge_base_list_never_empty
           [(None, Some "week"); (Some Samples.daily, Some "day")]%string "day").
  reflexivity.
Defined.

Lemma min_by_priority_same (m : string) (p : Z) (l : list string) :
  priority (Some m) = Ok p -> (forall x, In x l -> x = m) ->
  min_by_priority m p l = Ok m.
Proof.
  intros Hp. induction l as [| x l IH]; intros Hl; cbn [min_by_priority];
    [reflexivity |].
  rewrite (Hl x (or_introl eq_refl)), Hp. cbn [bind]. rewrite Z.ltb_irrefl.
  apply IH. intros y Hy. apply Hl. now right.
Qed.

Lemma merge_loop_all_base (cal : Calendar) (fast : bool) (base_df : DataFrame)
    (m : string) (res : DataFrame) (data : list entry) :
  (forall e, In e data -> snd e = Some m) ->
  merge_loop cal fast base_df m res data = Ok res.
Proof.
  induction data as [| [d l] data IH]; intros H; cbn [merge_loop]; [reflexivity |].
  unfold merge_step.
  rewrite (H (d, l) (or_introl eq_refl) : l = Some m).
  cbn [tf_eqb]. rewrite String.eqb_refl. cbn [bind].
  apply IH. intros e He. apply H. now right.
Qed.

(** X20. When every entry carries the same known label, [mergeTimeframes]
    is [_rename_cols] on the first series, in both modes: it returns that
    series with its columns renamed, or raises the TypeError of renaming a
    frame without columns; the other entries with the base label are
    skipped, their series never read. *)
Theorem merge_only_base_label (cal : Calendar) (fast : bool) (df : DataFrame)
    (m : string) (rest : list entry) :
  str_get m tf_priority <> None ->
  (forall e, In e rest -> snd e = Some m) ->
  mergeTimeframes cal ((Some df, Some m) :: rest) fast
  = _rename_cols df (Some m).
Proof.
  intros Hm Hrest.
  destruct (str_get m tf_priority) as [p |] eqn:Hp; [| contradiction].
  pose proof (priority_of_known m p Hp) as Hprio.
  assert (Hlabels : forall x, In x (labels_of rest) -> x = m).
  { intros x Hx. apply labels_of_In in Hx. destruct Hx as [d Hd].
    specialize (Hrest _ Hd). cbn [snd] in Hrest. congruence. }
  unfold mergeTimeframes. cbn [labels_of min_tf_of]. rewrite Hprio. cbn [bind].
  rewrite (min_by_priority_same m p _ Hprio Hlabels). cbn [bind filter snd tf_eqb].
  rewrite String.eqb_refl.
  destruct (_rename_cols df (Some m)) as [res |]; cbn [bind]; [| reflexivity].
  apply merge_loop_all_base. intros e [<- | He]; [reflexivity | auto].
Qed.

Lemma merge_only_base_label_witness :
  mergeTimeframes UtcMinutes.calendar
    [(Some Samples.daily, Some "day"); (Some Samples.fri_mon, Some "day");
     (None, Some "day")]%string true
  = _rename_cols Samples.daily (Some "day"%string).
Proof.
  apply (merge_only_base_label UtcMinutes.calendar true Samples.daily "day").
  - discriminate.
  - intros e [<- | [<- | []]]; reflexivity.
Defined.

Lemma insert_uniq_present (x : Z) (l : list Z) :
  StronglySorted Z.lt l -> In x l -> insert_uniq x l = l.
Proof.
  induction l as [| y l IH]; intros Hs Hin; [contradiction |].
  inversion Hs as [| ? ? Hs' Hall]; subst. cbn [insert_uniq].
  destruct Hin as [-> | Hin].
  - now rewrite Z.ltb_irrefl, Z.eqb_refl.
  - rewrite Forall_forall in Hall. specialize (Hall x Hin).
    replace (x <? y) with false by (symmetry; apply Z.ltb_ge; lia).
    replace (x =? y) with false by (symmetry; apply Z.eqb_neq; lia).
    now rewrite IH.
Qed.

Lemma sort_uniq_sorted (l : list Z) : StronglySorted Z.lt l -> sort_uniq l = l.
Proof.
  induction l as [| x l IH]; intros Hs; [reflexivity |].
  inversion Hs as [| ? ? Hs' Hall]; subst.
  unfold sort_uniq in *. cbn [fold_right]. rewrite (IH Hs').
  destruct l as [| y l]; [reflexivity |].
  inversion Hall; subst. cbn [insert_uniq].
  now replace (x <? y) with true by (symmetry; apply Z.ltb_lt; assumption).
Qed.

Lemma sort_uniq_twice (l : list Z) :
  StronglySorted Z.lt l -> sort_uniq (l ++ l) = l.
Proof.
  intros Hs. unfold sort_uniq. rewrite fold_right_app.
  fold (sort_uniq l). rewrite (sort_uniq_sorted l Hs).
  assert (H : forall l1, (forall x, In x l1 -> In x l) ->
                         fold_right insert_uniq l l1 = l).
  { induction l1 as [| x l1 IH]; intros Hsub; cbn [fold_right]; [reflexivity |].
    rewrite IH by (intros y Hy; apply Hsub; now right).
    apply insert_uniq_present; [exact Hs | apply Hsub; now left]. }
  apply H. auto.
Qed.

Lemma row_at_map_index (g : Z -> list cell) (idx : list Z) (t : Z) :
  In t idx -> row_at t (map (fun x => (x, g x)) idx) = Some (g t).
Proof.
  induction idx as [| x idx IH]; intros Hin; [contradiction |].
  cbn [map row_at]. destruct (x =? t) eqn:E.
  - apply Z.eqb_eq in E. now subst.
  - apply Z.eqb_neq in E. destruct Hin as [-> | Hin]; [contradiction | auto].
Qed.

Lemma index_map_keyed {A : Type} (g : A -> Z) (h : A -> list cell) (l : list A) :
  map fst (map (fun x => (g x, h x)) l) = map g l.
Proof. rewrite map_map. reflexivity. Qed.

Lemma join_outer_same_index (left right out : DataFrame) :
  StronglySorted Z.lt (index left) ->
  index right = index left ->
  join_outer left right = Ok out ->
  index out = index left /\
  columns out = (columns left ++ columns right)%list /\
  forall t, In t (index left) ->
            row_at t (rows out) = Some (cells_or_nan left t ++ cells_or_nan right t)%list.
Proof.
  intros Hs Hidx. unfold join_outer.
  destruct (existsb _ (columns right)); [discriminate |].
  intros [= <-]. cbn [columns rows]. unfold index at 1. cbn [rows].
  rewrite Hidx, (sort_uniq_twice _ Hs). repeat split.
  - rewrite map_map. cbn [fst]. apply map_id.
  - intros t Ht.
    apply (row_at_map_index (fun t0 => cells_or_nan left t0 ++ cells_or_nan right t0)%list).
    exact Ht.
Qed.

Lemma index_eqb_eq (a b : list Z) : index_eqb a b = true -> a = b.
Proof.
  revert b. induction a as [| x a IH]; intros [| y b]; cbn [index_eqb];
    try discriminate; [reflexivity |].
  intros H. apply andb_true_iff in H. destruct H as [Hxy Hab].
  apply Z.eqb_eq in Hxy. subst. f_equal. now apply IH.
Qed.

Lemma index_reindex_ffill (d r : DataFrame) (idx : list Z) :
  reindex_ffill d idx = Ok r -> index r = idx.
Proof.
  unfold reindex_ffill.
  destruct (index_eqb (index d) idx) eqn:E.
  - intros [= <-]. now apply index_eqb_eq.
  - destruct (negb (is_unique (index d))); [discriminate |].
    destruct (strictly_increasing (index d)).
    + intros [= <-]. unfold index. cbn [rows]. rewrite map_map. apply map_id.
    + destruct (strictly_decreasing (index d)); [| discriminate].
      intros [= <-]. unfold index. cbn [rows]. rewrite map_map. apply map_id.
Qed.

Lemma index_accurate (cal : Calendar) (base_df out : DataFrame) (higher_tf : tf) :
  strictly_increasing (index base_df) = true ->
  _to_higher_tf_accurate cal base_df higher_tf = Ok out ->
  index out = index base_df /\ columns out = columns base_df.
Proof.
  intros Hs. rewrite (accurate_is_partial_bars cal base_df higher_tf Hs).
  unfold partial_bars.
  destruct (priority higher_tf) as [p |]; cbn [bind]; [| discriminate].
  destruct (priority (Some "day"%string)) as [p_day |]; cbn [bind]; [| discriminate].
  destruct (p <=? p_day); [intros [= <-]; auto |].
  destruct (simple_cols (columns base_df)) as [sc |]; cbn [bind]; [| discriminate].
  intros [= <-]. unfold index. cbn [rows columns]. rewrite map_map. auto.
Qed.

Lemma merge_step_keeps_base (cal : Calendar) (fast : bool) (base_df : DataFrame)
    (m : string) (cols0 : list label) (res res' : DataFrame) (e : entry) :
  strictly_increasing (index base_df) = true ->
  merge_step cal fast base_df m res e = Ok res' ->
  keeps_base base_df cols0 res -> keeps_base base_df cols0 res'.
Proof.
  intros Hs Hstep (Hidx & (more & Hcols) & Hcells).
  destruct e as [df_higher tf_higher]. unfold merge_step in Hstep.
  destruct (tf_eqb tf_higher (Some m));
    [injection Hstep as <-; repeat split; eauto |].
  match type of Hstep with
  | bind ?c _ = _ => destruct c as [x |]; cbn [bind] in Hstep; [| discriminate]
  end.
  match type of Hstep with
  | bind ?c _ = _ => destruct c as [y |] eqn:Hy; cbn [bind] in Hstep; [| discriminate]
  end.
  assert (Hyidx : index y = index res).
  { destruct fast.
    - destruct x as [d |]; [| discriminate]. apply (index_reindex_ffill _ _ _ Hy).
    - rewrite Hidx. apply (index_accurate cal base_df y tf_higher Hs Hy). }
  destruct (_rename_cols y tf_higher) as [renamed |] eqn:Hren; cbn [bind] in Hstep;
    [| discriminate].
  apply rename_cols_inv in Hren. destruct Hren as [_ Hren].
  assert (Hridx : index renamed = index res) by (now rewrite Hren).
  pose proof (strictly_increasing_sorted _ Hs) as Hsorted. rewrite <- Hidx in Hsorted.
  destruct (join_outer_same_index res renamed res' Hsorted Hridx Hstep)
    as (Hidx' & Hcols' & Hrows').
  repeat split.
  - congruence.
  - exists (more ++ columns renamed)%list.
    now rewrite Hcols', Hcols, app_assoc.
  - intros t cells Hin. destruct (Hcells t cells Hin) as [others Ho].
    exists (others ++ cells_or_nan renamed t)%list.
    rewrite Hrows'.
    + unfold cells_or_nan at 1. rewrite Ho. now rewrite app_assoc.
    + rewrite Hidx. unfold index. apply (in_map fst _ _ Hin).
Qed.

Lemma merge_loop_keeps_base (cal : Calendar) (fast : bool) (base_df : DataFrame)
    (m : string) (cols0 : list label) (data : list entry) (res out : DataFrame) :
  strictly_increasing (index base_df) = true ->
  merge_loop cal fast base_df m res data = Ok out ->
  keeps_base base_df cols0 res -> keeps_base base_df cols0 out.
Proof.
  intros Hs. revert res. induction data as [| e data IH]; intros res Hloop Hres;
    cbn [merge_loop] in Hloop.
  - now injection Hloop as <-.
  - destruct (merge_step cal fast base_df m res e) as [res' |] eqn:Hstep;
      cbn [bind] in Hloop; [| discriminate].
    apply (IH res' Hloop). eapply merge_step_keeps_base; eauto.
Qed.

(** X21. When [mergeTimeframes] succeeds on a base series with a strictly
    increasing index, in either mode, the result is indexed by exactly the
    timestamps of the base series, its first columns are the renamed base
    columns, and every row starts with the cells of the base row: the joins
    add columns to the right and never change or drop a base value. *)
Theorem merge_keeps_base_series (cal : Calendar) (data rest : list entry) (fast : bool)
    (m : string) (base_df out : DataFrame) (lbl : tf) :
  min_tf_of (labels_of data) = Ok m ->
  filter (fun e : entry => tf_eqb (snd e) (Some m)) data = (Some base_df, lbl) :: rest ->
  strictly_increasing (index base_df) = true ->
  mergeTimeframes cal data fast = Ok out ->
  index out = index base_df /\
  (exists more,
     columns out = (map (rename_label (Some m)) (columns base_df) ++ more)%list) /\
  forall t cells, In (t, cells) (rows base_df) ->
                  exists others, row_at t (rows out) = Some (cells ++ others)%list.
Proof.
  intros Hm Hbase Hs Hout. unfold mergeTimeframes in Hout.
  rewrite Hm in Hout. cbn [bind] in Hout.
  match type of Hout with
  | match ?l with _ => _ end = _ =>
      change l with (filter (fun e : entry => tf_eqb (snd e) (Some m)) data) in Hout
  end.
  rewrite Hbase in Hout.
  destruct (_rename_cols base_df (Some m)) as [res0 |] eqn:Hren; cbn [bind] in Hout;
    [| discriminate].
  apply rename_cols_inv in Hren. destruct Hren as [_ ->].
  apply (merge_loop_keeps_base cal fast base_df m
           (map (rename_label (Some m)) (columns base_df)) data _ out Hs Hout).
  repeat split.
  - exists []. now rewrite app_nil_r.
  - intros t cells Hin. exists []. rewrite app_nil_r. cbn [rows].
    apply row_at_In; [| exact Hin].
    apply strictly_increasing_sorted. exact Hs.
Qed.

Lemma merge_keeps_base_series_witness :
  index MoreSamples.daily_merged_fast = index Samples.daily /\
  (exists more,
     columns MoreSamples.daily_merged_fast
     = (map (rename_label (Some "day"%string)) (columns Samples.daily) ++ more)%list) /\
  forall t cells, In (t, cells) (rows Samples.daily) ->
                  exists others,
                    row_at t (rows MoreSamples.daily_merged_fast) = Some (cells ++ others)%list.
Proof.
  apply (merge_keeps_base_series UtcMinutes.calendar
           [(Some Samples.daily, Some "day"%string);
            (Some Samples.daily_by_week, Some "week"%string)]
           [] true "day" Samples.daily MoreSamples.daily_merged_fast (Some "day"%string));
    reflexivity.
Defined.

Lemma merge_step_none_label_accurate (cal : Calendar) (base_df res : DataFrame)
    (m : string) (d : option DataFrame) :
  ~ succeeds (merge_step cal false base_df m res (d, None)).
Proof.
  unfold merge_step, succeeds. cbn [tf_eqb].
  destruct (rmap Some (toTimeframe cal base_df None None)) as [x |]; cbn [bind];
    intros [a Ha]; discriminate.
Qed.

Lemma merge_loop_none_label_accurate (cal : Calendar) (base_df : DataFrame)
    (m : string) (d : option DataFrame) (data : list entry) (res : DataFrame) :
  In (d, None) data ->
  ~ succeeds (merge_loop cal false base_df m res data).
Proof.
  revert res. induction data as [| e data IH]; intros res Hin; [contradiction |].
  cbn [merge_loop]. destruct Hin as [-> | Hin].
  - destruct (merge_step cal false base_df m res (d, None)) as [res' |] eqn:Hstep.
    + exfalso. apply (merge_step_none_label_accurate cal base_df res m d).
      now exists res'.
    + cbn [bind]. intros [a Ha]. discriminate.
  - destruct (merge_step cal false base_df m res e) as [res' |]; cbn [bind].
    + now apply IH.
    + intros [a Ha]. discriminate.
Qed.

(** X22. An entry whose label is [None] is served in fast mode only: in
    accurate mode [_to_higher_tf_accurate] looks the label up in
    [tf_priority], so [mergeTimeframes] with such an entry never succeeds. *)
Theorem merge_none_label_fails_in_accurate_mode (cal : Calendar)
    (data : list entry) (d : option DataFrame) :
  In (d, None) data ->
  ~ succeeds (mergeTimeframes cal data false).
Proof.
  intros Hin. unfold mergeTimeframes.
  destruct (min_tf_of (labels_of data)) as [m |]; cbn [bind];
    [| intros [a Ha]; discriminate].
  match goal with
  | |- context [match ?l with _ => _ end] =>
      destruct l as [| [[base_df |] lbl] rest]; try (intros [a Ha]; discriminate)
  end.
  destruct (_rename_cols base_df (Some m)) as [res |]; cbn [bind];
    [| intros [a Ha]; discriminate].
  now apply (merge_loop_none_label_accurate cal base_df m d).
Qed.

Lemma merge_none_label_fails_in_accurate_mode_witness :
  ~ succeeds (mergeTimeframes UtcMinutes.calendar
                [(Some Samples.daily, Some "day"%string); (None, None)] false) /\
  succeeds (mergeTimeframes UtcMinutes.calendar
              [(Some Samples.daily, Some "day"%string); (None, None)] true).
Proof.
  split.
  - apply (merge_none_label_fails_in_accurate_mode UtcMinutes.calendar _ None).
    cbn. tauto.
  - eexists. vm_compute. reflexivity.
Defined.

(* ================================================================== *)
(** * Further properties of [_to_higher_tf_accurate] *)

Lemma simple_cols_plain (cols : list label) :
  existsb is_multi cols = false -> simple_cols cols = Ok (map label_name cols).
Proof.
  intros H. unfold simple_cols. rewrite H.
  now destruct (is_multiindex cols).
Qed.

Lemma cum_row_length (cols : list label) (oc : OhlcCols) (part : list row) :
  List.length (cum_row cols oc part) = List.length cols.
Proof. unfold cum_row. cbv zeta. apply length_map. Qed.

(** X23. For a label of [tf_priority], plain column labels and a strictly
    increasing index, [_to_higher_tf_accurate] returns a frame with the
    columns and the index of the base series; for "day" it is the base series
    itself, for a coarser label every row has one cell per column. *)
Theorem accurate_shape (cal : Calendar) (base_df : DataFrame) (higher_tf : tf) (p : Z) :
  priority higher_tf = Ok p ->
  plain (columns base_df) = true ->
  strictly_increasing (index base_df) = true ->
  exists out,
    _to_higher_tf_accurate cal base_df higher_tf = Ok out /\
    columns out = columns base_df /\
    index out = index base_df /\
    (p <= 1 -> out = base_df) /\
    (1 < p -> forall t cells, In (t, cells) (rows out) ->
                              List.length cells = List.length (columns base_df)).
Proof.
  intros Hp Hplain Hs.
  unfold plain in Hplain. apply negb_true_iff in Hplain.
  rewrite (accurate_is_partial_bars cal base_df higher_tf Hs).
  unfold partial_bars. rewrite Hp.
  change (priority (Some "day"%string)) with (@Ok Z 1). cbn [bind].
  destruct (p <=? 1) eqn:E.
  - apply Z.leb_le in E. exists base_df. repeat split; auto. lia.
  - apply Z.leb_gt in E. rewrite (simple_cols_plain _ Hplain). cbn [bind].
    eexists. split; [reflexivity |]. cbn [columns rows]. repeat split.
    + unfold index. cbn [rows]. now rewrite map_map.
    + lia.
    + intros _ t cells Hin. apply in_map_iff in Hin.
      destruct Hin as (r & [= <- <-] & _). apply cum_row_length.
Qed.

Lemma accurate_shape_witness :
  exists out,
    _to_higher_tf_accurate UtcMinutes.calendar Samples.daily (Some "month"%string) = Ok out /\
    columns out = columns Samples.daily /\
    index out = index Samples.daily /\
    (3 <= 1 -> out = Samples.daily) /\
    (1 < 3 -> forall t cells, In (t, cells) (rows out) ->
                              List.length cells = List.length (columns Samples.daily)).
Proof.
  apply (accurate_shape UtcMinutes.calendar Samples.daily (Some "month"%string) 3);
    reflexivity.
Defined.

Lemma cum_row_ohlcv (part : list row) :
  let cols := [Flat "Open"; Flat "High"; Flat "Low"; Flat "Close"; Flat "Volume"] in
  cum_row cols (detect_ohlc (map label_name cols)) part =
  [ iloc_first (column_of cols (Flat "Open") part);
    agg_max (column_of cols (Flat "High") part);
    agg_min (column_of cols (Flat "Low") part);
    iloc_last (column_of cols (Flat "Close") part);
    agg_sum (column_of cols (Flat "Volume") part) ].
Proof. reflexivity. Qed.

Lemma iloc_last_values (v1 : Z) (vs : list Z) :
  iloc_last (map Some (v1 :: vs)) = Some (last vs v1).
Proof.
  unfold iloc_last.
  assert (H : forall (l : list Z) (d : Z),
             l <> [] -> last (map Some l) None = Some (last l d)).
  { induction l as [| a [| b l] IH]; intros d Hne; [contradiction | reflexivity |].
    change (last (map Some (b :: l)) None = Some (last (b :: l) d)).
    apply IH. discriminate. }
  etransitivity; [exact (H (v1 :: vs) v1 ltac:(discriminate)) |].
  now destruct vs.
Qed.

(** The row of the accurate re-aggregation at a base row, for a frame with
    the five OHLCV columns and a label coarser than "day". *)
Lemma accurate_ohlcv_row (cal : Calendar) (base_df : DataFrame) (higher_tf : tf)
    (p t : Z) (cells : list cell) :
  let cols := [Flat "Open"; Flat "High"; Flat "Low"; Flat "Close"; Flat "Volume"] in
  columns base_df = cols ->
  priority higher_tf = Ok p -> 1 < p ->
  strictly_increasing (index base_df) = true ->
  In (t, cells) (rows base_df) ->
  exists out,
    _to_higher_tf_accurate cal base_df higher_tf = Ok out /\
    row_at t (rows out) =
    Some (cum_row cols (detect_ohlc (map label_name cols))
            (seen_so_far cal (freq_of higher_tf) (rows base_df) t)).
Proof.
  cbv zeta. intros Hcols Hp Hlt Hs Hin.
  rewrite (accurate_is_partial_bars cal base_df higher_tf Hs).
  apply strictly_increasing_sorted in Hs.
  pose proof (row_at_In t cells (rows base_df) Hs Hin) as Hrow.
  unfold partial_bars, partial_row. rewrite Hp, Hcols.
  change (priority (Some "day"%string)) with (@Ok Z 1). cbn [bind].
  replace (p <=? 1) with false by (symmetry; apply Z.leb_gt; lia).
  rewrite simple_cols_plain by reflexivity. cbn [bind].
  eexists. split; [reflexivity |]. cbn [rows].
  rewrite (row_at_map_keyed
             (fun x => cum_row _ _ (seen_so_far cal (freq_of higher_tf) (rows base_df) x))).
  now rewrite Hrow.
Qed.

(** X24. On a frame with the columns Open, High, Low, Close, Volume and a
    strictly increasing index, for week, month or year, the accurate
    re-aggregation gives each base row the running bar of its group of
    [to_period] (for "week" the groups run from a Tuesday to the next
    Monday): the Open of the group's first row, the highest High and the
    lowest Low so far, the Close of the row itself and the Volume summed so
    far, for volumes that the column adds exactly. *)
Theorem accurate_running_bar (cal : Calendar) (base_df : DataFrame) (higher_tf : tf)
    (p t : Z) (cells : list cell)
    (o1 : Z) (os : list Z) (h1 : Z) (hs : list Z) (l1 : Z) (ls : list Z)
    (c1 : Z) (cs : list Z) (v1 : Z) (vs : list Z) :
  columns base_df = [Flat "Open"; Flat "High"; Flat "Low"; Flat "Close"; Flat "Volume"] ->
  priority higher_tf = Ok p -> 1 < p ->
  strictly_increasing (index base_df) = true ->
  In (t, cells) (rows base_df) ->
  column_of (columns base_df) (Flat "Open")
    (seen_so_far cal (freq_of higher_tf) (rows base_df) t) = map Some (o1 :: os) ->
  column_of (columns base_df) (Flat "High")
    (seen_so_far cal (freq_of higher_tf) (rows base_df) t) = map Some (h1 :: hs) ->
  column_of (columns base_df) (Flat "Low")
    (seen_so_far cal (freq_of higher_tf) (rows base_df) t) = map Some (l1 :: ls) ->
  column_of (columns base_df) (Flat "Close")
    (seen_so_far cal (freq_of higher_tf) (rows base_df) t) = map Some (c1 :: cs) ->
  column_of (columns base_df) (Flat "Volume")
    (seen_so_far cal (freq_of higher_tf) (rows base_df) t) = map Some (v1 :: vs) ->
  exact (v1 :: vs) ->
  exists out,
    _to_higher_tf_accurate cal base_df higher_tf = Ok out /\
    row_at t (rows out) =
    Some [Some o1; Some (list_max h1 hs); Some (list_min l1 ls);
          Some (last cs c1); Some (sum_values (v1 :: vs))].
Proof.
  intros Hcols Hp Hlt Hs Hin Ho Hh Hl Hc Hv Hex.
  destruct (accurate_ohlcv_row cal base_df higher_tf p t cells Hcols Hp Hlt Hs Hin)
    as (out & Hout & Hrow).
  exists out. split; [exact Hout |].
  rewrite Hrow, cum_row_ohlcv. cbv zeta. rewrite Hcols in Ho, Hh, Hl, Hc, Hv.
  rewrite Ho, Hh, Hl, Hc, Hv.
  now rewrite agg_max_values, agg_min_values, iloc_last_values, (agg_sum_values _ Hex).
Qed.

Lemma accurate_running_bar_witness :
  exists out,
    _to_higher_tf_accurate UtcMinutes.calendar Samples.daily (Some "week"%string) = Ok out /\
    row_at 15840 (rows out) =
    Some [Some 12; Some (list_max 15 [14]); Some (list_min 11 [8]);
          Some (last [9] 14); Some (sum_values (300 :: [400]))].
Proof.
  apply (accurate_running_bar UtcMinutes.calendar Samples.daily (Some "week"%string)
           2 15840 [Some 13; Some 14; Some 8; Some 9; Some 400]
           12 [13] 15 [14] 11 [8] 14 [9] 300 [400]);
    try reflexivity.
  cbn. tauto.
Defined.

Lemma seen_so_far_last (cal : Calendar) (freq : string) (df : DataFrame) (r : row) :
  last_of_period cal freq df r ->
  seen_so_far cal freq (rows df) (fst r) = whole_period cal freq (rows df) (fst r).
Proof.
  intros [_ Hlast]. unfold seen_so_far, rows_upto, whole_period.
  apply filter_all. intros r' Hr'. apply filter_In in Hr'. destruct Hr' as [Hin Hp].
  apply Z.leb_le. apply Hlast; [exact Hin | now apply Z.eqb_eq].
Qed.

(** X25. At the last base row of a group of [to_period] (for "week" the
    groups run from a Tuesday to the next Monday) the accurate re-aggregation
    gives the completed bar of that group: first Open, highest High, lowest
    Low, last Close and total Volume of all the rows of the group, for
    volumes that the column adds exactly. *)
Theorem accurate_last_row_completes_bar (cal : Calendar) (base_df : DataFrame)
    (higher_tf : tf) (p t : Z) (cells : list cell)
    (o1 : Z) (os : list Z) (h1 : Z) (hs : list Z) (l1 : Z) (ls : list Z)
    (c1 : Z) (cs : list Z) (v1 : Z) (vs : list Z) :
  columns base_df = [Flat "Open"; Flat "High"; Flat "Low"; Flat "Close"; Flat "Volume"] ->
  priority higher_tf = Ok p -> 1 < p ->
  strictly_increasing (index base_df) = true ->
  last_of_period cal (freq_of higher_tf) base_df (t, cells) ->
  column_of (columns base_df) (Flat "Open")
    (whole_period cal (freq_of higher_tf) (rows base_df) t) = map Some (o1 :: os) ->
  column_of (columns base_df) (Flat "High")
    (whole_period cal (freq_of higher_tf) (rows base_df) t) = map Some (h1 :: hs) ->
  column_of (columns base_df) (Flat "Low")
    (whole_period cal (freq_of higher_tf) (rows base_df) t) = map Some (l1 :: ls) ->
  column_of (columns base_df) (Flat "Close")
    (whole_period cal (freq_of higher_tf) (rows base_df) t) = map Some (c1 :: cs) ->
  column_of (columns base_df) (Flat "Volume")
    (whole_period cal (freq_of higher_tf) (rows base_df) t) = map Some (v1 :: vs) ->
  exact (v1 :: vs) ->
  exists out,
    _to_higher_tf_accurate cal base_df higher_tf = Ok out /\
    row_at t (rows out) =
    Some [Some o1; Some (list_max h1 hs); Some (list_min l1 ls);
          Some (last cs c1); Some (sum_values (v1 :: vs))].
Proof.
  intros Hcols Hp Hlt Hs Hlast Ho Hh Hl Hc Hv Hex.
  destruct (accurate_ohlcv_row cal base_df higher_tf p t cells Hcols Hp Hlt Hs
              (proj1 Hlast)) as (out & Hout & Hrow).
  exists out. split; [exact Hout |].
  rewrite Hrow, cum_row_ohlcv. cbv zeta.
  pose proof (seen_so_far_last cal (freq_of higher_tf) base_df (t, cells) Hlast) as Hseen.
  cbn [fst] in Hseen. rewrite Hseen.
  rewrite Hcols in Ho, Hh, Hl, Hc, Hv. rewrite Ho, Hh, Hl, Hc, Hv.
  now rewrite agg_max_values, agg_min_values, iloc_last_values, (agg_sum_values _ Hex).
Qed.

Lemma accurate_last_row_completes_bar_witness :
  exists out,
    _to_higher_tf_accurate UtcMinutes.calendar Samples.daily (Some "week"%string) = Ok out /\
    row_at 5760 (rows out) =
    Some [Some 10; Some (list_max 11 [12]); Some (list_min 9 [10]);
          Some (last [11] 10); Some (sum_values (100 :: [200]))].
Proof.
  apply (accurate_last_row_completes_bar UtcMinutes.calendar Samples.daily
           (Some "week"%string) 2 5760 [Some 11; Some 12; Some 10; Some 11; Some 200]
           10 [11] 11 [12] 9 [10] 10 [11] 100 [200]);
    try reflexivity.
  split.
  - cbn. tauto.
  - intros r' Hin Hper. cbn in Hin.
    destruct Hin as [<- | [<- | [<- | [<- | []]]]];
      try (vm_compute in Hper; discriminate); cbn [fst]; lia.
Defined.

Lemma rows_upto_split (t1 t2 : Z) (rs : list row) :
  StronglySorted Z.lt (map fst rs) -> t1 <= t2 ->
  rows_upto t2 rs =
  (rows_upto t1 rs ++ filter (fun r => (t1 <? fst r) && (fst r <=? t2)) rs)%list.
Proof.
  intros Hs Hle. induction rs as [| r rs IH]; [reflexivity |].
  cbn [map] in Hs. inversion Hs as [| ? ? Hs' Hall]; subst.
  specialize (IH Hs'). unfold rows_upto in *. cbn [filter].
  destruct (fst r <=? t1) eqn:E1.
  - apply Z.leb_le in E1.
    replace (fst r <=? t2) with true by (symmetry; apply Z.leb_le; lia).
    replace (t1 <? fst r) with false by (symmetry; apply Z.ltb_ge; lia).
    cbn [andb app]. now rewrite IH.
  - apply Z.leb_gt in E1.
    replace (t1 <? fst r) with true by (symmetry; apply Z.ltb_lt; lia).
    assert (Hnone : rows_upto t1 rs = []).
    { apply (rows_upto_all_later t1 rs).
      eapply Forall_impl; [| exact Hall]. intros z Hz. cbn beta in Hz. lia. }
    unfold rows_upto in Hnone. rewrite Hnone in *. cbn [app andb] in *.
    destruct (fst r <=? t2); now rewrite IH.
Qed.

Lemma seen_so_far_extends (cal : Calendar) (freq : string) (rs : list row) (t1 t2 : Z) :
  StronglySorted Z.lt (map fst rs) -> t1 <= t2 ->
  to_period cal freq t1 = to_period cal freq t2 ->
  exists extra, seen_so_far cal freq rs t2 = (seen_so_far cal freq rs t1 ++ extra)%list.
Proof.
  intros Hs Hle Hp. rewrite !seen_so_far_upto, <- Hp.
  rewrite (rows_upto_split t1 t2 rs Hs Hle), filter_app. eauto.
Qed.

Lemma prefix_values (cols : list label) (c : label) (part extra : list row)
    (v : Z) (vs : list Z) :
  part <> [] ->
  column_of cols c (part ++ extra) = map Some (v :: vs) ->
  exists vs1 vs2, column_of cols c part = map Some (v :: vs1) /\ vs = (vs1 ++ vs2)%list.
Proof.
  intros Hne H. unfold column_of in *. rewrite map_app in H. symmetry in H.
  apply map_eq_app in H. destruct H as (l1 & l2 & Heq & H1 & H2).
  destruct l1 as [| a l1].
  - destruct part; [contradiction | discriminate].
  - injection Heq as -> ->. exists l1, l2. split; [now symmetry | reflexivity].
Qed.

Lemma seen_so_far_self (cal : Calendar) (freq : string) (rs : list row)
    (t : Z) (cells : list cell) :
  In (t, cells) rs -> seen_so_far cal freq rs t <> [].
Proof.
  intros Hin Hnil.
  assert (H : In (t, cells) (seen_so_far cal freq rs t)).
  { unfold seen_so_far, rows_upto. apply filter_In. split.
    - apply filter_In. split; [exact Hin | apply Z.eqb_refl].
    - apply Z.leb_refl. }
  rewrite Hnil in H. contradiction.
Qed.

(** X26. Within a period the accurate bars only widen: for two base rows of
    the same period, the later one has the same Open as the earlier one, a
    High that is not lower and a Low that is not higher. *)
Theorem accurate_running_extremes (cal : Calendar) (base_df : DataFrame)
    (higher_tf : tf) (p t1 t2 : Z) (cells1 cells2 : list cell)
    (o1 : Z) (os : list Z) (h1 : Z) (hs : list Z) (l1 : Z) (ls : list Z) :
  columns base_df = [Flat "Open"; Flat "High"; Flat "Low"; Flat "Close"; Flat "Volume"] ->
  priority higher_tf = Ok p -> 1 < p ->
  strictly_increasing (index base_df) = true ->
  In (t1, cells1) (rows base_df) ->
  In (t2, cells2) (rows base_df) ->
  t1 <= t2 ->
  to_period cal (freq_of higher_tf) t1 = to_period cal (freq_of higher_tf) t2 ->
  column_of (columns base_df) (Flat "Open")
    (seen_so_far cal (freq_of higher_tf) (rows base_df) t2) = map Some (o1 :: os) ->
  column_of (columns base_df) (Flat "High")
    (seen_so_far cal (freq_of higher_tf) (rows base_df) t2) = map Some (h1 :: hs) ->
  column_of (columns base_df) (Flat "Low")
    (seen_so_far cal (freq_of higher_tf) (rows base_df) t2) = map Some (l1 :: ls) ->
  exists out hi1 lo1 hi2 lo2 rest1 rest2,
    _to_higher_tf_accurate cal base_df higher_tf = Ok out /\
    row_at t1 (rows out) = Some (Some o1 :: Some hi1 :: Some lo1 :: rest1) /\
    row_at t2 (rows out) = Some (Some o1 :: Some hi2 :: Some lo2 :: rest2) /\
    hi1 <= hi2 /\ lo2 <= lo1.
Proof.
  intros Hcols Hp Hlt Hs Hin1 Hin2 Hle Hper Ho Hh Hl.
  destruct (accurate_ohlcv_row cal base_df higher_tf p t1 cells1 Hcols Hp Hlt Hs Hin1)
    as (out & Hout & Hrow1).
  destruct (accurate_ohlcv_row cal base_df higher_tf p t2 cells2 Hcols Hp Hlt Hs Hin2)
    as (out' & Hout' & Hrow2).
  assert (out' = out) by congruence. subst out'.
  rewrite cum_row_ohlcv in Hrow1, Hrow2. cbv zeta in Hrow1, Hrow2.
  rewrite Hcols in Ho, Hh, Hl.
  destruct (seen_so_far_extends cal (freq_of higher_tf) (rows base_df) t1 t2
              (strictly_increasing_sorted _ Hs) Hle Hper) as [extra Hext].
  pose proof (seen_so_far_self cal (freq_of higher_tf) (rows base_df) t1 cells1 Hin1)
    as Hne.
  rewrite Ho, Hh, Hl in Hrow2.
  rewrite Hext in Ho, Hh, Hl.
  destruct (prefix_values _ _ _ _ _ _ Hne Ho) as (os1 & os2 & Ho1 & _).
  destruct (prefix_values _ _ _ _ _ _ Hne Hh) as (hs1 & hs2 & Hh1 & ->).
  destruct (prefix_values _ _ _ _ _ _ Hne Hl) as (ls1 & ls2 & Hl1 & ->).
  rewrite Ho1, Hh1, Hl1 in Hrow1.
  rewrite agg_max_values, agg_min_values in Hrow1, Hrow2.
  exists out, (list_max h1 hs1), (list_min l1 ls1),
    (list_max h1 (hs1 ++ hs2)), (list_min l1 (ls1 ++ ls2)).
  do 2 eexists. repeat split; [exact Hout | exact Hrow1 | exact Hrow2 | |].
  - unfold list_max. rewrite fold_left_app.
    apply (proj1 (list_max_spec hs2 (fold_left Z.max hs1 h1))).
  - unfold list_min. rewrite fold_left_app.
    apply (proj1 (list_min_spec ls2 (fold_left Z.min ls1 l1))).
Qed.

Lemma accurate_running_extremes_witness :
  exists out hi1 lo1 hi2 lo2 rest1 rest2,
    _to_higher_tf_accurate UtcMinutes.calendar Samples.daily (Some "week"%string) = Ok out /\
    row_at 7200 (rows out) = Some (Some 12 :: Some hi1 :: Some lo1 :: rest1) /\
    row_at 15840 (rows out) = Some (Some 12 :: Some hi2 :: Some lo2 :: rest2) /\
    hi1 <= hi2 /\ lo2 <= lo1.
Proof.
  apply (accurate_running_extremes UtcMinutes.calendar Samples.daily (Some "week"%string)
           2 7200 15840 [Some 12; Some 15; Some 11; Some 14; Some 300]
           [Some 13; Some 14; Some 8; Some 9; Some 400] 12 [13] 15 [14] 11 [8]);
    try reflexivity; try lia; cbn; tauto.
Defined.

Lemma detect_ohlc_roles (names : list string) : roles_named (detect_ohlc names).
Proof.
  unfold detect_ohlc.
  assert (H : forall oc, roles_named oc -> roles_named (fold_left detect_step names oc)).
  { induction names as [| c names IH]; intros oc Hoc; cbn [fold_left]; [exact Hoc |].
    apply IH. destruct Hoc as (H1 & H2 & H3 & H4 & H5). unfold detect_step.
    destruct (contains "open" (lower c)) eqn:E1;
      [| destruct (contains "high" (lower c)) eqn:E2;
         [| destruct (contains "low" (lower c)) eqn:E3;
            [| destruct (contains "close" (lower c)) eqn:E4;
               [| destruct (contains "volume" (lower c)) eqn:E5]]]];
      unfold roles_named; cbn [oc_open oc_high oc_low oc_close oc_volume];
      repeat apply conj; try assumption; intros s Hs; injection Hs as <-; assumption. }
  apply H. unfold roles_named. cbn. repeat split; discriminate.
Qed.

Lemma dict_get_cond_set_other (k : label) (name : option string) (cols : list label)
    (v : cell) (d : list (label * cell)) :
  key_of name <> k ->
  dict_get k (if in_columns name cols then dict_set (key_of name) v d else d)
  = dict_get k d.
Proof.
  intros Hne. destruct (in_columns name cols); [| reflexivity].
  rewrite dict_get_set.
  replace (label_eqb k (key_of name)) with false; [reflexivity |].
  symmetry. apply label_eqb_neq. congruence.
Qed.

Section FillLast.

Variable cols : list label.
Variable part : list row.

Lemma fill_last_keeps (l : list label) (d : list (label * cell)) (k : label) (v : cell) :
  dict_get k d = Some v ->
  dict_get k (fold_left (fun d c =>
                           match dict_get c d with
                           | Some _ => d
                           | None => dict_set c (iloc_last (column_of cols c part)) d
                           end) l d) = Some v.
Proof.
  revert d. induction l as [| c l IH]; intros d Hk; cbn [fold_left]; [exact Hk |].
  apply IH. destruct (dict_get c d) eqn:Hc; [exact Hk |].
  rewrite dict_get_set. destruct (label_eqb k c) eqn:E; [| exact Hk].
  apply label_eqb_eq in E. subst. congruence.
Qed.

Lemma fill_last_sets (l : list label) (d : list (label * cell)) (k : label) :
  dict_get k d = None -> In k l ->
  dict_get k (fold_left (fun d c =>
                           match dict_get c d with
                           | Some _ => d
                           | None => dict_set c (iloc_last (column_of cols c part)) d
                           end) l d)
  = Some (iloc_last (column_of cols k part)).
Proof.
  revert d. induction l as [| c l IH]; intros d Hk Hin; [contradiction |].
  cbn [fold_left]. destruct (label_eqb k c) eqn:E.
  - apply label_eqb_eq in E. subst c. rewrite Hk.
    apply fill_last_keeps. rewrite dict_get_set. now rewrite label_eqb_refl.
  - destruct Hin as [-> | Hin]; [rewrite label_eqb_refl in E; discriminate |].
    apply IH; [| exact Hin].
    destruct (dict_get c d); [exact Hk |].
    rewrite dict_get_set. now rewrite E.
Qed.

End FillLast.

Lemma cell_at_map (cols : list label) (g : label -> cell) (k : label) :
  In k cols -> cell_at cols k (map g cols) = g k.
Proof.
  unfold cell_at. induction cols as [| c cols IH]; intros Hin; [contradiction |].
  cbn [col_pos map]. destruct (label_eqb k c) eqn:E.
  - apply label_eqb_eq in E. now subst.
  - destruct Hin as [-> | Hin]; [rewrite label_eqb_refl in E; discriminate |].
    specialize (IH Hin). destruct (col_pos k cols); exact IH.
Qed.

Lemma rows_upto_ends (t : Z) (cells : list cell) (rs : list row) :
  StronglySorted Z.lt (map fst rs) -> In (t, cells) rs ->
  exists pre, rows_upto t rs = (pre ++ [(t, cells)])%list.
Proof.
  induction rs as [| [t' c'] rs IH]; intros Hs Hin; [contradiction |].
  cbn [map fst] in Hs. inversion Hs as [| ? ? Hs' Hall]; subst.
  unfold rows_upto in *. cbn [filter fst].
  destruct Hin as [[= -> ->] | Hin].
  - rewrite Z.leb_refl. exists [].
    pose proof (rows_upto_all_later t rs Hall) as Hnone.
    unfold rows_upto in Hnone. now rewrite Hnone.
  - rewrite Forall_forall in Hall.
    pose proof (Hall t (in_map fst _ _ Hin)) as Hlt. cbn [fst] in Hlt.
    replace (t' <=? t) with true by (symmetry; apply Z.leb_le; lia).
    destruct (IH Hs' Hin) as [pre Hpre]. exists ((t', c') :: pre).
    now rewrite Hpre.
Qed.

(** X27. A column whose lowercased name contains none of "open", "high",
    "low", "close", "volume" passes through the accurate re-aggregation
    unchanged: at every base row the output holds the row's own value under
    that column. *)
Theorem accurate_passes_other_columns (cal : Calendar) (base_df : DataFrame)
    (higher_tf : tf) (p : Z) (c : string) (t : Z) (cells : list cell) :
  priority higher_tf = Ok p -> 1 < p ->
  plain (columns base_df) = true ->
  strictly_increasing (index base_df) = true ->
  In (Flat c) (columns base_df) ->
  contains "open" (lower c) = false ->
  contains "high" (lower c) = false ->
  contains "low" (lower c) = false ->
  contains "close" (lower c) = false ->
  contains "volume" (lower c) = false ->
  In (t, cells) (rows base_df) ->
  exists out bar,
    _to_higher_tf_accurate cal base_df higher_tf = Ok out /\
    row_at t (rows out) = Some bar /\
    cell_at (columns base_df) (Flat c) bar = cell_at (columns base_df) (Flat c) cells.
Proof.
  intros Hp Hlt Hplain Hs Hc Eo Eh El Ec Ev Hin.
  unfold plain in Hplain. apply negb_true_iff in Hplain.
  rewrite (accurate_is_partial_bars cal base_df higher_tf Hs).
  apply strictly_increasing_sorted in Hs.
  pose proof (row_at_In t cells (rows base_df) Hs Hin) as Hrow.
  unfold partial_bars, partial_row. rewrite Hp.
  change (priority (Some "day"%string)) with (@Ok Z 1). cbn [bind].
  replace (p <=? 1) with false by (symmetry; apply Z.leb_gt; lia).
  rewrite (simple_cols_plain _ Hplain). cbn [bind].
  do 2 eexists. split; [reflexivity |]. cbn [rows].
  rewrite (row_at_map_keyed
             (fun x => cum_row _ _ (seen_so_far cal (freq_of higher_tf) (rows base_df) x))).
  rewrite Hrow. split; [reflexivity |].
  set (oc := detect_ohlc (map label_name (columns base_df))).
  set (part := seen_so_far cal (freq_of higher_tf) (rows base_df) t).
  destruct (detect_ohlc_roles (map label_name (columns base_df)))
    as (R1 & R2 & R3 & R4 & R5). fold oc in R1, R2, R3, R4, R5.
  assert (Hkey : forall name word,
             (forall s, name = Some s -> contains word (lower s) = true) ->
             contains word (lower c) = false ->
             in_columns name (columns base_df) = true -> key_of name <> Flat c).
  { intros [s |] word Hname Hword Hcol; [| discriminate].
    cbn [key_of]. intros [= ->]. rewrite (Hname c eq_refl) in Hword. discriminate. }
  unfold cum_row. cbv zeta.
  rewrite (cell_at_map (columns base_df) _ (Flat c) Hc).
  unfold row_dict_of. cbv zeta.
  rewrite (fill_last_sets (columns base_df) part (columns base_df) _ (Flat c));
    [| | exact Hc].
  - unfold part. rewrite seen_so_far_upto.
    destruct (rows_upto_ends t cells (rows base_df) Hs Hin) as [pre ->].
    rewrite filter_app. cbn [filter fst]. rewrite Z.eqb_refl.
    unfold iloc_last, column_of. rewrite map_app. cbn [map snd].
    now rewrite last_last.
  - repeat match goal with
           | |- dict_get (Flat c) (if in_columns ?name _ then dict_set _ ?v ?d else ?d) = None =>
               destruct (in_columns name (columns base_df)) eqn:?;
               [rewrite dict_get_set;
                replace (label_eqb (Flat c) (key_of name)) with false;
                [| symmetry; apply label_eqb_neq; intros Heq; symmetry in Heq; revert Heq;
                   eapply Hkey; eauto]
               |]
           end; reflexivity.
Qed.

Lemma accurate_passes_other_columns_witness :
  exists out bar,
    _to_higher_tf_accurate UtcMinutes.calendar MoreSamples.with_factor (Some "week"%string)
    = Ok out /\
    row_at 15840 (rows out) = Some bar /\
    cell_at (columns MoreSamples.with_factor) (Flat "Beta") bar
    = cell_at (columns MoreSamples.with_factor) (Flat "Beta")
        [Some 13; Some 14; Some 8; Some 9; Some 400; Some 6].
Proof.
  apply (accurate_passes_other_columns UtcMinutes.calendar MoreSamples.with_factor
           (Some "week"%string) 2 "Beta" 15840
           [Some 13; Some 14; Some 8; Some 9; Some 400; Some 6]);
    try reflexivity; cbn; tauto.
Defined.

(* ================================================================== *)
(** * The order of the rows, and tables with one-level columns *)

Lemma insert_row_comm (x y : row) (l : list row) :
  fst x <> fst y -> insert_row x (insert_row y l) = insert_row y (insert_row x l).
Proof.
  intros Hne. induction l as [| z l IH]; cbn [insert_row].
  - destruct (fst x <=? fst y) eqn:Exy, (fst y <=? fst x) eqn:Eyx; try reflexivity;
      rewrite ?Z.leb_le, ?Z.leb_gt in *; lia.
  - destruct (fst y <=? fst z) eqn:Eyz, (fst x <=? fst z) eqn:Exz;
      cbn [insert_row]; rewrite ?Eyz, ?Exz.
    + destruct (fst x <=? fst y) eqn:Exy, (fst y <=? fst x) eqn:Eyx; try reflexivity;
        rewrite ?Z.leb_le, ?Z.leb_gt in *; lia.
    + replace (fst x <=? fst y) with false; [reflexivity |].
      symmetry. rewrite ?Z.leb_le, ?Z.leb_gt in *. lia.
    + replace (fst y <=? fst x) with false; [reflexivity |].
      symmetry. rewrite ?Z.leb_le, ?Z.leb_gt in *. lia.
    + now rewrite IH.
Qed.

Lemma by_time_permutation (rs rs' : list row) :
  Permutation rs rs' -> NoDup (map fst rs) -> by_time rs = by_time rs'.
Proof.
  unfold by_time.
  induction 1 as [| x l l' Hp IH | x y l | l l' l'' Hp1 IH1 Hp2 IH2]; intros Hnd;
    cbn [fold_right].
  - reflexivity.
  - cbn [map] in Hnd. inversion Hnd; subst. now rewrite IH.
  - cbn [map] in Hnd. inversion Hnd as [| ? ? Hy Hnd']; subst.
    apply insert_row_comm. intros Heq. apply Hy. left. now symmetry.
  - rewrite IH1 by exact Hnd. apply IH2.
    eapply Permutation_NoDup; [| exact Hnd]. now apply Permutation_map.
Qed.

Lemma list_min_In (l : list Z) (d : Z) : In (list_min d l) (d :: l).
Proof.
  unfold list_min. revert d. induction l as [| y l IH]; intros d; cbn [fold_left].
  - now left.
  - destruct (IH (Z.min d y)) as [H | H].
    + rewrite <- H. destruct (Z.min_spec d y) as [[_ E] | [_ E]]; rewrite E; cbn [In]; auto.
    + cbn [In]. auto.
Qed.

Lemma list_max_In (l : list Z) (d : Z) : In (list_max d l) (d :: l).
Proof.
  unfold list_max. revert d. induction l as [| y l IH]; intros d; cbn [fold_left].
  - now left.
  - destruct (IH (Z.max d y)) as [H | H].
    + rewrite <- H. destruct (Z.max_spec d y) as [[_ E] | [_ E]]; rewrite E; cbn [In]; auto.
    + cbn [In]. auto.
Qed.

Lemma list_min_same (d d' : Z) (l l' : list Z) :
  (forall x, In x (d :: l) <-> In x (d' :: l')) -> list_min d l = list_min d' l'.
Proof.
  intros H.
  pose proof (list_min_spec l d) as [H1 H2].
  pose proof (list_min_spec l' d') as [H1' H2'].
  pose proof (proj1 (H _) (list_min_In l d)) as [Ha | Ha];
    pose proof (proj2 (H _) (list_min_In l' d')) as [Hb | Hb];
    try specialize (H2 _ Hb); try specialize (H2' _ Ha); lia.
Qed.

Lemma list_max_same (d d' : Z) (l l' : list Z) :
  (forall x, In x (d :: l) <-> In x (d' :: l')) -> list_max d l = list_max d' l'.
Proof.
  intros H.
  pose proof (list_max_spec l d) as [H1 H2].
  pose proof (list_max_spec l' d') as [H1' H2'].
  pose proof (proj1 (H _) (list_max_In l d)) as [Ha | Ha];
    pose proof (proj2 (H _) (list_max_In l' d')) as [Hb | Hb];
    try specialize (H2 _ Hb); try specialize (H2' _ Ha); lia.
Qed.

(** [resample(...).agg(...)] sees the rows through their timestamps only. *)
Lemma resample_agg_permutation (cal : Calendar) (freq : string) (e : edges)
    (agg_dict : list (label * aggfun)) (df df' : DataFrame) :
  columns df' = columns df ->
  Permutation (rows df) (rows df') ->
  NoDup (index df) ->
  resample_agg cal freq e agg_dict df = resample_agg cal freq e agg_dict df'.
Proof.
  intros Hcols Hperm Hnd. unfold resample_agg. rewrite Hcols.
  destruct (negb (valid_freq cal freq)); [reflexivity |].
  destruct (missing_key (columns df) agg_dict); [reflexivity |].
  destruct agg_dict as [| kf d'] eqn:Hd; [reflexivity |]. rewrite <- Hd. clear Hd.
  rewrite <- (by_time_permutation _ _ Hperm Hnd).
  assert (Hidx : Permutation (index df) (index df')) by (now apply Permutation_map).
  destruct (index df) as [| t0 ts] eqn:E, (index df') as [| t0' ts'] eqn:E'.
  - reflexivity.
  - apply Permutation_nil in Hidx. discriminate.
  - apply Permutation_sym, Permutation_nil in Hidx. discriminate.
  - assert (Hin : forall x, In x (t0 :: ts) <-> In x (t0' :: ts')).
    { intros x. split; apply Permutation_in; [| apply Permutation_sym]; exact Hidx. }
    cbv zeta. rewrite <- (list_min_same _ _ _ _ Hin).
    set (origin := list_min t0 ts).
    assert (Hords : forall b,
               In b (bin_of cal freq e origin t0 :: map (bin_of cal freq e origin) (t0 :: ts))
               <-> In b (bin_of cal freq e origin t0'
                           :: map (bin_of cal freq e origin) (t0' :: ts'))).
    { intros b. split; intros [<- | Hb].
      - right. apply in_map, Hin. now left.
      - right. apply in_map_iff in Hb. destruct Hb as (x & <- & Hx).
        apply in_map, Hin, Hx.
      - right. apply in_map, Hin. now left.
      - right. apply in_map_iff in Hb. destruct Hb as (x & <- & Hx).
        apply in_map, Hin, Hx. }
    rewrite <- (list_min_same _ _ _ _ Hords), <- (list_max_same _ _ _ _ Hords).
    reflexivity.
Qed.

(** X29. [convert] and [toTimeframe] do not depend on the order in which the
    rows of the frame are given: two frames with the same columns whose rows
    are the same up to their order, under timestamps that are all different,
    get the same result (or the same exception). *)
Theorem aggregation_ignores_row_order (cal : Calendar) (df df' : DataFrame) :
  columns df' = columns df ->
  Permutation (rows df) (rows df') ->
  NoDup (index df) ->
  (forall conversion, convert cal df conversion = convert cal df' conversion) /\
  (forall timeframe ohlc,
     toTimeframe cal df timeframe ohlc = toTimeframe cal df' timeframe ohlc).
Proof.
  intros Hcols Hperm Hnd. split.
  - intros [from_tf [n | s |]]; unfold convert; cbn [resample_agg_obj];
      rewrite ?(resample_agg_permutation cal _ DefaultEdges ohlcv_agg df df' Hcols Hperm Hnd);
      reflexivity.
  - intros timeframe ohlc. unfold toTimeframe. rewrite Hcols.
    destruct (build_agg_dict _ (columns df) []) as [d |]; cbn [bind]; [| reflexivity].
    now rewrite (resample_agg_permutation cal _ LeftEdges d df df' Hcols Hperm Hnd).
Qed.

Lemma aggregation_ignores_row_order_witness :
  convert UtcMinutes.calendar Samples.base5 (1, TInt 5) =
  convert UtcMinutes.calendar MoreSamples.base5_unsorted (1, TInt 5) /\
  toTimeframe UtcMinutes.calendar Samples.base5 (Some "day"%string) None =
  toTimeframe UtcMinutes.calendar MoreSamples.base5_unsorted (Some "day"%string) None.
Proof.
  assert (Hperm : Permutation (rows Samples.base5) (rows MoreSamples.base5_unsorted)).
  { cbn [rows Samples.base5 MoreSamples.base5_unsorted].
    apply (Permutation_cons_app [_] [_; _; _]).
    apply (Permutation_cons_app [_; _] [_]).
    apply (Permutation_cons_app [_; _] []).
    apply Permutation_refl. }
  assert (Hnd : NoDup (index Samples.base5)).
  { repeat constructor; cbn; intuition discriminate. }
  destruct (aggregation_ignores_row_order UtcMinutes.calendar Samples.base5
              MoreSamples.base5_unsorted eq_refl Hperm Hnd) as [Hc Ht].
  split; [apply Hc | apply Ht].
Defined.

Lemma dict_comp_all_ok (f : string -> result DataFrame) (syms : list string) :
  (forall s, In s syms -> succeeds (f s)) ->
  exists m, dict_comp f syms = Ok m /\ map fst m = syms /\
            forall s out, In (s, out) m -> f s = Ok out.
Proof.
  intros H. pose proof (dict_comp_spec f syms) as Hspec.
  destruct (dict_comp f syms) as [m | x].
  - exists m. destruct Hspec. auto.
  - destruct Hspec as (pre & s & post & -> & Hs & _).
    destruct (H s) as [a Ha]; [apply in_elt | congruence].
Qed.

Lemma unique_NoDup_id (l : list string) : NoDup l -> unique l = l.
Proof.
  induction 1 as [| x l Hx Hnd IH]; cbn [unique]; [reflexivity |].
  rewrite IH. f_equal. apply filter_all. intros y Hy.
  apply negb_true_iff, String.eqb_neq. intros ->. contradiction.
Qed.

Lemma plain_level0 (cols : list label) :
  existsb is_multi cols = false -> map level0 cols = map label_name cols.
Proof.
  induction cols as [| [c | g f] cols IH]; cbn [existsb is_multi orb map]; intros H;
    [reflexivity | | discriminate].
  cbn [level0 label_name]. now rewrite IH.
Qed.

Lemma plain_In_name (cols : list label) (s : string) :
  existsb is_multi cols = false -> In s (map label_name cols) -> In (Flat s) cols.
Proof.
  intros Hp Hin. apply in_map_iff in Hin. destruct Hin as ([c | g f] & <- & Hc).
  - exact Hc.
  - exfalso. assert (H : existsb is_multi cols = true)
      by (apply existsb_exists; exists (Multi g f); auto).
    congruence.
Qed.

Lemma plain_names_NoDup (cols : list label) :
  existsb is_multi cols = false -> NoDup cols -> NoDup (map label_name cols).
Proof.
  intros Hp Hnd. induction Hnd as [| c cols Hc Hnd IH]; cbn [map]; [constructor |].
  cbn [existsb] in Hp. apply orb_false_iff in Hp. destruct Hp as [Hc0 Hp].
  constructor; [| now apply IH].
  intros Hin. apply Hc. destruct c as [c | g f]; [| discriminate].
  cbn [label_name] in Hin. now apply plain_In_name.
Qed.

Lemma plain_not_multiindex (cols : list label) :
  existsb is_multi cols = false -> is_multiindex cols = false.
Proof.
  destruct cols as [| c cols]; [reflexivity |].
  cbn [existsb is_multiindex forallb]. intros H. apply orb_false_iff in H.
  destruct H as [-> _]. reflexivity.
Qed.

Lemma filter_plain_name (cols : list label) (s : string) :
  existsb is_multi cols = false -> NoDup cols -> In (Flat s) cols ->
  filter (fun c => String.eqb (level0 c) s) cols = [Flat s].
Proof.
  intros Hp Hnd. induction Hnd as [| c cols Hc Hnd IH]; intros Hin; [contradiction |].
  cbn [existsb] in Hp. apply orb_false_iff in Hp. destruct Hp as [Hc0 Hp].
  destruct c as [c | g f]; [| discriminate]. cbn [filter level0].
  destruct (String.eqb c s) eqn:E.
  - apply String.eqb_eq in E. subst c. f_equal.
    assert (Hnone : forall l, ~ In (Flat s) l -> existsb is_multi l = false ->
                              filter (fun c => String.eqb (level0 c) s) l = []).
    { induction l as [| [c | g f] l IHl]; intros Hn Hpl; cbn [filter level0];
        [reflexivity | | cbn in Hpl; discriminate].
      cbn [existsb is_multi orb] in Hpl.
      destruct (String.eqb c s) eqn:E'.
      - apply String.eqb_eq in E'. subst. exfalso. apply Hn. now left.
      - apply IHl; [| exact Hpl]. intros H. apply Hn. now right. }
    now apply Hnone.
  - destruct Hin as [[= ->] | Hin]; [rewrite String.eqb_refl in E; discriminate |].
    now apply IH.
Qed.

(** X30. On a table with one-level, distinct column labels [convertMany]
    converts every column as a series: for a target that is a multiple of
    the source, under an alias pandas accepts, it succeeds, with one entry
    per column, in column order, each with the columns Open, High, Low,
    Close, Volume. *)
Theorem convertMany_plain_table (cal : Calendar) (data : DataFrame) (from_tf to_tf : Z) :
  plain (columns data) = true ->
  distinct (columns data) = true ->
  from_tf <> 0 -> to_tf mod from_tf = 0 -> 1 <= to_tf / from_tf ->
  valid_freq cal (py_str_int to_tf ++ "min") = true ->
  exists m,
    convertMany cal data (from_tf, TInt to_tf) = Ok m /\
    map fst m = map label_name (columns data) /\
    forall s out, In (s, out) m ->
      columns out = [Flat "Open"; Flat "High"; Flat "Low"; Flat "Close"; Flat "Volume"].
Proof.
  intros Hplain Hdist Hf Hmod Hdiv Hv.
  unfold plain in Hplain. apply negb_true_iff in Hplain.
  apply distinct_NoDup in Hdist.
  assert (Hsyms : symbols data = map label_name (columns data)).
  { unfold symbols. rewrite (plain_level0 _ Hplain).
    apply unique_NoDup_id. now apply plain_names_NoDup. }
  assert (Hconv : forall s, In s (symbols data) ->
            exists out, convert cal (getitem data s) (from_tf, TInt to_tf) = Ok out /\
                        columns out = [Flat "Open"; Flat "High"; Flat "Low";
                                       Flat "Close"; Flat "Volume"]).
  { intros s Hs. rewrite Hsyms in Hs. apply (plain_In_name _ _ Hplain) in Hs.
    unfold getitem. cbv zeta. rewrite (plain_not_multiindex _ Hplain).
    rewrite (filter_plain_name _ _ Hplain Hdist Hs).
    unfold convert, py_floordiv.
    replace (from_tf =? 0) with false by (symmetry; now apply Z.eqb_neq).
    cbn [bind].
    replace (to_tf / from_tf <? 1) with false by (symmetry; apply Z.ltb_ge; lia).
    replace (to_tf mod from_tf =? 0) with true by (symmetry; now apply Z.eqb_eq).
    cbn [orb negb resample_agg_obj].
    match goal with
    | |- context [resample_agg cal ?f DefaultEdges ohlcv_agg ?d] =>
        destruct (resample_agg_ok cal f DefaultEdges ohlcv_agg d Hv eq_refl
                    ltac:(discriminate)) as [r Hr]
    end.
    rewrite Hr. cbn [bind]. eexists. split; [reflexivity |].
    cbn [columns dropna_any]. now rewrite (proj1 (resample_agg_rows _ _ _ _ _ _ Hr)). }
  destruct (dict_comp_all_ok
              (fun symbol => convert cal (getitem data symbol) (from_tf, TInt to_tf))
              (symbols data)) as (m & Hm & Hkeys & Hvals).
  { intros s Hs. destruct (Hconv s Hs) as (out & Hout & _). now exists out. }
  exists m. unfold convertMany. rewrite Hm. repeat split.
  - now rewrite Hkeys.
  - intros s out Hin.
    assert (Hs : In s (symbols data)) by (rewrite <- Hkeys; apply (in_map fst _ _ Hin)).
    destruct (Hconv s Hs) as (out' & Hout' & Hcols).
    rewrite (Hvals s out Hin) in Hout'. now injection Hout' as ->.
Qed.

Lemma convertMany_plain_table_witness :
  exists m,
    convertMany UtcMinutes.calendar MoreSamples.closes (1, TInt 5) = Ok m /\
    map fst m = map label_name (columns MoreSamples.closes) /\
    forall s out, In (s, out) m ->
      columns out = [Flat "Open"; Flat "High"; Flat "Low"; Flat "Close"; Flat "Volume"].
Proof.
  apply (convertMany_plain_table UtcMinutes.calendar MoreSamples.closes 1 5);
    reflexivity || (vm_compute; discriminate).
Defined.
